(* ===== verification/_CoqProject ===== *)
-Q . S2P
Prelude.v
DateFormat.v
Video.v
Model.v
Gateway.v
GatewaySpec.v
ServiceContract.v
Retry.v
QueryCache.v
Hooks.v
Screens.v
AdminScreens.v
AddEditForm.v
Store.v
Settings.v
Login.v
AdminFlow.v
Navigation.v
Menus.v
Components.v
Journeys.v
