(* ===== verification/Prelude.v ===== *)
(** * News-App: a verification development of its data, cache and screens

    The program (the sources under [src/]) is a React Native client for a
    news table stored in Supabase.  Its parts and how they interact:
    - the gateway [src/src/api/newsService.ts] reads and writes the table
      through PostgREST queries;
    - the query hooks [src/src/hooks/useNews.ts] wrap each read in a
      react-query [useQuery] (a cache key, a query function, [staleTime])
      and each write in a [useMutation] that invalidates a key prefix;
    - the query client of [src/App.tsx] fixes the retry policy
      ([retry: 3], exponential [retryDelay]) and the default [staleTime]
      and [gcTime];
    - the screens ([src/src/screens]) render a query's result as a spinner,
      an error or content, refresh on pull, navigate, and (admin side)
      create, update and delete articles; the video player
      ([components/common/VideoPlayer.tsx]) is a small state machine;
    - the Redux store ([src/src/redux]) holds the admin, settings and
      category slices; [AppNavigator.tsx] nests the navigators.

    ** Files, in dependency order
    - [Prelude] (this file): the [result] type of fallible operations and
      its notation (scope [news_scope]), association lists, list lemmas on
      [take]/sorting shared by the gateway, the reflexive-transitive
      closure [star] with [star_invariant], JavaScript's [trim] and
      [toUpperCase], the hint
      database [newsapp] and the tactics [pick_elem], [pick_exists],
      [invc] and [result_simpl].
    - [Video] (Module [Video]): [VideoPlayer]: [mount], [video_step] on
      [VideoEvent]s, [render].
    - [Model]: [NewsItem], [Category], drafts and patches, and the
      category slice ([categoryReducer]).
    - [DateFormat] (Module [DateFormat]): NewsCard's [formatDate]: ISO
      parsing ([parse_iso], the [new Date(..)] of a string), the calendar
      ([days_in_month], [prev_day], [next_day]), the device's date
      ([local_date]), the en-US short date ([show_date]), and
      [toISOString] ([iso_of]), which [createNews] uses for [published_at];
      and NewsDetailScreen's long format ([formatDateLong]) with
      ECMAScript's day number ([DayFromYear], [day_number], [WeekDay]).
    - [Gateway] (Module [Gateway]): every function of [newsService.ts]
      ([getAllNews], [getNewsByCategory], [getLatestNews] ...
      [getNewsById], [createNews], [updateNews], [deleteNews]) over a
      [Table]; the environment [Env] carries the fault a request may hit
      and the clocks.
    - [GatewaySpec] (Module [GatewaySpec]): the contract of the gateway as
      a finite map [gmap string NewsItem] from id to article with its
      steps [store_step] (insert a fresh key, replace, delete), the
      abstraction [abs] of a table, and the refinement of the gateway's
      writes into it.
    - [Retry] (Module [Retry]): [retry], [retryDelay] and react-query's
      retryer, both as the loop [retry_loop]/[run_retryer] on the number
      of retries left and as [retryer_run], defined with Equations by
      well-founded recursion on [retry - failureCount] as the retryer
      counts.
    - [QueryCache] (Module [QueryCache]): react-query's cache as a [Client]
      record (a [gmap] from keys to [Query] records, and the log of query
      function calls); [subscribe], [fetch], [settle], [refetch],
      [invalidateQueries], [unsubscribe] and [gc] are its operations.
    - [Hooks] (Module [Hooks]): the app's queries ([AppQuery],
      [hook_options], [hook_queryFn]) and mutations ([useCreateNews] ...,
      [addEditCreate], [addEditUpdate]) on the cache and the gateway.
    - [Screens] (Module [Screens]): [HomeScreen], [CategoryScreen],
      [NewsDetailScreen] and the home refresh handler.
    - [AdminScreens] (Module [AdminScreens]): the dashboard's view, stats
      and delete handler; the add/edit form's field edits, [validateForm],
      [handleSubmit] and view.
    - [Store] (Module [Store]): the admin and settings slices, the root
      reducer, the settings switches.
    - [Settings] (Module [Settings]): [SettingsScreen]'s sections, items,
      switches and dividers over the store.
    - [AddEditForm] (Module [AddEditForm]): the add/edit screen's state
      ([formData] and [errors]), its events and its rendered fields,
      error messages and category chips.
    - [Login] (Module [Login]): [AdminLoginScreen]'s handlers and timers.
    - [Navigation] (Module [Navigation]): the navigator tree and every
      [navigate]/[replace] call of the screens.
    - [AdminFlow] (Module [AdminFlow]): the admin section as one system:
      the admin stack's routes with their keys and the login screen's
      state, the drawer's focus, the store's admin slice and the pending
      login timeouts; the login, dashboard and form handlers as one step
      function [flow_step]; the stack router's [push], [replace] and
      [goBack] acting on the issuing route; the login screen's view.
    - [Menus] (Module [Menus]): [CustomDrawerContent]'s and
      [CategoriesScreen]'s rendered buttons and where they lead.
    - [Components] (Module [Components]): [NewsCard]'s fields,
      [HorizontalNewsCarousel]'s header, SEE MORE button and empty state,
      the home screen's four carousels, and [HorizontalTextTicker]'s
      widths, layout handlers and effect as a step function, with the one
      loop running on its [translateX] (starting an animation on an
      [Animated.Value] stops the one running on it).
    - [ServiceContract] (Module [ServiceContract]): what the hooks and the
      admin screens rely on of [newsService] as a class, [NewsService]
      (its functions, the map of articles a backend holds, and each
      function's law); client lemmas proved from the laws alone in a
      Section over any instance; the table model's instance
      [gateway_service].
    - [Journeys] (Module [Journeys]): the path of a pressed news card
      through the navigator tree, the detail screen's hook, the gateway
      and the player; and [App], the store, the empty query cache and the
      app navigator that [App.tsx] starts from.

    ** What the theorems show
    - Gateway (C1, C2, C15, C22): each reader returns exactly the rows it
      selects, newest first and limited; a delete does what it says and is
      seen by [getNewsById]; a failed request changes nothing.
    - Gateway contract (C7, C19, C20): on a healthy backend each service
      call refines an operation of the id-to-article map; every run of the
      app's writes, each in its own environment, is simulated write by
      write by the map operations ([store_write]); and, proved from the
      class's laws and discharged by the table model, writes read back as
      written.
    - Composition (C18): pressing any stored article's card, on the home
      tab or a category screen, opens the detail screen on that very
      article with its player playing.
    - Cache and hooks (C3-C6, C8, C12, C13, C16): which writes invalidate
      which screens' queries (the admin form invalidates none of the
      readers'), request deduplication, the five-minute freshness window,
      the ten-minute eviction, that a refresh supersedes a running fetch,
      and that a failed mutation (a fault, or an edit of an article no
      longer in the table) changes nothing.
    - Retry (C9, C11, C14): a failing query function is called four times,
      1 s, 2 s and 4 s apart; the delays are bounded by 30 s; the retryer
      stops for every query function.  A lemma shows its two definitions
      agree.
    - Admin section (C10, C17, C27, C31, C33): with button submissions the
      admin screens are open only to a signed-in admin, and the login
      button is disabled exactly while a timeout is pending; a keyboard
      submission during a pending correct login breaks the first (C17);
      going to the form and back returns the same dashboard; the login
      flow itself.
    - Dates (C24): a card shows the UTC date moved to the device's time
      zone.  Lemmas of [DateFormat] show that parsing inverts
      [toISOString], that the week day advances with the calendar, and
      what the detail screen's line prints at UTC.
    - Screens and components (C21, C23, C25, C26, C28-C30, C32, C34-C37):
      what each screen shows for each query result (the home carousels
      after a load, a missing article after its retries), that the ticker
      runs exactly one loop, the one for its current widths, that every
      navigation call reaches a screen with the params it reads, the
      player's error/retry cycle, the settings switches, the form's error
      messages, its submission and its single highlighted category, and
      the dashboard's delete.

    ** Bounds and modelling choices
    Times are milliseconds as [Z] ([Date.now()] and [setTimeout] delays);
    counts are [nat].  No definition needs fuel: the retryer recurses on
    the number of retries left (at most [retry = 3]), or with Equations
    on the measure [retry - failureCount], the navigation
    resolver on the nested params, every other loop on a list.  The row
    order of [.order('published_at')] is a stable merge sort on the
    ISO-8601 strings, whose lexicographic order is the time order.  The
    device's time zone is a fixed offset in minutes (no daylight-saving
    change within a day) of at most a day; dates have four-digit years,
    as [toISOString] prints them for the app's clock, and [parse_iso]
    reads the "Z"-suffixed strings [toISOString] prints (seconds and any
    other zone designator are ignored).  Widths of the ticker are whole
    pixels as [Z]; its [speed] and the loop's duration are rationals
    ([Q]), the speed positive (its default is 50).  The admin section's runs are lists of
    events folded by [flow_step]; the pending timeouts fire in the order
    they were scheduled (they all have the same 500 ms delay).

    ** Not modelled
    The react-query and React Navigation libraries are modelled from their
    documented behaviour, only as far as the app uses them (no window
    focus or reconnect refetch; of the navigators' histories only the
    admin stack's, in [AdminFlow]); the Supabase client
    and the [ErrorMessage] component are imported but absent from the
    repository; layout, styles and animations ([StyleSheet.create] blocks,
    [LoadingSpinner], [SplashScreen]'s fade, carousel scrolling, the
    ticker's timing curve) have no state the rest of the app reads.  Of
    the main stack's history only the screen a navigation call reaches is
    modelled, not which screen a refocused navigator shows.
    Both date formats assume the en-US output of the Intl data current
    runtimes ship ("Thursday, May 2, 2024 at 03:00 AM"), with an ASCII
    space before AM/PM where ICU 72 and later print U+202F; [trim]
    strips ASCII whitespace only.
    [new URL(..)] (the form's URL check) is a parameter of the form's
    section. *)

From stdpp Require Import base list strings gmap sorting.

(** ** Results of fallible operations

    The service functions of [src/src/api/newsService.ts] either return a
    value or [throw error]; the error is the value the caller's [catch] or
    react-query's retryer receives.  [result E A] is that outcome. *)
Inductive result (E A : Type) : Type :=
  | Ok (a : A)
  | Err (e : E).
Arguments Ok {E A} a.
Arguments Err {E A} e.

Definition result_bind {E A B} (r : result E A) (k : A -> result E B) : result E B :=
  match r with
  | Ok a => k a
  | Err e => Err e
  end.

Definition result_map {E A B} (f : A -> B) (r : result E A) : result E B :=
  result_bind r (fun a => Ok (f a)).

Definition is_ok {E A} (r : result E A) : bool :=
  match r with Ok _ => true | Err _ => false end.

Declare Scope news_scope.
Delimit Scope news_scope with news.
Notation "x <-? r ;; k" := (result_bind r (fun x => k))
  (at level 60, r at next level, right associativity) : news_scope.

(** ** Generic list facts shared by the components *)

Create HintDb newsapp.

Section ListFacts.
Context {A : Type}.

Lemma take_length_le (n : nat) (l : list A) : length (take n l) <= n.
Proof. rewrite length_take. lia. Qed.

Lemma take_sublist (n : nat) (l : list A) (x : A) : x ∈ take n l -> x ∈ l.
Proof. apply subseteq_take. Qed.

Lemma elem_of_filter_iff (P : A -> Prop) `{!∀ x, Decision (P x)} (l : list A) (x : A) :
  x ∈ filter P l <-> P x /\ x ∈ l.
Proof. apply list_elem_of_filter. Qed.

(** [Sorted] prefixes of sorted lists stay sorted. *)
Lemma Sorted_take (R : relation A) (n : nat) (l : list A) :
  Sorted R l -> Sorted R (take n l).
Proof.
  revert l. induction n as [|n IH]; intros [|x l] Hs; simpl; try constructor.
  - inversion Hs as [|? ? Hs' Hhd]; subst.
    apply IH; auto.
  - inversion Hs as [|? ? Hs' Hhd]; subst.
    destruct l as [|y l], n as [|n]; simpl; constructor.
    inversion Hhd; subst; auto.
Qed.
(** In a strongly sorted list every element of a prefix is related to
    every element after it: what [.order(..).limit(n)] relies on. *)
Lemma StronglySorted_take_drop (R : relation A) (n : nat) (l : list A) (x y : A) :
  StronglySorted R l -> x ∈ take n l -> y ∈ drop n l -> R x y.
Proof. rewrite <- (take_drop n l) at 1. apply StronglySorted_app_1_elem_of. Qed.

Lemma StronglySorted_take (R : relation A) (n : nat) (l : list A) :
  StronglySorted R l -> StronglySorted R (take n l).
Proof. rewrite <- (take_drop n l) at 1. apply StronglySorted_app_1_l. Qed.

(** What is not in a prefix of [l] but is in [l] is in the rest. *)
Lemma elem_of_drop_not_take (n : nat) (l : list A) (y : A) :
  y ∈ l -> y ∉ take n l -> y ∈ drop n l.
Proof. rewrite <- (take_drop n l) at 1. rewrite elem_of_app. tauto. Qed.

Lemma list_max_ge (l : list nat) (k : nat) : k ∈ l -> k <= list_max l.
Proof.
  intros Hk. pose proof (proj1 (list_max_le l (list_max l)) (le_n _)) as Hall.
  rewrite Forall_forall in Hall. by apply Hall.
Qed.
End ListFacts.

#[export] Hint Resolve take_length_le take_sublist StronglySorted_take : newsapp.

(** ** Association lists

    A JS object literal used as a table ([{ latest: '...', ... }[k]]) or
    a list of named entries searched by name: the first entry wins. *)
Fixpoint assoc {K V} `{EqDecision K} (k : K) (l : list (K * V)) : option V :=
  match l with
  | [] => None
  | (k', v) :: l' => if decide (k = k') then Some v else assoc k l'
  end.

Lemma assoc_None {K V} `{EqDecision K} (k : K) (l : list (K * V)) :
  assoc k l = None <-> k ∉ fst <$> l.
Proof.
  induction l as [|[k' v] l IH]; simpl; [set_solver|].
  rewrite not_elem_of_cons. case_decide; naive_solver.
Qed.

Lemma assoc_elem_of {K V} `{EqDecision K} (k : K) (v : V) (l : list (K * V)) :
  assoc k l = Some v -> (k, v) ∈ l.
Proof.
  induction l as [|[k' v'] l IH]; simpl; [done|].
  case_decide as Hk; intros Hv; simplify_eq; set_solver.
Qed.

(** ** Transition systems

    Reflexive-transitive closure of a step relation, for the reachability
    arguments on the state machines of the development. *)
Section Star.
Context {S : Type} (step : S -> S -> Prop).

Inductive star : S -> S -> Prop :=
  | star_refl s : star s s
  | star_step s1 s2 s3 : step s1 s2 -> star s2 s3 -> star s1 s3.

Lemma star_one s1 s2 : step s1 s2 -> star s1 s2.
Proof. eauto using star. Qed.

Lemma star_trans s1 s2 s3 : star s1 s2 -> star s2 s3 -> star s1 s3.
Proof. induction 1; eauto using star. Qed.

(** An invariant that holds initially and is kept by every step holds in
    every reachable state. *)
Lemma star_invariant (I : S -> Prop) :
  (forall s s', I s -> step s s' -> I s') -> forall s s', star s s' -> I s -> I s'.
Proof. intros Hstep s s' Hs. induction Hs; eauto. Qed.
End Star.
Arguments star {S} step _ _.

(** ** JavaScript strings *)

(** [String.prototype.trim] on ASCII text: drop the whitespace characters
    (tab, line feed, vertical tab, form feed, carriage return, space) at
    both ends. *)
Fixpoint trim_start (s : string) : string :=
  match s with
  | EmptyString => EmptyString
  | String c s' => if Ascii.is_space c then trim_start s' else s
  end.

Definition trim (s : string) : string := String.rev (trim_start (String.rev (trim_start s))).

(** [String.prototype.toUpperCase] on ASCII text. *)
Definition ascii_to_upper (c : Ascii.ascii) : Ascii.ascii :=
  let n := Ascii.nat_of_ascii c in
  if Nat.leb 97 n && Nat.leb n 122 then Ascii.ascii_of_nat (n - 32) else c.

Fixpoint toUpperCase (s : string) : string :=
  match s with
  | EmptyString => EmptyString
  | String c s' => String (ascii_to_upper c) (toUpperCase s')
  end.

(** Every character is whitespace. *)
Definition blank (s : string) : bool := forallb Ascii.is_space (String.list_ascii_of_string s).

Lemma rev_app_chars (s1 s2 : string) :
  String.list_ascii_of_string (String.rev_app s1 s2) =
    (reverse (String.list_ascii_of_string s1) ++ String.list_ascii_of_string s2)%list.
Proof.
  revert s2. induction s1 as [|c s1 IH]; intros s2; [done|]. simpl.
  rewrite IH. simpl. by rewrite reverse_cons, <- (assoc_L app).
Qed.

Lemma blank_rev (s : string) : blank (String.rev s) = blank s.
Proof.
  unfold blank, String.rev. rewrite rev_app_chars, app_nil_r.
  induction (String.list_ascii_of_string s) as [|c l IH]; [done|].
  rewrite reverse_cons, forallb_app, IH. simpl. by rewrite andb_true_r, andb_comm.
Qed.

Lemma rev_empty (s : string) : String.rev s = EmptyString <-> s = EmptyString.
Proof.
  split; [|by intros ->]. intros H.
  assert (Hl : String.list_ascii_of_string (String.rev s) = []) by (by rewrite H).
  unfold String.rev in Hl. rewrite rev_app_chars, app_nil_r in Hl.
  apply (f_equal reverse) in Hl. rewrite reverse_involutive in Hl.
  destruct s; [done|discriminate].
Qed.

Lemma trim_start_empty (s : string) : trim_start s = EmptyString <-> blank s = true.
Proof.
  induction s as [|c s IH]; [done|]. unfold blank in *. simpl.
  destruct (Ascii.is_space c); simpl; [done|]. split; discriminate.
Qed.

(** [trim_start] stops at a non-space character. *)
Lemma trim_start_blank (s : string) : blank (trim_start s) = true -> trim_start s = EmptyString.
Proof.
  induction s as [|c s IH]; [done|]. simpl. destruct (Ascii.is_space c) eqn:Hc; [done|].
  unfold blank. simpl. by rewrite Hc.
Qed.

(** [!s.trim()]: the trimmed string is empty exactly when every character
    of [s] is whitespace. *)
Lemma trim_empty_iff (s : string) : trim s = EmptyString <-> blank s = true.
Proof.
  unfold trim. rewrite rev_empty, trim_start_empty, blank_rev.
  split; [|intros H; by rewrite (proj2 (trim_start_empty s) H)].
  intros H. apply trim_start_empty. by apply trim_start_blank.
Qed.

Lemma bool_decide_trim_empty (s : string) : bool_decide (trim s = EmptyString) = blank s.
Proof.
  destruct (blank s) eqn:Hb.
  - apply bool_decide_eq_true_2. by apply trim_empty_iff.
  - apply bool_decide_eq_false_2. rewrite trim_empty_iff. congruence.
Qed.

(** ** Tactics *)

(** [invc H]: invert and clean up. *)
(** [x ∈ l] for an explicit list [l], the element found by unification. *)
Ltac pick_elem := first [apply list_elem_of_here | apply list_elem_of_further; pick_elem].

(** [exists x, x ∈ l /\ P x] for an explicit list [l]: the first element
    for which [P] holds by computation. *)
Ltac pick_exists :=
  apply Exists_exists; repeat (first [apply Exists_cons_hd; reflexivity | apply Exists_cons_tl]).

Ltac invc H := inversion H; subst; clear H.

(** [result_simpl]: normalise binds of known results in goal and hypotheses. *)
Ltac result_simpl :=
  repeat match goal with
  | H : Ok _ = Ok _ |- _ => injection H as H; subst
  | H : Err _ = Err _ |- _ => injection H as H; subst
  | H : Ok _ = Err _ |- _ => discriminate H
  | H : Err _ = Ok _ |- _ => discriminate H
  | |- context [result_bind (Ok _) _] => cbn [result_bind]
  | |- context [result_bind (Err _) _] => cbn [result_bind]
  end.
