(* ===== verification/DateFormat.v ===== *)
(** * DateFormat: the date lines of [NewsCard] and [NewsDetailScreen]

    [NewsCard.tsx] shows an article's [published_at] with
    [new Date(dateString).toLocaleDateString('en-US', { month: 'short',
    day: 'numeric', year: 'numeric' })], e.g. ["May 2, 2024"].  The string
    is an ISO-8601 timestamp in UTC: the one [createNews] writes is
    [new Date().toISOString()] ([YYYY-MM-DDTHH:MM:SS.sssZ]).  [Date]
    parses it; the locale formatting shows the calendar date in the
    device's time zone, here a fixed offset in minutes from UTC
    ([tzOffset], e.g. [-300] for UTC-5; daylight-saving changes are not
    modelled).  A string [Date] cannot parse gives ["Invalid Date"].
    [toISOString] is the printer, and the theorems show that parsing what
    it prints gives back the timestamp, and which day the card shows.
    [NewsDetailScreen]'s [formatDate] adds the week day, the long month
    and a 12-hour time ([formatDateLong]); the week day is ECMAScript's
    [WeekDay] of the day number [day_number]. *)

From stdpp Require Import base list strings pretty.
From Stdlib Require Import ZArith Ascii.
From S2P Require Import Prelude.

Module DateFormat.

Local Open Scope Z_scope.

(** ** The calendar *)

Record CivilDate : Type := mkDate { year : Z; month : Z; day : Z }.

Definition leap (y : Z) : bool :=
  (Z.eqb (y mod 4) 0 && negb (Z.eqb (y mod 100) 0)) || Z.eqb (y mod 400) 0.

Definition days_in_month (y m : Z) : Z :=
  if Z.eqb m 2 then (if leap y then 29 else 28)
  else if Z.eqb m 4 || Z.eqb m 6 || Z.eqb m 9 || Z.eqb m 11 then 30
  else 31.

Definition valid_date (d : CivilDate) : bool :=
  (1 <=? month d) && (month d <=? 12) && (1 <=? day d) && (day d <=? days_in_month (year d) (month d)).

Definition prev_day (d : CivilDate) : CivilDate :=
  if 1 <? day d then mkDate (year d) (month d) (day d - 1)
  else if 1 <? month d then mkDate (year d) (month d - 1) (days_in_month (year d) (month d - 1))
  else mkDate (year d - 1) 12 31.

Definition next_day (d : CivilDate) : CivilDate :=
  if day d <? days_in_month (year d) (month d) then mkDate (year d) (month d) (day d + 1)
  else if month d <? 12 then mkDate (year d) (month d + 1) 1
  else mkDate (year d + 1) 1 1.

(** ECMAScript's [Day(t)] of a date, days since 1970-01-01:
    [DayFromYear] plus the days of the months before, plus the day. *)
Definition DayFromYear (y : Z) : Z :=
  365 * (y - 1970) + (y - 1969) / 4 - (y - 1901) / 100 + (y - 1601) / 400.

(** The days of months [1 .. k] of year [y]. *)
Fixpoint days_before (y : Z) (k : nat) : Z :=
  match k with
  | O => 0
  | S k' => days_before y k' + days_in_month y (Z.of_nat (S k'))
  end.

Definition day_number (d : CivilDate) : Z :=
  DayFromYear (year d) + days_before (year d) (Z.to_nat (month d - 1)) + day d - 1.

(** [WeekDay(t) = (Day(t) + 4) modulo 7], 0 being Sunday. *)
Definition WeekDay (d : CivilDate) : Z := (day_number d + 4) mod 7.

(** ** Timestamps: [new Date(dateString)] *)

(** A timestamp to the minute: the UTC date and the minutes since UTC
    midnight (seconds and milliseconds do not reach the date line). *)
Record Timestamp : Type := mkTimestamp { ts_date : CivilDate; ts_minutes : Z }.

Definition digit_value (c : Ascii.ascii) : option Z :=
  let n := Ascii.nat_of_ascii c in
  if Nat.leb 48 n && Nat.leb n 57 then Some (Z.of_nat n - 48) else None.

Fixpoint digits (s : string) (acc : Z) : option Z :=
  match s with
  | EmptyString => Some acc
  | String c s' => v ← digit_value c; digits s' (acc * 10 + v)
  end.

(** The decimal field of [len] characters at [start]. *)
Definition field (start len : nat) (s : string) : option Z :=
  if Nat.ltb (String.length s) (start + len) then None
  else digits (String.substring start len s) 0.

Definition char_at (n : nat) (s : string) : option Ascii.ascii := String.get n s.

(** [YYYY-MM-DDTHH:MM...]: the fields, the separators, and the ranges
    [Date] checks. *)
Definition parse_iso (s : string) : option Timestamp :=
  y ← field 0 4 s; mo ← field 5 2 s; d ← field 8 2 s; h ← field 11 2 s; mi ← field 14 2 s;
  let dt := mkDate y mo d in
  if bool_decide (char_at 4 s = Some "-"%char) && bool_decide (char_at 7 s = Some "-"%char)
     && bool_decide (char_at 10 s = Some "T"%char) && bool_decide (char_at 13 s = Some ":"%char)
     && valid_date dt && (h <? 24) && (mi <? 60)
  then Some (mkTimestamp dt (h * 60 + mi)) else None.

(** ** The card's date line *)

(** The calendar date at the device: the UTC date moved by the offset. *)
Definition local_date (ts : Timestamp) (tzOffset : Z) : CivilDate :=
  let m := ts_minutes ts + tzOffset in
  if m <? 0 then prev_day (ts_date ts)
  else if 1440 <=? m then next_day (ts_date ts)
  else ts_date ts.

Definition month_short (m : Z) : string :=
  nth (Z.to_nat (m - 1)) ["Jan"; "Feb"; "Mar"; "Apr"; "May"; "Jun";
                          "Jul"; "Aug"; "Sep"; "Oct"; "Nov"; "Dec"]%string "".

(** [{ month: 'short', day: 'numeric', year: 'numeric' }] in [en-US]. *)
Definition show_date (d : CivilDate) : string :=
  String.append (month_short (month d))
    (String.append " " (String.append (pretty (day d)) (String.append ", " (pretty (year d))))).

Definition formatDate (tzOffset : Z) (dateString : string) : string :=
  match parse_iso dateString with
  | None => "Invalid Date"%string
  | Some ts => show_date (local_date ts tzOffset)
  end.

(** ** [Date.prototype.toISOString] *)

Definition digit_char (k : Z) : Ascii.ascii := Ascii.ascii_of_nat (Z.to_nat (48 + k)).

(** Two decimal digits, zero-padded, in front of [rest]. *)
Definition pad2 (n : Z) (rest : string) : string :=
  String (digit_char (n / 10)) (String (digit_char (n mod 10)) rest).

(** [YYYY-MM-DDTHH:MM:SS.sssZ] for a time at a whole minute. *)
Definition iso_of (d : CivilDate) (h mi : Z) : string :=
  pad2 (year d / 100) (pad2 (year d mod 100) (String "-" (pad2 (month d) (String "-"
    (pad2 (day d) (String "T" (pad2 h (String ":" (pad2 mi ":00.000Z"%string))))))))).

(** ** The detail screen's date line

    [NewsDetailScreen]'s [formatDate]: [toLocaleDateString('en-US',
    { weekday: 'long', year: 'numeric', month: 'long', day: 'numeric',
    hour: '2-digit', minute: '2-digit' })], e.g.
    ["Thursday, May 2, 2024 at 03:00 AM"]: a 12-hour clock whose hour 0
    reads 12. *)
Definition weekday_long (k : Z) : string :=
  nth (Z.to_nat k) ["Sunday"; "Monday"; "Tuesday"; "Wednesday"; "Thursday"; "Friday";
                    "Saturday"]%string "".

Definition month_long (m : Z) : string :=
  nth (Z.to_nat (m - 1)) ["January"; "February"; "March"; "April"; "May"; "June"; "July";
                          "August"; "September"; "October"; "November"; "December"]%string "".

Definition hour12 (h : Z) : Z := if h mod 12 =? 0 then 12 else h mod 12.

(** [hh:mm AM]: hour and minute as two digits, then the day period. *)
Definition pad_clock (h mi : Z) (period : string) : string :=
  pad2 h (String ":" (pad2 mi (String " " period))).

Definition dayPeriod (h : Z) : string := if h <? 12 then "AM" else "PM".

(** The local minutes since midnight of a timestamp. *)
Definition local_minutes (ts : Timestamp) (tzOffset : Z) : Z := (ts_minutes ts + tzOffset) mod 1440.

Definition formatDateLong (tzOffset : Z) (dateString : string) : string :=
  match parse_iso dateString with
  | None => "Invalid Date"%string
  | Some ts =>
      let d := local_date ts tzOffset in
      let m := local_minutes ts tzOffset in
      String.append (weekday_long (WeekDay d))
        (String.append ", " (String.append (month_long (month d))
          (String.append " " (String.append (pretty (day d))
            (String.append ", " (String.append (pretty (year d))
              (String.append " at "
                (pad_clock (hour12 (m / 60)) (m mod 60) (dayPeriod (m / 60))))))))))
  end.

(** ** The calendar's steps *)

Lemma days_in_month_range (y m : Z) : 28 <= days_in_month y m <= 31.
Proof.
  unfold days_in_month. destruct (Z.eqb m 2); [destruct (leap y); lia|].
  destruct (_ || _); lia.
Qed.

Lemma days_in_month_12 (y : Z) : days_in_month y 12 = 31.
Proof. reflexivity. Qed.

Lemma days_in_month_1 (y : Z) : days_in_month y 1 = 31.
Proof. reflexivity. Qed.

(** The two steps stay within the calendar. *)
Lemma prev_day_valid (d : CivilDate) : valid_date d = true -> valid_date (prev_day d) = true.
Proof.
  destruct d as [y m dd]. unfold valid_date, prev_day. simpl. intros Hv.
  pose proof (days_in_month_range y (m - 1)). pose proof (days_in_month_12 (y - 1)).
  repeat match goal with H : context [(?a <=? ?b)] |- _ => destruct (Z.leb_spec a b) end;
  simpl in *; try discriminate;
  destruct (Z.ltb_spec 1 dd); simpl;
  [|destruct (Z.ltb_spec 1 m); simpl];
  repeat match goal with |- context [(?a <=? ?b)] => destruct (Z.leb_spec a b) end; simpl; lia.
Qed.

Lemma next_day_valid (d : CivilDate) : valid_date d = true -> valid_date (next_day d) = true.
Proof.
  destruct d as [y m dd]. unfold valid_date, next_day. simpl. intros Hv.
  pose proof (days_in_month_range y (m + 1)). pose proof (days_in_month_1 (y + 1)).
  repeat match goal with H : context [(?a <=? ?b)] |- _ => destruct (Z.leb_spec a b) end;
  simpl in *; try discriminate;
  destruct (Z.ltb_spec dd (days_in_month y m)); simpl;
  [|destruct (Z.ltb_spec m 12); simpl];
  repeat match goal with |- context [(?a <=? ?b)] => destruct (Z.leb_spec a b) end; simpl; lia.
Qed.

(** Stepping one day back and one day forward, in either order,
    returns any valid date: the day before the 1st is the last day of the
    previous month (February 29 in leap years, December 31 across a new
    year), and the day after it is the 1st again. *)
Theorem prev_next_day_roundtrip (d : CivilDate) :
  valid_date d = true -> next_day (prev_day d) = d /\ prev_day (next_day d) = d.
Proof.
  destruct d as [y m dd]. unfold valid_date. simpl. intros Hv.
  pose proof (days_in_month_12 (y - 1)). pose proof (days_in_month_12 y).
  pose proof (days_in_month_1 (y + 1)). pose proof (days_in_month_range y (m - 1)).
  repeat match goal with H : context [(?a <=? ?b)] |- _ => destruct (Z.leb_spec a b) end;
  simpl in *; try discriminate.
  split; unfold prev_day, next_day; simpl;
    repeat (match goal with |- context [?a <? ?b] => destruct (Z.ltb_spec a b) end;
            cbn [day month year] in *);
    rewrite ?Z.sub_add, ?Z.add_simpl_r in *; f_equal; try lia.
  all: assert (m = 12) as -> by lia; rewrite days_in_month_12 in *; lia.
Qed.

(** ** Day numbers and week days *)

Lemma DayFromYear_succ (y : Z) :
  DayFromYear (y + 1) = DayFromYear y + 365 + (if leap y then 1 else 0).
Proof.
  unfold DayFromYear, leap.
  pose proof (Z_div_mod_eq_full (y - 1969) 4). pose proof (Z_div_mod_eq_full (y + 1 - 1969) 4).
  pose proof (Z_div_mod_eq_full (y - 1901) 100). pose proof (Z_div_mod_eq_full (y + 1 - 1901) 100).
  pose proof (Z_div_mod_eq_full (y - 1601) 400). pose proof (Z_div_mod_eq_full (y + 1 - 1601) 400).
  pose proof (Z_div_mod_eq_full y 4). pose proof (Z_div_mod_eq_full y 100).
  pose proof (Z_div_mod_eq_full y 400).
  pose proof (Z.mod_pos_bound (y - 1969) 4). pose proof (Z.mod_pos_bound (y + 1 - 1969) 4).
  pose proof (Z.mod_pos_bound (y - 1901) 100). pose proof (Z.mod_pos_bound (y + 1 - 1901) 100).
  pose proof (Z.mod_pos_bound (y - 1601) 400). pose proof (Z.mod_pos_bound (y + 1 - 1601) 400).
  pose proof (Z.mod_pos_bound y 4). pose proof (Z.mod_pos_bound y 100).
  pose proof (Z.mod_pos_bound y 400).
  destruct (Z.eqb_spec (y mod 4) 0), (Z.eqb_spec (y mod 100) 0), (Z.eqb_spec (y mod 400) 0);
    simpl; lia.
Qed.

Lemma days_before_11 (y : Z) : days_before y 11 + 31 = 365 + (if leap y then 1 else 0).
Proof. unfold days_before, days_in_month. simpl. destruct (leap y); reflexivity. Qed.

Lemma days_before_month (y m : Z) : 1 <= m ->
  days_before y (Z.to_nat m) = days_before y (Z.to_nat (m - 1)) + days_in_month y m.
Proof.
  intros Hm. replace (Z.to_nat m) with (S (Z.to_nat (m - 1))) by lia.
  simpl. f_equal. f_equal. lia.
Qed.

(** The day number ECMAScript gives the next calendar day is one
    more, so the week day advances by one modulo 7, across month ends,
    February 29 and new year included. *)
Theorem day_number_next (d : CivilDate) : valid_date d = true ->
  day_number (next_day d) = day_number d + 1 /\ WeekDay (next_day d) = (WeekDay d + 1) mod 7.
Proof.
  intros Hv. enough (day_number (next_day d) = day_number d + 1) as He.
  { split; [done|]. unfold WeekDay. rewrite He, Zplus_mod_idemp_l. f_equal. lia. }
  destruct d as [y m dd]. unfold valid_date in Hv. simpl in Hv.
  repeat match goal with H : context [(?a <=? ?b)] |- _ => destruct (Z.leb_spec a b) end;
    simpl in *; try discriminate.
  unfold next_day, day_number. cbn [year month day].
  destruct (Z.ltb_spec dd (days_in_month y m)); cbn [year month day]; [lia|].
  destruct (Z.ltb_spec m 12); cbn [year month day].
  - replace (m + 1 - 1) with m by lia. rewrite (days_before_month y m) by lia. lia.
  - assert (m = 12) as -> by lia. rewrite days_in_month_12 in *.
    rewrite DayFromYear_succ. change (Z.to_nat (12 - 1)) with 11%nat.
    change (days_before (y + 1) (Z.to_nat (1 - 1))) with 0. pose proof (days_before_11 y). lia.
Qed.

(** ** Printing and parsing *)

Lemma digit_value_char (k : Z) : 0 <= k <= 9 -> digit_value (digit_char k) = Some k.
Proof.
  intros Hk. unfold digit_value, digit_char.
  rewrite Ascii.nat_ascii_embedding by lia.
  rewrite (proj2 (Nat.leb_le 48 _)), (proj2 (Nat.leb_le _ 57)) by lia. simpl. f_equal. lia.
Qed.

Lemma pad2_digits (n : Z) : 0 <= n < 100 ->
  digit_value (digit_char (n / 10)) = Some (n / 10) /\
  digit_value (digit_char (n mod 10)) = Some (n mod 10) /\ n = n / 10 * 10 + n mod 10.
Proof.
  intros Hn. pose proof (Z_div_mod_eq_full n 10). pose proof (Z.mod_pos_bound n 10 ltac:(lia)).
  split; [apply digit_value_char; lia|]. split; [apply digit_value_char; lia|lia].
Qed.

(** [parse_iso] inverts [iso_of]. *)
Lemma parse_iso_of (d : CivilDate) (h mi : Z) :
  valid_date d = true -> 0 <= year d < 10000 -> 0 <= h < 24 -> 0 <= mi < 60 ->
  parse_iso (iso_of d h mi) = Some (mkTimestamp d (h * 60 + mi)).
Proof.
  destruct d as [y mo dd]. intros Hv Hy Hh Hm. simpl in Hy.
  pose proof (Z_div_mod_eq_full y 100). pose proof (Z.mod_pos_bound y 100 ltac:(lia)).
  assert (Hv' := Hv). unfold valid_date in Hv'. simpl in Hv'.
  pose proof (days_in_month_range y mo).
  repeat match goal with H : context [(?a <=? ?b)] |- _ => destruct (Z.leb_spec a b) end;
  simpl in *; try discriminate.
  destruct (pad2_digits (y / 100) ltac:(nia)) as (A1 & A2 & A3).
  destruct (pad2_digits (y mod 100) ltac:(lia)) as (B1 & B2 & B3).
  destruct (pad2_digits mo ltac:(lia)) as (C1 & C2 & C3).
  destruct (pad2_digits dd ltac:(lia)) as (D1 & D2 & D3).
  destruct (pad2_digits h ltac:(lia)) as (E1 & E2 & E3).
  destruct (pad2_digits mi ltac:(lia)) as (F1 & F2 & F3).
  unfold parse_iso, field, iso_of, pad2. simpl.
  rewrite A1, A2, B1, B2, C1, C2, D1, D2, E1, E2, F1, F2. simpl.
  replace ((((0 * 10 + y / 100 / 10) * 10 + (y / 100) mod 10) * 10 + y mod 100 / 10) * 10
           + (y mod 100) mod 10) with y by lia.
  replace ((0 * 10 + mo / 10) * 10 + mo mod 10) with mo by lia.
  replace ((0 * 10 + dd / 10) * 10 + dd mod 10) with dd by lia.
  replace ((0 * 10 + h / 10) * 10 + h mod 10) with h by lia.
  replace ((0 * 10 + mi / 10) * 10 + mi mod 10) with mi by lia.
  rewrite Hv, (proj2 (Z.ltb_lt h 24)), (proj2 (Z.ltb_lt mi 60)) by lia. reflexivity.
Qed.

(** Parsing what [toISOString] prints gives back the timestamp: the
    date, and the minutes since midnight, of any valid date with a
    four-digit year and any time of day. *)
Theorem iso_roundtrip (d : CivilDate) (h mi : Z) :
  valid_date d = true -> 0 <= year d < 10000 -> 0 <= h < 24 -> 0 <= mi < 60 ->
  parse_iso (iso_of d h mi) = Some (mkTimestamp d (h * 60 + mi)).
Proof. apply parse_iso_of. Qed.

(** C24: the date line of a card for an article published at [h:mi] UTC
    on [d] (as [createNews] stores it) is that date on a device at UTC, the
    same date whenever the local time stays on that day, and the previous
    day on a device far enough west (e.g. 03:00 UTC at UTC-5). *)
Theorem card_date_local (d : CivilDate) (h mi tz : Z) :
  valid_date d = true -> 0 <= year d < 10000 -> 0 <= h < 24 -> 0 <= mi < 60 ->
  formatDate 0 (iso_of d h mi) = show_date d /\
  (0 <= h * 60 + mi + tz < 1440 -> formatDate tz (iso_of d h mi) = show_date d) /\
  (h * 60 + mi + tz < 0 -> formatDate tz (iso_of d h mi) = show_date (prev_day d)).
Proof.
  intros Hv Hy Hh Hm. unfold formatDate. rewrite parse_iso_of by done.
  unfold local_date. cbn [ts_minutes ts_date].
  split; [|split]; intros; repeat (match goal with |- context [?a <? ?b] => destruct (Z.ltb_spec a b) end
    || match goal with |- context [?a <=? ?b] => destruct (Z.leb_spec a b) end); try lia; done.
Qed.

Lemma hour12_range (h : Z) : 1 <= hour12 h <= 12 /\ hour12 h mod 12 = h mod 12.
Proof.
  unfold hour12. pose proof (Z.mod_pos_bound h 12).
  destruct (Z.eqb_spec (h mod 12) 0) as [E|E].
  - rewrite E. done.
  - split; [lia|]. by rewrite Z.mod_mod.
Qed.

(** On a device at UTC, the detail screen's date line of an article
    stored at [h:mi] UTC on [d] names [d]'s week day, month, day and year
    and the time on a 12-hour clock: an hour from 1 to 12 equal to [h]
    modulo 12, with AM exactly before noon. *)
Theorem detail_date_utc (d : CivilDate) (h mi : Z) :
  valid_date d = true -> 0 <= year d < 10000 -> 0 <= h < 24 -> 0 <= mi < 60 ->
  formatDateLong 0 (iso_of d h mi) =
    String.append (weekday_long (WeekDay d)) (String.append ", "
      (String.append (month_long (month d)) (String.append " " (String.append (pretty (day d))
        (String.append ", " (String.append (pretty (year d))
          (String.append " at " (pad_clock (hour12 h) mi (dayPeriod h))))))))) /\
  1 <= hour12 h <= 12 /\ hour12 h mod 12 = h mod 12 /\ (dayPeriod h = "AM"%string <-> h < 12).
Proof.
  intros Hv Hy Hh Hm. split; [|split; [apply hour12_range|split; [apply hour12_range|]]].
  - unfold formatDateLong. rewrite parse_iso_of by done.
    unfold local_date, local_minutes. cbn [ts_minutes ts_date].
    rewrite Z.add_0_r, Z.mod_small by lia.
    rewrite (proj2 (Z.ltb_ge _ 0)), (proj2 (Z.leb_gt 1440 _)) by lia.
    replace ((h * 60 + mi) / 60) with h by (apply Z.div_unique with mi; lia).
    replace ((h * 60 + mi) mod 60) with mi by (apply Z.mod_unique with h; lia).
    reflexivity.
  - unfold dayPeriod. destruct (Z.ltb_spec h 12); split; (done || lia || discriminate).
Qed.

(** ** Concrete runs *)

Definition may2 : CivilDate := mkDate 2024 5 2.

Lemma iso_roundtrip_witness :
  parse_iso (iso_of may2 3 0) = Some (mkTimestamp may2 (3 * 60 + 0)).
Proof. apply iso_roundtrip; (reflexivity || (simpl; lia)). Defined.

Lemma prev_next_day_roundtrip_witness :
  next_day (prev_day (mkDate 2024 3 1)) = mkDate 2024 3 1 /\
  prev_day (next_day (mkDate 2024 3 1)) = mkDate 2024 3 1.
Proof. apply prev_next_day_roundtrip. reflexivity. Defined.

Lemma card_date_local_witness :
  formatDate 0 (iso_of may2 3 0) = show_date may2 /\
  (0 <= 3 * 60 + 0 + -300 < 1440 -> formatDate (-300) (iso_of may2 3 0) = show_date may2) /\
  (3 * 60 + 0 + -300 < 0 -> formatDate (-300) (iso_of may2 3 0) = show_date (prev_day may2)).
Proof. apply card_date_local; (reflexivity || (simpl; lia)). Defined.

(** The card of an article published at 03:00 UTC, on a device at UTC-5. *)
Example card_date_west : formatDate (-300) (iso_of may2 3 0) = "May 1, 2024"%string.
Proof. vm_compute. reflexivity. Qed.

Lemma day_number_next_witness :
  valid_date (mkDate 2024 2 29) = true /\
  day_number (next_day (mkDate 2024 2 29)) = day_number (mkDate 2024 2 29) + 1 /\
  WeekDay (next_day (mkDate 2024 2 29)) = (WeekDay (mkDate 2024 2 29) + 1) mod 7.
Proof. split; [reflexivity|]. apply day_number_next. reflexivity. Defined.

Lemma detail_date_utc_witness :
  formatDateLong 0 (iso_of may2 3 0) =
    String.append (weekday_long (WeekDay may2)) (String.append ", "
      (String.append (month_long (month may2)) (String.append " " (String.append (pretty (day may2))
        (String.append ", " (String.append (pretty (year may2))
          (String.append " at " (pad_clock (hour12 3) 0 (dayPeriod 3))))))))) /\
  1 <= hour12 3 <= 12 /\ hour12 3 mod 12 = 3 mod 12 /\ (dayPeriod 3 = "AM"%string <-> 3 < 12).
Proof. apply detail_date_utc; (reflexivity || (simpl; lia)). Defined.

(** The detail screen of that article on a device at UTC and at UTC-5. *)
Example detail_date_samples :
  formatDateLong 0 (iso_of may2 3 0) = "Thursday, May 2, 2024 at 03:00 AM"%string /\
  formatDateLong (-300) (iso_of may2 3 0) = "Wednesday, May 1, 2024 at 10:00 PM"%string.
Proof. split; vm_compute; reflexivity. Qed.

End DateFormat.
