(* ===== verification/Video.v ===== *)
(** * Video: [src/src/components/common/VideoPlayer.tsx]

    The component's state ([error], [isPlaying]), the player it creates
    once with [useVideoPlayer(videoSource, ...)] (its source, [loop], and
    the commands sent to it), and the events it reacts to: the player's
    ['playingChange'] and ['error'] listeners, the play/pause button and
    the Retry button.  Which view renders follows the [if (error)] of the
    component. *)

From stdpp Require Import base list strings.
From S2P Require Import Prelude.

Open Scope string_scope.

Module Video.

(** [videoUri.startsWith('assets/videos/') ? require('../../assets/videos/sample.mp4')
    : { uri: videoUri }] *)
Inductive VideoSource : Type :=
  | BundledSample
  | RemoteUri (uri : string).

Definition videoSource (videoUri : string) : VideoSource :=
  if String.prefix "assets/videos/" videoUri then BundledSample else RemoteUri videoUri.

Inductive PlayerCmd : Type := Play | Pause | Replay.

Record VideoState : Type := mkVideoState {
  v_error : option string;
  v_isPlaying : bool;
  v_source : VideoSource;
  v_loop : bool;
  v_cmds : list PlayerCmd;     (** sent to the player, oldest first *)
}.

Definition error_text : string := "Failed to load video. Using fallback video.".

(** [getFallbackVideoUri]: defined by the component, called nowhere. *)
Definition getFallbackVideoUri : string := "https://www.w3schools.com/html/mov_bbb.mp4".

(** Mounting: [useState(shouldAutoPlay)], and the player's setup callback
    ([player.loop = true; if (shouldAutoPlay) player.play()]). *)
Definition mount (videoUri : string) (shouldAutoPlay : bool) : VideoState :=
  mkVideoState None shouldAutoPlay (videoSource videoUri) true (if shouldAutoPlay then [Play] else []).

Inductive VideoEvent : Type :=
  | VPlayingChange (b : bool)   (** ['playingChange'] listener *)
  | VPlayerError                (** ['error'] listener *)
  | VPressPlayPause             (** [handlePlayPause], rendered without error *)
  | VPressRetry.                (** Retry button, rendered with an error *)

Definition send (s : VideoState) (c : PlayerCmd) : VideoState :=
  mkVideoState (v_error s) (v_isPlaying s) (v_source s) (v_loop s) (v_cmds s ++ [c]).

Definition video_step (s : VideoState) (ev : VideoEvent) : VideoState :=
  match ev with
  | VPlayingChange b => mkVideoState (v_error s) b (v_source s) (v_loop s) (v_cmds s)
  | VPlayerError => mkVideoState (Some error_text) (v_isPlaying s) (v_source s) (v_loop s) (v_cmds s)
  | VPressPlayPause =>
      match v_error s with
      | Some _ => s
      | None => send s (if v_isPlaying s then Pause else Play)
      end
  | VPressRetry =>
      match v_error s with
      | Some _ => send (mkVideoState None (v_isPlaying s) (v_source s) (v_loop s) (v_cmds s)) Replay
      | None => s
      end
  end.

Definition video_run (s : VideoState) (evs : list VideoEvent) : VideoState := foldl video_step s evs.

Inductive VideoView : Type :=
  | ErrorView (message : string)
  | PlayerView (source : VideoSource) (icon : string) (label : string).

Definition render (s : VideoState) : VideoView :=
  match v_error s with
  | Some m => ErrorView m
  | None => PlayerView (v_source s) (if v_isPlaying s then "pause-circle" else "play-circle")
              (if v_isPlaying s then "Playing..." else "Paused")
  end.

(** ** Theorems *)

Definition video_inv (uri : string) (s : VideoState) : Prop :=
  v_source s = videoSource uri /\ v_loop s = true /\ (v_error s = None \/ v_error s = Some error_text).

Lemma video_step_inv (uri : string) (s : VideoState) (ev : VideoEvent) :
  video_inv uri s -> video_inv uri (video_step s ev).
Proof.
  destruct s as [e p src l cmds]. unfold video_inv; simpl. intros (Hs & Hl & He).
  destruct ev; simpl; [auto|auto| |]; destruct e; simpl; try destruct p; simpl; auto.
Qed.

Lemma video_run_inv (uri : string) (evs : list VideoEvent) (s : VideoState) :
  video_inv uri s -> video_inv uri (video_run s evs).
Proof.
  unfold video_run. revert s. induction evs as [|ev evs IH]; intros s Hs; [done|].
  simpl. apply IH, video_step_inv, Hs.
Qed.

Lemma mount_inv (uri : string) (auto : bool) : video_inv uri (mount uri auto).
Proof. unfold video_inv, mount. simpl. auto. Qed.

#[export] Hint Resolve video_step_inv video_run_inv mount_inv : newsapp.

(** C30: whatever happens after mounting, the player keeps the source it
    was created with and keeps looping, and the only error the component
    ever shows is its fixed message: [getFallbackVideoUri] is never used,
    although the message says a fallback video is being used. *)
Theorem video_source_fixed (uri : string) (auto : bool) (evs : list VideoEvent) :
  video_inv uri (video_run (mount uri auto) evs) /\
  (forall m, render (video_run (mount uri auto) evs) = ErrorView m -> m = error_text).
Proof.
  assert (Hinv : video_inv uri (video_run (mount uri auto) evs)) by auto with newsapp.
  split; [done|]. intros m. destruct Hinv as (_ & _ & [He|He]); unfold render; rewrite He;
    congruence.
Qed.

(** C29: playback failure and manual retry.  After any history, a load
    failure shows the error view; Retry clears it and replays the same
    source; when the player then reports playing, the player view shows
    "Playing...". *)
Theorem video_error_retry_recovers (uri : string) (auto : bool) (evs : list VideoEvent) :
  let s1 := video_run (mount uri auto) (evs ++ [VPlayerError]) in
  let s2 := video_step s1 VPressRetry in
  render s1 = ErrorView error_text /\
  last (v_cmds s2) = Some Replay /\ v_source s2 = videoSource uri /\
  render (video_step s2 (VPlayingChange true)) = PlayerView (videoSource uri) "pause-circle" "Playing...".
Proof.
  unfold video_run. rewrite foldl_app. simpl.
  destruct (video_run_inv uri evs (mount uri auto) (mount_inv uri auto)) as (Hs & _ & _).
  unfold video_run in Hs. rewrite Hs. split; [done|]. split; [|done].
  by rewrite last_app.
Qed.

(** Pressing play/pause only sends a command; the icon follows the
    player's next ['playingChange']. *)
Lemma video_toggle (s : VideoState) :
  v_error s = None ->
  video_step s VPressPlayPause = send s (if v_isPlaying s then Pause else Play) /\
  v_isPlaying (video_step s VPressPlayPause) = v_isPlaying s.
Proof. destruct s as [e p src l cmds]. simpl. intros ->. by destruct p. Qed.

Lemma video_source_fixed_witness :
  video_inv "https://cdn.example/v1.mp4"
    (video_run (mount "https://cdn.example/v1.mp4" true) [VPlayerError; VPressRetry; VPlayerError]) /\
  (forall m, render (video_run (mount "https://cdn.example/v1.mp4" true)
                       [VPlayerError; VPressRetry; VPlayerError]) = ErrorView m -> m = error_text).
Proof. apply video_source_fixed. Defined.

Lemma video_error_retry_recovers_witness :
  let s1 := video_run (mount "assets/videos/sample1.mp4" true) ([VPressPlayPause] ++ [VPlayerError]) in
  let s2 := video_step s1 VPressRetry in
  render s1 = ErrorView error_text /\
  last (v_cmds s2) = Some Replay /\ v_source s2 = videoSource "assets/videos/sample1.mp4" /\
  render (video_step s2 (VPlayingChange true)) =
    PlayerView (videoSource "assets/videos/sample1.mp4") "pause-circle" "Playing...".
Proof. apply video_error_retry_recovers. Defined.

End Video.
