(* ===== verification/Model.v ===== *)
(** * Model: the data model of [src/src/redux/slices/categorySlice.ts]

    [NewsItem] and its [category] union type, the draft a create sends
    ([Omit<NewsItem, 'id' | 'created_at' | 'updated_at' | 'published_at'>]),
    the partial record an update sends ([Partial<NewsItem>]), and the
    category slice of the Redux store (state, initial state, reducer). *)

From stdpp Require Import base list strings gmap.
From S2P Require Import Prelude.

Open Scope string_scope.

(** ** Categories: the union ['latest' | 'global' | 'sports' | 'tech'] *)

Inductive Category : Type :=
  | Latest
  | Global
  | Sports
  | Tech.

Definition category_to_string (c : Category) : string :=
  match c with
  | Latest => "latest"
  | Global => "global"
  | Sports => "sports"
  | Tech => "tech"
  end.

(** The inverse: which string literals inhabit the union type. *)
Definition category_of_string (s : string) : option Category :=
  if decide (s = "latest") then Some Latest
  else if decide (s = "global") then Some Global
  else if decide (s = "sports") then Some Sports
  else if decide (s = "tech") then Some Tech
  else None.

#[export] Instance Category_eq_dec : EqDecision Category.
Proof. solve_decision. Defined.

Definition all_categories : list Category := [Latest; Global; Sports; Tech].

(** ** Articles *)

(** [interface NewsItem]; the optional [image_url?] is an [option]. *)
Record NewsItem : Type := mkNewsItem {
  id : string;
  title : string;
  description : string;
  image_url : option string;
  video_url : string;
  category : Category;
  author : string;
  published_at : string;
  created_at : string;
  updated_at : string;
}.

(** [Omit<NewsItem, 'id' | 'created_at' | 'updated_at' | 'published_at'>]:
    the fields a create sends. *)
Record NewsDraft : Type := mkNewsDraft {
  d_title : string;
  d_description : string;
  d_image_url : option string;
  d_video_url : string;
  d_category : Category;
  d_author : string;
}.

(** [Partial<NewsItem>]: every field optional. *)
Record NewsPatch : Type := mkNewsPatch {
  p_id : option string;
  p_title : option string;
  p_description : option string;
  p_image_url : option string;
  p_video_url : option string;
  p_category : option Category;
  p_author : option string;
  p_published_at : option string;
  p_created_at : option string;
  p_updated_at : option string;
}.

(** A row updated with a [Partial<NewsItem>]: a field present in the patch
    replaces the stored one (what [.update(updates)] does to a row). *)
Definition apply_patch (p : NewsPatch) (n : NewsItem) : NewsItem :=
  {| id := default (id n) (p_id p);
     title := default (title n) (p_title p);
     description := default (description n) (p_description p);
     image_url := match p_image_url p with Some u => Some u | None => image_url n end;
     video_url := default (video_url n) (p_video_url p);
     category := default (category n) (p_category p);
     author := default (author n) (p_author p);
     published_at := default (published_at n) (p_published_at p);
     created_at := default (created_at n) (p_created_at p);
     updated_at := default (updated_at n) (p_updated_at p) |}.

(** ** The category slice *)

Record CategoryEntry : Type := mkCategoryEntry {
  ce_id : string;
  ce_name : string;
  ce_displayName : string;
}.

Record CategoryState : Type := mkCategoryState {
  selectedCategory : Category;
  categories : list CategoryEntry;
}.

Definition category_initialState : CategoryState :=
  {| selectedCategory := Latest;
     categories :=
       [ mkCategoryEntry "latest" "latest" "Latest";
         mkCategoryEntry "global" "global" "Global";
         mkCategoryEntry "sports" "sports" "Sports";
         mkCategoryEntry "tech" "tech" "Technology" ] |}.

Inductive CategoryAction : Type :=
  | setSelectedCategory (c : Category).

Definition categoryReducer (st : CategoryState) (a : CategoryAction) : CategoryState :=
  match a with
  | setSelectedCategory c => {| selectedCategory := c; categories := categories st |}
  end.

(** ** Lemmas *)

Lemma category_of_to_string (c : Category) :
  category_of_string (category_to_string c) = Some c.
Proof. destruct c; reflexivity. Qed.

Lemma category_to_of_string (s : string) (c : Category) :
  category_of_string s = Some c -> category_to_string c = s.
Proof.
  unfold category_of_string.
  repeat case_decide; intros H'; simplify_eq; reflexivity.
Qed.

#[export] Instance Category_countable : Countable Category.
Proof.
  apply (inj_countable category_to_string category_of_string).
  apply category_of_to_string.
Defined.

Lemma elem_of_all_categories (c : Category) : c ∈ all_categories.
Proof. destruct c; set_solver. Qed.

#[export] Hint Resolve elem_of_all_categories : newsapp.
