(* ===== verification/Gateway.v ===== *)
(** * Gateway: [src/src/api/newsService.ts] over the Supabase table [news]

    Each service function builds a PostgREST query
    ([.from('news').select('*').eq(..).order(..).limit(..).single()]),
    awaits [{ data, error }], and then runs [if (error) throw error;
    return data || []].  The table is the state, a list of rows; a request
    may fail in transport or on the server ([Env.env_fault]), in which case
    the table is left as it was (each request is one transaction).  The
    builder steps are list functions: [.eq] is [filter], [.order(published_at,
    {ascending:false})] is a stable merge sort on the string column,
    [.limit] is [take], [.single()] fails unless exactly one row comes back. *)

From stdpp Require Import base list strings gmap sorting.
From S2P Require Import Prelude Model.

Open Scope string_scope.

Module Gateway.

(** ** PostgREST responses *)

Inductive PostgrestError : Type :=
  | PGRST116                       (** [.single()] on zero or several rows *)
  | UniqueViolation                (** primary-key clash on [id] *)
  | NetworkError                   (** the fetch itself failed *)
  | ServerError (code : string).   (** any other error the server returns *)

#[export] Instance PostgrestError_eq_dec : EqDecision PostgrestError.
Proof. solve_decision. Defined.

(** The awaited value [{ data, error }]. *)
Record PgResponse (A : Type) : Type := mkResponse {
  data : option A;
  error : option PostgrestError;
}.
Arguments mkResponse {A} data error.
Arguments data {A} _.
Arguments error {A} _.

(** What one request sees of the world: an injected fault, the client clock
    ([new Date().toISOString()]) and the server clock (column defaults). *)
Record Env : Type := mkEnv {
  env_fault : option PostgrestError;
  env_client_now : string;
  env_server_now : string;
}.

(** The [news] table. *)
Record Table : Type := mkTable { rows : list NewsItem }.

(** ** Query-builder steps *)

Definition newer_or_eq (a b : NewsItem) : Prop := String.le (published_at b) (published_at a).

#[export] Instance newer_or_eq_dec : RelDecision newer_or_eq.
Proof. intros a b. unfold newer_or_eq. apply _. Defined.

(** [.eq('category', category)]: the column holds the literal of the union. *)
Definition eq_category (c : string) (l : list NewsItem) : list NewsItem :=
  filter (fun n => category_to_string (category n) = c) l.

Definition eq_id (i : string) (l : list NewsItem) : list NewsItem :=
  filter (fun n => id n = i) l.

(** [.order('published_at', { ascending: false })] *)
Definition order_published_desc (l : list NewsItem) : list NewsItem :=
  merge_sort newer_or_eq l.

(** [.limit(limit)] *)
Definition limit {A} (n : nat) (l : list A) : list A := take n l.

(** [.single()] *)
Definition single {A} (l : list A) : PgResponse A :=
  match l with
  | [x] => mkResponse (Some x) None
  | _ => mkResponse None (Some PGRST116)
  end.

(** Sending a read: a fault replaces the whole response. *)
Definition send {A} (e : Env) (r : PgResponse A) : PgResponse A :=
  match env_fault e with
  | Some err => mkResponse None (Some err)
  | None => r
  end.

Definition rows_response (l : list NewsItem) : PgResponse (list NewsItem) :=
  mkResponse (Some l) None.

(** [if (error) throw error; return data || [];] *)
Definition throw_or_list (r : PgResponse (list NewsItem)) : result PostgrestError (list NewsItem) :=
  match error r with
  | Some err => Err err
  | None => Ok (default [] (data r))
  end.

(** [if (error) throw error; return data;] for single-row results: the
    declared [Promise<NewsItem | null>] is an [option]. *)
Definition throw_or_row (r : PgResponse NewsItem) : result PostgrestError (option NewsItem) :=
  match error r with
  | Some err => Err err
  | None => Ok (data r)
  end.

(** ** Reads *)

Definition getAllNews (e : Env) (t : Table) : result PostgrestError (list NewsItem) :=
  throw_or_list (send e (rows_response (order_published_desc (rows t)))).

Definition getNewsByCategory (e : Env) (c : string) (t : Table)
  : result PostgrestError (list NewsItem) :=
  throw_or_list (send e (rows_response (order_published_desc (eq_category c (rows t))))).

(** The four limited readers differ only in the literal they filter on. *)
Definition getCategoryNewsLimited (lit : string) (e : Env) (n : nat) (t : Table)
  : result PostgrestError (list NewsItem) :=
  throw_or_list
    (send e (rows_response (limit n (order_published_desc (eq_category lit (rows t)))))).

Definition getLatestNews : Env -> nat -> Table -> result PostgrestError (list NewsItem) :=
  getCategoryNewsLimited "latest".
Definition getGlobalNews : Env -> nat -> Table -> result PostgrestError (list NewsItem) :=
  getCategoryNewsLimited "global".
Definition getSportsNews : Env -> nat -> Table -> result PostgrestError (list NewsItem) :=
  getCategoryNewsLimited "sports".
Definition getTechNews : Env -> nat -> Table -> result PostgrestError (list NewsItem) :=
  getCategoryNewsLimited "tech".

Definition getNewsById (e : Env) (i : string) (t : Table)
  : result PostgrestError (option NewsItem) :=
  throw_or_row (send e (single (eq_id i (rows t)))).

(** ** Writes

    A write returns its result and the table after the request.  A fault,
    a failed [.single()] or a constraint violation aborts the transaction:
    the table is unchanged. *)

Fixpoint uuid_of_len (n : nat) : string :=
  match n with
  | 0 => ""
  | S k => String (Ascii.ascii_of_nat 117) (uuid_of_len k)
  end.

(** The column default [gen_random_uuid()]: any id that no row has.  We take
    one longer than every stored id. *)
Definition fresh_uuid (t : Table) : string :=
  uuid_of_len (S (list_max ((fun n => String.length (id n)) <$> rows t))).

Definition ids_unique (l : list NewsItem) : bool :=
  bool_decide (NoDup (id <$> l)).

(** The row [.insert([{ ...news, published_at: new Date().toISOString() }])]
    stores: the server fills [id], [created_at] and [updated_at]. *)
Definition row_of_draft (e : Env) (t : Table) (d : NewsDraft) : NewsItem :=
  {| id := fresh_uuid t;
     title := d_title d;
     description := d_description d;
     image_url := d_image_url d;
     video_url := d_video_url d;
     category := d_category d;
     author := d_author d;
     published_at := env_client_now e;
     created_at := env_server_now e;
     updated_at := env_server_now e |}.

Definition createNews (e : Env) (d : NewsDraft) (t : Table)
  : result PostgrestError (option NewsItem) * Table :=
  match env_fault e with
  | Some err => (Err err, t)
  | None =>
      let n := row_of_draft e t d in
      (throw_or_row (single [n]), mkTable (rows t ++ [n]))
  end.

(** [.update(updates).eq('id', id).select().single()] *)
Definition update_rows (i : string) (p : NewsPatch) (l : list NewsItem) : list NewsItem :=
  (fun n => if decide (id n = i) then apply_patch p n else n) <$> l.

Definition updateNews (e : Env) (i : string) (p : NewsPatch) (t : Table)
  : result PostgrestError (option NewsItem) * Table :=
  match env_fault e with
  | Some err => (Err err, t)
  | None =>
      let l' := update_rows i p (rows t) in
      if ids_unique l' then
        match single (map (apply_patch p) (eq_id i (rows t))) with
        | mkResponse d None => (Ok d, mkTable l')
        | r => (throw_or_row r, t)
        end
      else (Err UniqueViolation, t)
  end.

(** [.delete().eq('id', id)]: no [.single()], so deleting a missing id
    succeeds. *)
Definition deleteNews (e : Env) (i : string) (t : Table)
  : result PostgrestError unit * Table :=
  match env_fault e with
  | Some err => (Err err, t)
  | None => (Ok tt, mkTable (filter (fun n => id n <> i) (rows t)))
  end.

(** Well-formedness of the table: [id] is the primary key. *)
Definition table_wf (t : Table) : Prop := NoDup (id <$> rows t).

(** The writes the app issues, and the table after one of them. *)
Inductive Write : Type :=
  | WCreate (d : NewsDraft)
  | WUpdate (i : string) (p : NewsPatch)
  | WDelete (i : string).

Definition run_write (e : Env) (w : Write) (t : Table) : Table :=
  match w with
  | WCreate d => snd (createNews e d t)
  | WUpdate i p => snd (updateNews e i p t)
  | WDelete i => snd (deleteNews e i t)
  end.

(** One step of the remote table: some client issues some write. *)
Inductive table_step : Table -> Table -> Prop :=
  | table_step_write e w t : table_step t (run_write e w t).

Definition empty_table : Table := mkTable [].

(** ** Lemmas on the query-builder steps *)

#[export] Instance newer_or_eq_trans : Transitive newer_or_eq.
Proof. intros a b c Hab Hbc. unfold newer_or_eq in *. by trans (published_at b). Qed.

#[export] Instance newer_or_eq_total : Total newer_or_eq.
Proof. intros a b. unfold newer_or_eq. destruct (total String.le (published_at b) (published_at a)); auto. Qed.

Lemma order_published_desc_perm (l : list NewsItem) : order_published_desc l ≡ₚ l.
Proof. apply merge_sort_Permutation. Qed.

Lemma order_published_desc_sorted (l : list NewsItem) :
  StronglySorted newer_or_eq (order_published_desc l).
Proof. apply StronglySorted_merge_sort; apply _. Qed.

Lemma elem_of_order (l : list NewsItem) (x : NewsItem) :
  x ∈ order_published_desc l <-> x ∈ l.
Proof. by rewrite order_published_desc_perm. Qed.

Lemma elem_of_eq_category (c : string) (l : list NewsItem) (x : NewsItem) :
  x ∈ eq_category c l <-> x ∈ l /\ category_to_string (category x) = c.
Proof. unfold eq_category. rewrite list_elem_of_filter. tauto. Qed.

Lemma elem_of_eq_id (i : string) (l : list NewsItem) (x : NewsItem) :
  x ∈ eq_id i l <-> x ∈ l /\ id x = i.
Proof. unfold eq_id. rewrite list_elem_of_filter. tauto. Qed.

(** With unique ids, filtering on one id leaves at most that row. *)
Lemma eq_id_none (i : string) (l : list NewsItem) :
  (forall x, x ∈ l -> id x <> i) -> eq_id i l = [].
Proof.
  induction l as [|y l IH]; intros H; [done|].
  unfold eq_id; rewrite filter_cons, decide_False by (apply H; constructor).
  apply IH. intros x Hx. apply H. by constructor.
Qed.

(** With unique ids, filtering on one id leaves exactly that row. *)
Lemma eq_id_unique (i : string) (l : list NewsItem) (x : NewsItem) :
  NoDup (id <$> l) -> x ∈ l -> id x = i -> eq_id i l = [x].
Proof.
  induction l as [|y l IH]; intros Hnd Hx Hid; [by apply not_elem_of_nil in Hx|].
  rewrite fmap_cons in Hnd. apply NoDup_cons in Hnd as [Hy Hnd].
  unfold eq_id; rewrite filter_cons. apply elem_of_cons in Hx as [->|Hx].
  - rewrite decide_True by done. f_equal. apply eq_id_none.
    intros z Hz Hzi. apply Hy. rewrite Hid, <- Hzi. by apply list_elem_of_fmap_2.
  - rewrite decide_False; [by apply IH|].
    intros Hyi. apply Hy. rewrite Hyi, <- Hid. by apply list_elem_of_fmap_2.
Qed.

Lemma uuid_of_len_length (n : nat) : String.length (uuid_of_len n) = n.
Proof. induction n; simpl; auto. Qed.

Lemma fresh_uuid_fresh (t : Table) (x : NewsItem) : x ∈ rows t -> id x <> fresh_uuid t.
Proof.
  intros Hx Heq. unfold fresh_uuid in Heq.
  assert (String.length (id x) <= list_max ((fun n => String.length (id n)) <$> rows t)).
  { apply list_max_ge. by apply (list_elem_of_fmap_2 (fun n => String.length (id n))). }
  rewrite Heq, uuid_of_len_length in H. lia.
Qed.

Lemma take_order_length (n : nat) (l : list NewsItem) :
  length (limit n (order_published_desc l)) = min n (length l).
Proof.
  unfold limit. rewrite length_take.
  by rewrite (Permutation_length (order_published_desc_perm l)).
Qed.

Lemma getAllNews_ok (e : Env) (t : Table) :
  env_fault e = None -> getAllNews e t = Ok (order_published_desc (rows t)).
Proof. intros H. unfold getAllNews, send. by rewrite H. Qed.

Lemma getNewsByCategory_ok (e : Env) (c : string) (t : Table) :
  env_fault e = None ->
  getNewsByCategory e c t = Ok (order_published_desc (eq_category c (rows t))).
Proof. intros H. unfold getNewsByCategory, send. by rewrite H. Qed.

Lemma getCategoryNewsLimited_ok (lit : string) (e : Env) (n : nat) (t : Table) :
  env_fault e = None ->
  getCategoryNewsLimited lit e n t =
    Ok (limit n (order_published_desc (eq_category lit (rows t)))).
Proof. intros H. unfold getCategoryNewsLimited, send. by rewrite H. Qed.

(** Patching a row without an [id] field keeps its id. *)
Lemma apply_patch_id (p : NewsPatch) (n : NewsItem) :
  p_id p = None -> id (apply_patch p n) = id n.
Proof. intros H. unfold apply_patch. by rewrite H. Qed.

Lemma update_rows_ids (i : string) (p : NewsPatch) (l : list NewsItem) :
  p_id p = None -> id <$> update_rows i p l = id <$> l.
Proof.
  intros H. unfold update_rows. rewrite <- list_fmap_compose.
  apply list_fmap_ext. intros _ n _. simpl. case_decide; [by rewrite apply_patch_id|done].
Qed.

Lemma elem_of_update_rows (i : string) (p : NewsPatch) (l : list NewsItem) (x : NewsItem) :
  x ∈ l -> id x = i -> apply_patch p x ∈ update_rows i p l.
Proof.
  intros Hx Hid. unfold update_rows. apply list_elem_of_fmap.
  exists x. by rewrite decide_True.
Qed.

Lemma NoDup_ids_filter (P : NewsItem -> Prop) `{!∀ x, Decision (P x)} (l : list NewsItem) :
  NoDup (id <$> l) -> NoDup (id <$> filter P l).
Proof.
  induction l as [|n l IH]; [done|]. rewrite filter_cons, fmap_cons, NoDup_cons.
  intros [Hn Hnd]. case_decide; [|by apply IH].
  rewrite fmap_cons, NoDup_cons. split; [|by apply IH].
  intros Hin. apply Hn. apply list_elem_of_fmap in Hin as (y & Hy & Hyin).
  rewrite Hy. apply list_elem_of_fmap_2. by apply list_elem_of_filter in Hyin as [_ ?].
Qed.

(** ** Reads *)

(** C1: [getNewsByCategory] returns exactly the rows of the requested
    category, each as often as the table has it, newest first. *)
Theorem getNewsByCategory_correct (e : Env) (c : string) (t : Table) :
  env_fault e = None ->
  exists l, getNewsByCategory e c t = Ok l /\
    l ≡ₚ eq_category c (rows t) /\
    (forall x, x ∈ l <-> x ∈ rows t /\ category_to_string (category x) = c) /\
    StronglySorted newer_or_eq l.
Proof.
  intros H. eexists. rewrite getNewsByCategory_ok by done.
  split; [done|]. split; [apply order_published_desc_perm|].
  split; [|apply order_published_desc_sorted].
  intros x. by rewrite elem_of_order, elem_of_eq_category.
Qed.

(** C2: the limited readers ([getLatestNews(4)] and its siblings) return
    the [n] newest rows of their category: [min n k] rows of the [k] the
    table has, newest first, and no row left out is newer than one
    returned. *)
Theorem getCategoryNewsLimited_top (lit : string) (e : Env) (n : nat) (t : Table) :
  env_fault e = None ->
  exists l, getCategoryNewsLimited lit e n t = Ok l /\
    length l = min n (length (eq_category lit (rows t))) /\
    (forall x, x ∈ l -> x ∈ rows t /\ category_to_string (category x) = lit) /\
    StronglySorted newer_or_eq l /\
    (forall x y, x ∈ l -> y ∈ rows t -> category_to_string (category y) = lit ->
       y ∉ l -> newer_or_eq x y).
Proof.
  intros H. eexists. rewrite getCategoryNewsLimited_ok by done.
  split; [done|]. split; [apply take_order_length|].
  pose proof (order_published_desc_sorted (eq_category lit (rows t))) as Hs.
  unfold limit. split; [|split; [by apply StronglySorted_take|]].
  - intros x Hx. apply take_sublist, elem_of_order, elem_of_eq_category in Hx. done.
  - intros x y Hx Hy Hcat Hnot. apply (StronglySorted_take_drop _ n _ _ _ Hs Hx).
    apply elem_of_drop_not_take; [|done].
    apply elem_of_order, elem_of_eq_category. auto.
Qed.

(** Reading one article: with [id] the primary key, the row with that
    id is returned. *)
Theorem getNewsById_found (e : Env) (i : string) (t : Table) (x : NewsItem) :
  env_fault e = None -> table_wf t -> x ∈ rows t -> id x = i ->
  getNewsById e i t = Ok (Some x).
Proof.
  intros He Hwf Hx Hid. unfold getNewsById, send. rewrite He.
  by rewrite (eq_id_unique i (rows t) x Hwf Hx Hid).
Qed.

Lemma getNewsById_absent (e : Env) (i : string) (t : Table) :
  env_fault e = None -> (forall x, x ∈ rows t -> id x <> i) ->
  getNewsById e i t = Err PGRST116.
Proof.
  intros He Hnone. unfold getNewsById, send. rewrite He. by rewrite eq_id_none.
Qed.

(** A missing id is an error ([.single()] on no row, PGRST116), never
    the [null] the declared type [NewsItem | null] allows. *)
Theorem getNewsById_missing (e : Env) (i : string) (t : Table) :
  env_fault e = None -> (forall x, x ∈ rows t -> id x <> i) ->
  getNewsById e i t = Err PGRST116.
Proof. apply getNewsById_absent. Qed.

Theorem getNewsById_never_null (e : Env) (i : string) (t : Table) :
  getNewsById e i t <> Ok None.
Proof.
  unfold getNewsById, send, throw_or_row.
  destruct (env_fault e); [done|]. by destruct (eq_id i (rows t)) as [|? [|? ?]].
Qed.

(** C22: a failed request: every service function throws the error it got, and
    no write changes the table. *)
Theorem gateway_fault_atomic (e : Env) (err : PostgrestError) (t : Table) :
  env_fault e = Some err ->
  getAllNews e t = Err err /\
  (forall c, getNewsByCategory e c t = Err err) /\
  (forall lit n, getCategoryNewsLimited lit e n t = Err err) /\
  (forall i, getNewsById e i t = Err err) /\
  (forall d, createNews e d t = (Err err, t)) /\
  (forall i p, updateNews e i p t = (Err err, t)) /\
  (forall i, deleteNews e i t = (Err err, t)).
Proof.
  intros H. unfold getAllNews, getNewsByCategory, getCategoryNewsLimited, getNewsById,
    createNews, updateNews, deleteNews, send. rewrite H. repeat split.
Qed.

(** ** Writes *)

Lemma createNews_wf (e : Env) (d : NewsDraft) (t : Table) :
  table_wf t -> table_wf (snd (createNews e d t)).
Proof.
  unfold createNews, table_wf. destruct (env_fault e); [done|]. simpl.
  intros Hwf. rewrite fmap_app, NoDup_app. split; [done|]. split; [|constructor; [set_solver|constructor]].
  intros i Hi Hin. apply list_elem_of_singleton in Hin. simpl in Hin. subst i.
  apply list_elem_of_fmap in Hi as (x & Hx & Hxin). by apply (fresh_uuid_fresh t x).
Qed.

Lemma updateNews_wf (e : Env) (i : string) (p : NewsPatch) (t : Table) :
  table_wf t -> table_wf (snd (updateNews e i p t)).
Proof.
  unfold updateNews, table_wf. destruct (env_fault e); [done|].
  destruct (ids_unique (update_rows i p (rows t))) eqn:Hu; [|done].
  intros Hwf. destruct (single _) as [d [err|]]; [done|]. simpl.
  unfold ids_unique in Hu. by apply bool_decide_eq_true in Hu.
Qed.

Lemma deleteNews_wf (e : Env) (i : string) (t : Table) :
  table_wf t -> table_wf (snd (deleteNews e i t)).
Proof.
  unfold deleteNews, table_wf. destruct (env_fault e); [done|]. apply NoDup_ids_filter.
Qed.

#[export] Hint Resolve createNews_wf updateNews_wf deleteNews_wf : newsapp.

Lemma run_write_wf (e : Env) (w : Write) (t : Table) : table_wf t -> table_wf (run_write e w t).
Proof. destruct w; simpl; auto with newsapp. Qed.

Lemma createNews_ok (e : Env) (d : NewsDraft) (t : Table) :
  env_fault e = None ->
  createNews e d t = (Ok (Some (row_of_draft e t d)), mkTable (rows t ++ [row_of_draft e t d])%list).
Proof. intros H. unfold createNews. by rewrite H. Qed.

(** Creating an article: the server stores one new row with a fresh
    id, the draft's fields and [published_at] set to the client's clock,
    returns it, and reading that id afterwards returns the same row. *)
Theorem createNews_roundtrip (e : Env) (d : NewsDraft) (t : Table) :
  env_fault e = None -> table_wf t ->
  exists n t', createNews e d t = (Ok (Some n), t') /\
    n = row_of_draft e t d /\ rows t' = (rows t ++ [n])%list /\ table_wf t' /\
    (forall e', env_fault e' = None -> getNewsById e' (id n) t' = Ok (Some n)).
Proof.
  intros He Hwf. pose proof (createNews_wf e d t Hwf) as Hwf'.
  unfold createNews in *. rewrite He in *. do 2 eexists.
  split; [reflexivity|]. do 3 (split; [reflexivity || done|]).
  intros e' He'. apply getNewsById_found; [done|done| |done]. simpl. set_solver.
Qed.

(** C15: deleting an article removes exactly the rows with that id; a later
    read of the id fails with PGRST116. *)
Theorem deleteNews_spec (e : Env) (i : string) (t : Table) :
  env_fault e = None -> table_wf t ->
  exists t', deleteNews e i t = (Ok tt, t') /\ table_wf t' /\
    (forall x, x ∈ rows t' <-> x ∈ rows t /\ id x <> i) /\
    (forall e', env_fault e' = None -> getNewsById e' i t' = Err PGRST116).
Proof.
  intros He Hwf. pose proof (deleteNews_wf e i t Hwf) as Hwf'.
  unfold deleteNews in *. rewrite He in *. eexists. split; [reflexivity|].
  split; [done|]. assert (Hmem : forall x, x ∈ filter (fun n => id n <> i) (rows t) <->
    x ∈ rows t /\ id x <> i) by (intros x; rewrite list_elem_of_filter; tauto).
  split; [done|]. intros e' He'. apply getNewsById_absent; [done|].
  intros x Hx. by apply Hmem in Hx as [_ ?].
Qed.

(** Updating an article that exists, with a patch that does not touch
    [id], rewrites that row only and returns the patched row, which a
    later read of the id returns. *)
Theorem updateNews_spec (e : Env) (i : string) (p : NewsPatch) (t : Table) (x : NewsItem) :
  env_fault e = None -> table_wf t -> x ∈ rows t -> id x = i -> p_id p = None ->
  exists t', updateNews e i p t = (Ok (Some (apply_patch p x)), t') /\
    rows t' = update_rows i p (rows t) /\ table_wf t' /\
    (forall e', env_fault e' = None -> getNewsById e' i t' = Ok (Some (apply_patch p x))).
Proof.
  intros He Hwf Hx Hid Hp.
  assert (Hwf' : table_wf (mkTable (update_rows i p (rows t)))).
  { unfold table_wf. simpl. by rewrite update_rows_ids. }
  unfold updateNews. rewrite He.
  assert (Hu : ids_unique (update_rows i p (rows t)) = true) by (by apply bool_decide_eq_true).
  rewrite Hu, (eq_id_unique i (rows t) x Hwf Hx Hid). eexists.
  split; [reflexivity|]. split; [done|]. split; [done|].
  intros e' He'. apply getNewsById_found; [done|done| |].
  - by apply elem_of_update_rows.
  - by rewrite apply_patch_id.
Qed.

(** Updating a missing id fails with PGRST116 and changes nothing. *)
Theorem updateNews_missing (e : Env) (i : string) (p : NewsPatch) (t : Table) :
  env_fault e = None -> p_id p = None -> table_wf t -> (forall x, x ∈ rows t -> id x <> i) ->
  updateNews e i p t = (Err PGRST116, t).
Proof.
  intros He Hp Hwf Hnone. unfold updateNews. rewrite He.
  assert (Hu : ids_unique (update_rows i p (rows t)) = true).
  { apply bool_decide_eq_true. by rewrite update_rows_ids. }
  by rewrite Hu, eq_id_none.
Qed.

(** [id] stays a primary key in every table the app's writes can
    produce from an empty table. *)
Theorem table_reachable_wf (t : Table) :
  star table_step empty_table t -> table_wf t.
Proof.
  intros Hr. apply (star_invariant table_step table_wf) with (s := empty_table); auto.
  - intros s s' Hs Hstep. destruct Hstep as [e w s]. by apply run_write_wf.
  - constructor.
Qed.

(** ** Concrete runs *)

Definition env_ok : Env := mkEnv None "2024-05-02T10:00:00.000Z" "2024-05-02T10:00:00.120Z".

Definition art_final : NewsItem :=
  mkNewsItem "a1" "Cup final" "Late winner" None "https://cdn.example/v1.mp4" Sports "Ann"
    "2024-05-01T08:00:00.000Z" "2024-05-01T08:00:00.000Z" "2024-05-01T08:00:00.000Z".
Definition art_chip : NewsItem :=
  mkNewsItem "a2" "New chip" "Faster" (Some "https://cdn.example/i2.jpg")
    "https://cdn.example/v2.mp4" Tech "Bo"
    "2024-04-30T08:00:00.000Z" "2024-04-30T08:00:00.000Z" "2024-04-30T08:00:00.000Z".
Definition art_derby : NewsItem :=
  mkNewsItem "a3" "Derby" "Draw" None "https://cdn.example/v3.mp4" Sports "Cy"
    "2024-05-02T07:00:00.000Z" "2024-05-02T07:00:00.000Z" "2024-05-02T07:00:00.000Z".

Definition sample_table : Table := mkTable [art_final; art_chip; art_derby].

Lemma sample_table_wf : table_wf sample_table.
Proof. apply (bool_decide_unpack _). vm_compute. exact I. Qed.

Lemma sample_no_zz (x : NewsItem) : x ∈ rows sample_table -> id x <> "zz".
Proof.
  intros Hx. assert (Hall : Forall (fun n => id n <> "zz") (rows sample_table))
    by (apply (bool_decide_unpack _); vm_compute; exact I).
  by rewrite Forall_forall in Hall; apply Hall.
Qed.

Example sample_sports_order :
  getNewsByCategory env_ok "sports" sample_table = Ok [art_derby; art_final].
Proof. vm_compute. reflexivity. Qed.

Example sample_latest_one :
  getSportsNews env_ok 1 sample_table = Ok [art_derby].
Proof. vm_compute. reflexivity. Qed.

Lemma getNewsByCategory_correct_witness :
  env_fault env_ok = None /\
  exists l, getNewsByCategory env_ok "sports" sample_table = Ok l /\
    l ≡ₚ eq_category "sports" (rows sample_table) /\
    (forall x, x ∈ l <-> x ∈ rows sample_table /\ category_to_string (category x) = "sports") /\
    StronglySorted newer_or_eq l.
Proof. split; [reflexivity|]. apply getNewsByCategory_correct. reflexivity. Defined.

Lemma getCategoryNewsLimited_top_witness :
  env_fault env_ok = None /\
  exists l, getCategoryNewsLimited "sports" env_ok 1 sample_table = Ok l /\
    length l = min 1 (length (eq_category "sports" (rows sample_table))) /\
    (forall x, x ∈ l -> x ∈ rows sample_table /\ category_to_string (category x) = "sports") /\
    StronglySorted newer_or_eq l /\
    (forall x y, x ∈ l -> y ∈ rows sample_table -> category_to_string (category y) = "sports" ->
       y ∉ l -> newer_or_eq x y).
Proof. split; [reflexivity|]. apply getCategoryNewsLimited_top. reflexivity. Defined.

Lemma getNewsById_found_witness :
  table_wf sample_table /\ art_chip ∈ rows sample_table /\
  getNewsById env_ok "a2" sample_table = Ok (Some art_chip).
Proof.
  split; [apply sample_table_wf|]. split; [simpl; set_solver|].
  apply getNewsById_found; [reflexivity|apply sample_table_wf|simpl; set_solver|reflexivity].
Defined.

Lemma getNewsById_missing_witness :
  getNewsById env_ok "zz" sample_table = Err PGRST116.
Proof. apply getNewsById_missing; [reflexivity|exact sample_no_zz]. Defined.

Definition net_down : Env := mkEnv (Some NetworkError) "" "".

Lemma gateway_fault_atomic_witness :
  getAllNews net_down sample_table = Err NetworkError /\
  (forall c, getNewsByCategory net_down c sample_table = Err NetworkError) /\
  (forall lit n, getCategoryNewsLimited lit net_down n sample_table = Err NetworkError) /\
  (forall i, getNewsById net_down i sample_table = Err NetworkError) /\
  (forall d, createNews net_down d sample_table = (Err NetworkError, sample_table)) /\
  (forall i p, updateNews net_down i p sample_table = (Err NetworkError, sample_table)) /\
  (forall i, deleteNews net_down i sample_table = (Err NetworkError, sample_table)).
Proof. apply gateway_fault_atomic. reflexivity. Defined.

Definition draft_goal : NewsDraft :=
  mkNewsDraft "Goal" "Header" (Some "") "https://cdn.example/v4.mp4" Sports "Di".

Lemma createNews_roundtrip_witness :
  exists n t', createNews env_ok draft_goal sample_table = (Ok (Some n), t') /\
    n = row_of_draft env_ok sample_table draft_goal /\
    rows t' = (rows sample_table ++ [n])%list /\ table_wf t' /\
    (forall e', env_fault e' = None -> getNewsById e' (id n) t' = Ok (Some n)).
Proof. apply createNews_roundtrip; [reflexivity|apply sample_table_wf]. Defined.

Lemma deleteNews_spec_witness :
  exists t', deleteNews env_ok "a1" sample_table = (Ok tt, t') /\ table_wf t' /\
    (forall x, x ∈ rows t' <-> x ∈ rows sample_table /\ id x <> "a1") /\
    (forall e', env_fault e' = None -> getNewsById e' "a1" t' = Err PGRST116).
Proof. apply deleteNews_spec; [reflexivity|apply sample_table_wf]. Defined.

Definition retitle : NewsPatch :=
  mkNewsPatch None (Some "Cup final, extra time") None None None None None None None None.

Lemma updateNews_spec_witness :
  exists t', updateNews env_ok "a1" retitle sample_table =
      (Ok (Some (apply_patch retitle art_final)), t') /\
    rows t' = update_rows "a1" retitle (rows sample_table) /\ table_wf t' /\
    (forall e', env_fault e' = None ->
       getNewsById e' "a1" t' = Ok (Some (apply_patch retitle art_final))).
Proof.
  apply updateNews_spec; [reflexivity|apply sample_table_wf|simpl; set_solver|reflexivity|reflexivity].
Defined.

Lemma updateNews_missing_witness :
  updateNews env_ok "zz" retitle sample_table = (Err PGRST116, sample_table).
Proof.
  apply updateNews_missing; [reflexivity|reflexivity|apply sample_table_wf|exact sample_no_zz].
Defined.

Lemma table_reachable_wf_witness :
  star table_step empty_table (run_write env_ok (WCreate draft_goal) empty_table) /\
  table_wf (run_write env_ok (WCreate draft_goal) empty_table).
Proof.
  assert (Hs : star table_step empty_table (run_write env_ok (WCreate draft_goal) empty_table))
    by (apply star_one; constructor).
  split; [exact Hs|]. apply table_reachable_wf. exact Hs.
Defined.

End Gateway.
