(* ===== verification/GatewaySpec.v ===== *)
(** * GatewaySpec: the news table as a key-value store, and the refinement

    What [newsService.ts] promises its callers, stated without lists: the
    table is a finite map from [id] to the row ([Store], a [gmap]); a read
    by id is a lookup that fails with PGRST116 on a missing key; a create
    inserts a row under a fresh key; an update rewrites the row of its key
    (and moves it when the patch changes [id] to a free key); a delete
    removes the key.  [abs] reads a table as that map; the theorems show
    that every operation of [Gateway] on a table whose [id] is a primary
    key does to [abs] what the store operation does, that every run of
    the app's writes is simulated write by write by the store
    ([store_write], [store_run]), and that every run of the table is
    matched by a run of the unlabelled store steps ([store_step]). *)

From stdpp Require Import base list strings gmap sorting.
From S2P Require Import Prelude Model Gateway.

Open Scope string_scope.

Module GatewaySpec.
Import Gateway.

(** ** The abstract store *)

Notation Store := (gmap string NewsItem).

(** [getNewsById] against the store. *)
Definition store_getById (σ : Store) (i : string) : result PostgrestError (option NewsItem) :=
  match σ !! i with
  | Some n => Ok (Some n)
  | None => Err PGRST116
  end.

(** The store's transitions: insert under a free key, replace the row of
    a present key by a row whose key is that key or a free one, delete. *)
Inductive store_step : Store -> Store -> Prop :=
  | store_insert σ n :
      σ !! id n = None -> store_step σ (<[id n := n]> σ)
  | store_replace σ i n0 n :
      σ !! i = Some n0 -> (id n = i \/ σ !! id n = None) ->
      store_step σ (<[id n := n]> (delete i σ))
  | store_delete σ i :
      store_step σ (delete i σ).

(** ** Abstraction of a table *)

Definition abs_rows (l : list NewsItem) : Store :=
  list_to_map ((fun n => (id n, n)) <$> l).

Definition abs (t : Table) : Store := abs_rows (rows t).

(** ** The writes on the store

    What one write of the app does to the store: a fault changes nothing;
    [createNews] inserts, under a key no row has, a row carrying the
    draft's fields and the client's clock as [published_at]; an update
    that keeps [id] patches the row of its key; [deleteNews] deletes the
    key. *)

(** The draft an article was created from. *)
Definition draft_of (n : NewsItem) : NewsDraft :=
  mkNewsDraft (title n) (description n) (image_url n) (video_url n) (category n) (author n).

(** The writes the app issues: its updates never patch [id]. *)
Definition keeps_id (w : Write) : Prop :=
  match w with WUpdate _ p => p_id p = None | _ => True end.

Inductive store_write (e : Env) : Write -> Store -> Store -> Prop :=
  | sw_fault w σ err :
      env_fault e = Some err -> store_write e w σ σ
  | sw_create d σ n :
      env_fault e = None -> σ !! id n = None -> draft_of n = d -> published_at n = env_client_now e ->
      store_write e (WCreate d) σ (<[id n := n]> σ)
  | sw_update i p σ :
      env_fault e = None -> store_write e (WUpdate i p) σ (alter (apply_patch p) i σ)
  | sw_delete i σ :
      env_fault e = None -> store_write e (WDelete i) σ (delete i σ).

(** A run of writes, each in its own environment. *)
Inductive store_run : Store -> list (Env * Write) -> Store -> Prop :=
  | srun_nil σ : store_run σ [] σ
  | srun_cons σ σ1 σ2 e w ws :
      store_write e w σ σ1 -> store_run σ1 ws σ2 -> store_run σ ((e, w) :: ws) σ2.

(** The same run on the table. *)
Definition table_run (t : Table) (ws : list (Env * Write)) : Table :=
  foldl (fun t ew => run_write ew.1 ew.2 t) t ws.

(** ** Lookups in the abstraction *)

Lemma abs_rows_fst (l : list NewsItem) : ((fun n => (id n, n)) <$> l).*1 = id <$> l.
Proof. by rewrite <- list_fmap_compose. Qed.

(** Without any hypothesis: the first row with that id. *)
Lemma lookup_abs_rows (l : list NewsItem) (j : string) : abs_rows l !! j = head (eq_id j l).
Proof.
  induction l as [|n l IH]; [done|]. unfold abs_rows in *. rewrite fmap_cons, list_to_map_cons.
  unfold eq_id. rewrite filter_cons. destruct (decide (id n = j)) as [<-|Hne].
  - by rewrite lookup_insert_eq.
  - by rewrite lookup_insert_ne.
Qed.

Lemma lookup_abs_rows_wf (l : list NewsItem) (j : string) (x : NewsItem) :
  NoDup (id <$> l) -> abs_rows l !! j = Some x <-> x ∈ l /\ id x = j.
Proof.
  intros Hnd. rewrite lookup_abs_rows. split.
  - intros Hh. destruct (eq_id j l) as [|y l'] eqn:He; simplify_eq/=.
    apply (elem_of_eq_id j l). rewrite He. by left.
  - intros [Hx Hid]. by rewrite (eq_id_unique j l x Hnd Hx Hid).
Qed.

Lemma lookup_abs_rows_None (l : list NewsItem) (j : string) :
  abs_rows l !! j = None <-> (forall x, x ∈ l -> id x <> j).
Proof.
  unfold abs_rows. rewrite <- not_elem_of_list_to_map, abs_rows_fst.
  rewrite list_elem_of_fmap. naive_solver.
Qed.


(** Two rows of [l] with the same [g]-image are the same row when the
    images have no duplicates. *)
Lemma NoDup_fmap_same {B} (g : NewsItem -> B) (l : list NewsItem) (x y : NewsItem) :
  NoDup (g <$> l) -> x ∈ l -> y ∈ l -> g x = g y -> x = y.
Proof.
  induction l as [|a l IH]; intros Hnd Hx Hy Hg; [by apply not_elem_of_nil in Hx|].
  rewrite fmap_cons, NoDup_cons in Hnd. destruct Hnd as [Ha Hnd].
  apply elem_of_cons in Hx as [->|Hx], Hy as [->|Hy]; try done.
  - destruct Ha. rewrite Hg. by apply list_elem_of_fmap_2.
  - destruct Ha. rewrite <- Hg. by apply list_elem_of_fmap_2.
  - by apply IH.
Qed.

(** ** The operations on the abstraction *)

Lemma abs_delete (i : string) (l : list NewsItem) :
  NoDup (id <$> l) -> abs_rows (filter (fun n => id n <> i) l) = delete i (abs_rows l).
Proof.
  intros Hnd. apply map_eq. intros j. apply option_eq. intros x.
  rewrite lookup_delete_Some, !lookup_abs_rows_wf, list_elem_of_filter
    by (done || by apply NoDup_ids_filter).
  naive_solver.
Qed.

Lemma abs_insert (n : NewsItem) (l : list NewsItem) :
  NoDup (id <$> l) -> (forall x, x ∈ l -> id x <> id n) ->
  abs_rows (l ++ [n])%list = <[id n := n]> (abs_rows l).
Proof.
  intros Hnd Hfresh.
  assert (Hnd' : NoDup (id <$> (l ++ [n])%list)).
  { rewrite fmap_app, NoDup_app. split; [done|]. split; [|by constructor; [set_solver|constructor]].
    intros k Hk ->%list_elem_of_singleton. apply list_elem_of_fmap in Hk as (x & Hx & Hin).
    by apply (Hfresh x). }
  apply map_eq. intros j. apply option_eq. intros x.
  rewrite lookup_insert_Some, !lookup_abs_rows_wf by done. rewrite elem_of_app, list_elem_of_singleton.
  split.
  - intros [[Hx| ->] <-]; [right|by left]. split; [by apply not_eq_sym, Hfresh|done].
  - intros [[<- <-]|[Hne [Hx Hid]]]; [by split; [right|]|]. auto.
Qed.

(** The rows of [update_rows i p l] are the rows of [l], each patched
    when its id is [i]. *)
Definition upd (i : string) (p : NewsPatch) (n : NewsItem) : NewsItem :=
  if decide (id n = i) then apply_patch p n else n.

Lemma upd_ids_same (i : string) (p : NewsPatch) (l : list NewsItem) (a b : NewsItem) :
  NoDup (id <$> update_rows i p l) -> a ∈ l -> b ∈ l -> id (upd i p a) = id (upd i p b) -> a = b.
Proof.
  intros Hnd'. unfold update_rows in Hnd'. rewrite <- list_fmap_compose in Hnd'.
  apply (NoDup_fmap_same (fun a => id (upd i p a)) l a b Hnd').
Qed.

Lemma abs_replace (i : string) (p : NewsPatch) (l : list NewsItem) (n0 : NewsItem) :
  NoDup (id <$> l) -> NoDup (id <$> update_rows i p l) -> n0 ∈ l -> id n0 = i ->
  abs_rows (update_rows i p l) = <[id (apply_patch p n0) := apply_patch p n0]> (delete i (abs_rows l)).
Proof.
  intros Hnd Hnd' Hn0 Hi.
  assert (Hmem : forall x, x ∈ update_rows i p l <-> exists a, a ∈ l /\ x = upd i p a).
  { intros x. unfold update_rows. rewrite list_elem_of_fmap. naive_solver. }
  assert (Hu0 : upd i p n0 = apply_patch p n0) by (unfold upd; by rewrite decide_True).
  apply map_eq. intros j. apply option_eq. intros x.
  rewrite lookup_insert_Some, lookup_delete_Some, !lookup_abs_rows_wf, Hmem by done.
  split.
  - intros [(a & Ha & ->) <-]. destruct (decide (id a = i)) as [Hai|Hai].
    + assert (a = n0) as -> by (apply (NoDup_fmap_same id l); [done..|congruence]).
      left. by rewrite Hu0.
    + assert (Hua : upd i p a = a) by (unfold upd; by rewrite decide_False).
      right. rewrite Hua. split; [|by split].
      intros Heq. apply Hai. rewrite <- Hi. f_equal.
      apply (upd_ids_same i p l a n0 Hnd' Ha Hn0). by rewrite Hua, Hu0.
  - intros [[<- <-]|(Hne & Hji & Hx & <-)].
    + split; [|done]. exists n0. by rewrite Hu0.
    + split; [|done]. exists x. split; [done|]. unfold upd. by rewrite decide_False.
Qed.

(** ** Each operation of the gateway against the store *)

Lemma getNewsById_abs (e : Env) (i : string) (t : Table) :
  env_fault e = None -> table_wf t -> getNewsById e i t = store_getById (abs t) i.
Proof.
  intros He Hwf. unfold store_getById, abs. destruct (abs_rows (rows t) !! i) as [n|] eqn:Hl.
  - apply lookup_abs_rows_wf in Hl as [Hn Hid]; [|done]. by apply getNewsById_found.
  - apply getNewsById_absent; [done|]. by apply lookup_abs_rows_None.
Qed.

Lemma createNews_abs (e : Env) (d : NewsDraft) (t : Table) :
  env_fault e = None -> table_wf t ->
  fst (createNews e d t) = Ok (Some (row_of_draft e t d)) /\
  abs t !! fresh_uuid t = None /\
  abs (snd (createNews e d t)) = <[fresh_uuid t := row_of_draft e t d]> (abs t).
Proof.
  intros He Hwf. rewrite createNews_ok by done. split; [done|]. split.
  - apply lookup_abs_rows_None. intros x Hx. by apply fresh_uuid_fresh.
  - apply (abs_insert (row_of_draft e t d)); [done|]. intros x Hx. by apply fresh_uuid_fresh.
Qed.

Lemma deleteNews_abs (e : Env) (i : string) (t : Table) :
  env_fault e = None -> table_wf t ->
  fst (deleteNews e i t) = Ok tt /\ abs (snd (deleteNews e i t)) = delete i (abs t).
Proof. intros He Hwf. unfold deleteNews. rewrite He. split; [done|]. by apply abs_delete. Qed.

(** The updates the app issues keep [id] ([p_id = None]). *)
Lemma updateNews_abs (e : Env) (i : string) (p : NewsPatch) (t : Table) :
  env_fault e = None -> table_wf t -> p_id p = None ->
  fst (updateNews e i p t) =
    match abs t !! i with Some n0 => Ok (Some (apply_patch p n0)) | None => Err PGRST116 end /\
  abs (snd (updateNews e i p t)) = alter (apply_patch p) i (abs t).
Proof.
  intros He Hwf Hp. unfold updateNews. rewrite He.
  assert (Hnd' : NoDup (id <$> update_rows i p (rows t))) by (by rewrite update_rows_ids).
  assert (Hu : ids_unique (update_rows i p (rows t)) = true) by (by apply bool_decide_eq_true).
  rewrite Hu. unfold abs. destruct (abs_rows (rows t) !! i) as [n0|] eqn:Hl.
  - pose proof Hl as Hl'. apply lookup_abs_rows_wf in Hl' as [Hn0 Hi]; [|done].
    rewrite (eq_id_unique i (rows t) n0 Hwf Hn0 Hi). simpl. split; [done|].
    rewrite (abs_replace i p (rows t) n0 Hwf Hnd' Hn0 Hi), apply_patch_id, Hi by done.
    apply map_eq. intros j. destruct (decide (i = j)) as [<-|Hne]; by simplify_map_eq.
  - rewrite eq_id_none by (by apply lookup_abs_rows_None). simpl. split; [done|].
    apply map_eq. intros j. destruct (decide (i = j)) as [<-|Hne]; by simplify_map_eq.
Qed.

(** ** Simulation *)

(** A successful [.single()] saw exactly one row. *)
Lemma single_ok {A} (l : list A) (d : option A) :
  single l = mkResponse d None -> exists x, l = [x] /\ d = Some x.
Proof. destruct l as [|x [|y l]]; simpl; intros H; simplify_eq; eauto. Qed.

Lemma updateNews_step (e : Env) (i : string) (p : NewsPatch) (t : Table) :
  table_wf t ->
  abs (snd (updateNews e i p t)) = abs t \/ store_step (abs t) (abs (snd (updateNews e i p t))).
Proof.
  intros Hwf. unfold updateNews. destruct (env_fault e); [by left|].
  destruct (ids_unique _) eqn:Hu; [|by left].
  destruct (single _) as [d [err|]] eqn:Hs; [by left|right].
  apply single_ok in Hs as (n1 & Hm & ->).
  destruct (eq_id i (rows t)) as [|n0 [|? ?]] eqn:He; simplify_eq/=.
  assert (Hn0 : n0 ∈ rows t /\ id n0 = i) by (apply elem_of_eq_id; rewrite He; by left).
  destruct Hn0 as [Hn0 Hi]. apply bool_decide_eq_true in Hu. unfold abs. simpl.
  rewrite (abs_replace i p (rows t) n0 Hwf Hu Hn0 Hi).
  apply (store_replace _ i n0); [by apply lookup_abs_rows_wf|].
  destruct (decide (id (apply_patch p n0) = i)) as [|Hne]; [by left|right].
  apply lookup_abs_rows_None. intros x Hx Hid. destruct (decide (id x = i)) as [Hxi|Hxi]; [congruence|].
  assert (x = n0) as -> by (apply (upd_ids_same i p (rows t)); [done..|];
    unfold upd; by rewrite decide_False, decide_True).
  done.
Qed.

(** Every write of the table is a step of the store, or leaves it as it
    was (a fault, a missing row, a refused update). *)
Lemma table_step_store (t t' : Table) :
  table_wf t -> table_step t t' -> abs t' = abs t \/ store_step (abs t) (abs t').
Proof.
  intros Hwf Hs. inversion Hs as [e w t0]; subst. destruct w as [d|i p|i]; simpl.
  - destruct (env_fault e) eqn:He; [by left; unfold createNews; rewrite He|right].
    destruct (createNews_abs e d t He Hwf) as (_ & Hfree & ->). by apply store_insert.
  - by apply updateNews_step.
  - destruct (env_fault e) eqn:He; [by left; unfold deleteNews; rewrite He|right].
    destruct (deleteNews_abs e i t He Hwf) as [_ ->]. apply store_delete.
Qed.

Lemma table_star_store (t t' : Table) :
  star table_step t t' -> table_wf t -> star store_step (abs t) (abs t').
Proof.
  induction 1 as [t|t1 t2 t3 Hstep Hrest IH]; intros Hwf; [constructor|].
  assert (Hwf2 : table_wf t2) by (destruct Hstep; by apply run_write_wf).
  destruct (table_step_store t1 t2 Hwf Hstep) as [Heq|Hs].
  - rewrite <- Heq. by apply IH.
  - apply (star_step _ _ (abs t2)); [done|]. by apply IH.
Qed.

(** ** The store's invariant: every key holds the row with that id *)

Definition store_wf (σ : Store) : Prop := forall k n, σ !! k = Some n -> id n = k.

Lemma store_step_wf (σ σ' : Store) : store_wf σ -> store_step σ σ' -> store_wf σ'.
Proof.
  intros Hwf Hs. destruct Hs as [σ n Hfree|σ i n0 n Hi Hn|σ i]; intros k x Hk.
  - apply lookup_insert_Some in Hk as [[<- <-]|[_ Hk]]; eauto.
  - apply lookup_insert_Some in Hk as [[<- <-]|[_ Hk]]; [done|].
    apply lookup_delete_Some in Hk as [_ Hk]. eauto.
  - apply lookup_delete_Some in Hk as [_ Hk]. eauto.
Qed.

Lemma abs_wf (t : Table) : store_wf (abs t).
Proof.
  intros k n Hk. unfold abs in Hk. rewrite lookup_abs_rows in Hk.
  destruct (eq_id k (rows t)) as [|y l] eqn:He; simplify_eq/=.
  apply (elem_of_eq_id k (rows t)). rewrite He. by left.
Qed.

(** ** Refinement theorems *)

(** C7: on a table whose [id] is a primary key and a healthy backend, each
    service function does to the table's abstraction what the store
    operation does: [getNewsById] is a lookup failing with PGRST116 on a
    missing key, [createNews] inserts its row under a key no row has,
    [deleteNews] deletes the key, and an update that keeps [id] rewrites
    the row of its key (failing with PGRST116, and changing nothing, when
    the key is missing). *)
Theorem gateway_refines_store (e : Env) (t : Table) (i : string) (d : NewsDraft) (p : NewsPatch) :
  env_fault e = None -> table_wf t ->
  getNewsById e i t = store_getById (abs t) i /\
  (abs t !! fresh_uuid t = None /\
   fst (createNews e d t) = Ok (Some (row_of_draft e t d)) /\
   abs (snd (createNews e d t)) = <[fresh_uuid t := row_of_draft e t d]> (abs t)) /\
  abs (snd (deleteNews e i t)) = delete i (abs t) /\
  (p_id p = None ->
     fst (updateNews e i p t) =
       match abs t !! i with Some n0 => Ok (Some (apply_patch p n0)) | None => Err PGRST116 end /\
     abs (snd (updateNews e i p t)) = alter (apply_patch p) i (abs t)).
Proof.
  intros He Hwf. split; [by apply getNewsById_abs|].
  split; [by destruct (createNews_abs e d t He Hwf) as (? & ? & ?)|].
  split; [by apply deleteNews_abs|]. intros Hp. by apply updateNews_abs.
Qed.

(** C19: on a table whose [id] is a primary key, every run of the app's
    writes, each in its own environment, is simulated write by write by
    the store: the abstraction of the table after the run is reached from
    the abstraction before it by the store operation of each write in
    turn (unchanged on a fault, a fresh insert carrying the draft, an
    [alter] by the patch, a [delete]). *)
Theorem table_runs_refine_store (t : Table) (ws : list (Env * Write)) :
  table_wf t -> Forall (fun ew => keeps_id ew.2) ws ->
  store_run (abs t) ws (abs (table_run t ws)).
Proof.
  intros Hwf Hws. revert t Hwf. induction Hws as [|[e w] ws Hw _ IH]; intros t Hwf; [constructor|].
  apply (srun_cons _ (abs (run_write e w t))); [simpl in Hw|apply IH; by apply run_write_wf].
  destruct (env_fault e) as [err|] eqn:He.
  { replace (run_write e w t) with t by (destruct w; simpl; unfold createNews, updateNews, deleteNews; by rewrite He).
    by apply (sw_fault _ _ _ err). }
  destruct w as [d|i p|i]; simpl.
  - destruct (createNews_abs e d t He Hwf) as (_ & Hfree & ->).
    apply (sw_create e d (abs t) (row_of_draft e t d)); [done..| |done]. by destruct d.
  - destruct (updateNews_abs e i p t He Hwf Hw) as [_ ->]. by apply sw_update.
  - destruct (deleteNews_abs e i t He Hwf) as [_ ->]. by apply sw_delete.
Qed.

(** In every store state reachable from the empty map, each key
    holds the row with that id. *)
Theorem store_reachable_wf (σ : Store) :
  star store_step ∅ σ -> store_wf σ.
Proof.
  intros Hr. apply (star_invariant store_step store_wf) with (s := ∅); [|done|].
  - intros s s' Hs Hstep. by apply (store_step_wf s).
  - intros k n Hk. by rewrite lookup_empty in Hk.
Qed.

(** [getAllNews] on a table whose [id] is a primary key returns the
    store's rows, each once, newest first. *)
Theorem getAllNews_reads_store (e : Env) (t : Table) :
  env_fault e = None -> table_wf t ->
  exists l, getAllNews e t = Ok l /\ l ≡ₚ (map_to_list (abs t)).*2 /\ StronglySorted newer_or_eq l.
Proof.
  intros He Hwf. exists (order_published_desc (rows t)).
  split; [by apply getAllNews_ok|]. split; [|apply order_published_desc_sorted].
  rewrite order_published_desc_perm. unfold abs, abs_rows.
  rewrite map_to_list_to_map by (by rewrite abs_rows_fst).
  by rewrite <- list_fmap_compose, list_fmap_id.
Qed.

(** ** Concrete runs *)

Lemma gateway_refines_store_witness :
  getNewsById env_ok "a1" sample_table = store_getById (abs sample_table) "a1" /\
  (abs sample_table !! fresh_uuid sample_table = None /\
   fst (createNews env_ok draft_goal sample_table) =
     Ok (Some (row_of_draft env_ok sample_table draft_goal)) /\
   abs (snd (createNews env_ok draft_goal sample_table)) =
     <[fresh_uuid sample_table := row_of_draft env_ok sample_table draft_goal]> (abs sample_table)) /\
  abs (snd (deleteNews env_ok "a1" sample_table)) = delete "a1" (abs sample_table) /\
  (p_id retitle = None ->
     fst (updateNews env_ok "a1" retitle sample_table) =
       match abs sample_table !! "a1" with
       | Some n0 => Ok (Some (apply_patch retitle n0)) | None => Err PGRST116 end /\
     abs (snd (updateNews env_ok "a1" retitle sample_table)) =
       alter (apply_patch retitle) "a1" (abs sample_table)).
Proof. apply gateway_refines_store; [reflexivity|apply sample_table_wf]. Defined.

(** A create, an update, a failed delete and a delete of the sample
    table. *)
Definition sample_writes : list (Env * Write) :=
  [(env_ok, WCreate draft_goal); (env_ok, WUpdate "a1" retitle);
   (mkEnv (Some NetworkError) "" "", WDelete "a2"); (env_ok, WDelete "a2")].

Lemma table_runs_refine_store_witness :
  table_wf sample_table /\ Forall (fun ew => keeps_id ew.2) sample_writes /\
  store_run (abs sample_table) sample_writes (abs (table_run sample_table sample_writes)).
Proof.
  assert (Hw : Forall (fun ew => keeps_id ew.2) sample_writes) by (repeat constructor).
  split; [apply sample_table_wf|split; [exact Hw|]].
  apply table_runs_refine_store; [apply sample_table_wf|exact Hw].
Defined.

Definition goal_row : NewsItem := row_of_draft env_ok empty_table draft_goal.

Lemma store_reachable_wf_witness :
  star store_step ∅ (<[id goal_row := goal_row]> ∅) /\ store_wf (<[id goal_row := goal_row]> ∅).
Proof.
  assert (H : star store_step ∅ (<[id goal_row := goal_row]> ∅))
    by (apply star_one; constructor; apply lookup_empty).
  split; [exact H|]. apply store_reachable_wf. exact H.
Defined.

Lemma getAllNews_reads_store_witness :
  exists l, getAllNews env_ok sample_table = Ok l /\
    l ≡ₚ (map_to_list (abs sample_table)).*2 /\ StronglySorted newer_or_eq l.
Proof. apply getAllNews_reads_store; [reflexivity|apply sample_table_wf]. Defined.

End GatewaySpec.
