(* ===== verification/ServiceContract.v ===== *)
(** * ServiceContract: [newsService] as an interface

    The hooks ([useNews.ts]) and the admin screens reach the database only
    through [newsService]'s functions.  What they rely on is stated here as
    a class, [NewsService]: the functions the clients call, the articles a
    backend holds ([contents], a map from id to article), and the laws of
    each function on a healthy backend: [getNewsById] looks an id up,
    [createNews] inserts the draft under a free id, [updateNews] alters the
    entry, [deleteNews] deletes it, each keeps the backend well formed, and
    a failed request returns its error and changes nothing.  The client
    lemmas of Section [Client] are proved from the laws alone; the
    instance [gateway_service] discharges the laws for the table model of
    [Gateway] through the abstraction [abs] of [GatewaySpec]. *)

From stdpp Require Import base list strings gmap.
From S2P Require Import Prelude Model Gateway GatewaySpec.

Module ServiceContract.
Import Gateway GatewaySpec.

Class NewsService (T : Type) := {
  contents : T -> Store;
  service_wf : T -> Prop;
  svc_getNewsById : Env -> string -> T -> result PostgrestError (option NewsItem);
  svc_createNews : Env -> NewsDraft -> T -> result PostgrestError (option NewsItem) * T;
  svc_updateNews : Env -> string -> NewsPatch -> T -> result PostgrestError (option NewsItem) * T;
  svc_deleteNews : Env -> string -> T -> result PostgrestError unit * T;

  getNewsById_law e i t : env_fault e = None -> service_wf t ->
    svc_getNewsById e i t = store_getById (contents t) i;
  createNews_law e d t : env_fault e = None -> service_wf t ->
    exists n, fst (svc_createNews e d t) = Ok (Some n) /\ draft_of n = d /\
      contents t !! id n = None /\ contents (snd (svc_createNews e d t)) = <[id n := n]> (contents t);
  updateNews_law e i p t : env_fault e = None -> service_wf t -> p_id p = None ->
    fst (svc_updateNews e i p t) =
      match contents t !! i with Some n0 => Ok (Some (apply_patch p n0)) | None => Err PGRST116 end /\
    contents (snd (svc_updateNews e i p t)) = alter (apply_patch p) i (contents t);
  deleteNews_law e i t : env_fault e = None -> service_wf t ->
    fst (svc_deleteNews e i t) = Ok tt /\ contents (snd (svc_deleteNews e i t)) = delete i (contents t);
  fault_law e err t : env_fault e = Some err ->
    (forall i, svc_getNewsById e i t = Err err) /\ (forall d, svc_createNews e d t = (Err err, t)) /\
    (forall i p, svc_updateNews e i p t = (Err err, t)) /\ (forall i, svc_deleteNews e i t = (Err err, t));
  createNews_wf_law e d t : service_wf t -> service_wf (snd (svc_createNews e d t));
  updateNews_wf_law e i p t : service_wf t -> service_wf (snd (svc_updateNews e i p t));
  deleteNews_wf_law e i t : service_wf t -> service_wf (snd (svc_deleteNews e i t));
}.

(** ** What a client can rely on *)

Section Client.
Context `{NewsService T}.

(** Reading an article back after creating it returns it. *)
Lemma svc_create_then_get (e : Env) (d : NewsDraft) (t : T) :
  env_fault e = None -> service_wf t ->
  exists n, fst (svc_createNews e d t) = Ok (Some n) /\ draft_of n = d /\
    svc_getNewsById e (id n) (snd (svc_createNews e d t)) = Ok (Some n).
Proof.
  intros He Hwf. destruct (createNews_law e d t He Hwf) as (n & Hr & Hd & _ & Hc).
  exists n. split; [done|split; [done|]].
  rewrite getNewsById_law, Hc by auto using createNews_wf_law.
  unfold store_getById. by rewrite lookup_insert_eq.
Qed.

(** Reading an article after updating it returns the patched article. *)
Lemma svc_update_then_get (e : Env) (i : string) (p : NewsPatch) (t : T) (n0 : NewsItem) :
  env_fault e = None -> service_wf t -> p_id p = None -> contents t !! i = Some n0 ->
  fst (svc_updateNews e i p t) = Ok (Some (apply_patch p n0)) /\
  svc_getNewsById e i (snd (svc_updateNews e i p t)) = Ok (Some (apply_patch p n0)).
Proof.
  intros He Hwf Hp Hi. destruct (updateNews_law e i p t He Hwf Hp) as [Hr Hc].
  rewrite Hi in Hr. split; [done|].
  rewrite getNewsById_law, Hc by auto using updateNews_wf_law.
  unfold store_getById. by rewrite lookup_alter_eq, Hi.
Qed.

(** After a delete the id is gone: reading it fails with PGRST116. *)
Lemma svc_delete_then_get (e : Env) (i : string) (t : T) :
  env_fault e = None -> service_wf t ->
  svc_getNewsById e i (snd (svc_deleteNews e i t)) = Err PGRST116.
Proof.
  intros He Hwf. destruct (deleteNews_law e i t He Hwf) as [_ Hc].
  rewrite getNewsById_law, Hc by auto using deleteNews_wf_law.
  unfold store_getById. by rewrite lookup_delete_eq.
Qed.

(** A write leaves every other id as it was. *)
Lemma svc_write_other_ids (e : Env) (i j : string) (p : NewsPatch) (t : T) :
  env_fault e = None -> service_wf t -> p_id p = None -> i <> j ->
  svc_getNewsById e j (snd (svc_updateNews e i p t)) = svc_getNewsById e j t /\
  svc_getNewsById e j (snd (svc_deleteNews e i t)) = svc_getNewsById e j t.
Proof.
  intros He Hwf Hp Hij.
  destruct (updateNews_law e i p t He Hwf Hp) as [_ Hu]. destruct (deleteNews_law e i t He Hwf) as [_ Hd].
  rewrite !getNewsById_law, Hu, Hd by auto using updateNews_wf_law, deleteNews_wf_law.
  unfold store_getById. by rewrite lookup_alter_ne, lookup_delete_ne.
Qed.

End Client.

(** ** The table model implements the contract *)

Lemma gateway_create_law (e : Env) (d : NewsDraft) (t : Table) :
  env_fault e = None -> table_wf t ->
  exists n, fst (createNews e d t) = Ok (Some n) /\ draft_of n = d /\
    abs t !! id n = None /\ abs (snd (createNews e d t)) = <[id n := n]> (abs t).
Proof.
  intros He Hwf. destruct (createNews_abs e d t He Hwf) as (Hr & Hf & Hc).
  exists (row_of_draft e t d). by destruct d.
Qed.

Lemma gateway_fault_law (e : Env) (err : PostgrestError) (t : Table) :
  env_fault e = Some err ->
  (forall i, getNewsById e i t = Err err) /\ (forall d, createNews e d t = (Err err, t)) /\
  (forall i p, updateNews e i p t = (Err err, t)) /\ (forall i, deleteNews e i t = (Err err, t)).
Proof. intros Hf. unfold getNewsById, createNews, updateNews, deleteNews, send. by rewrite Hf. Qed.

#[export] Instance gateway_service : NewsService Table := {|
  contents := abs;
  service_wf := table_wf;
  svc_getNewsById := getNewsById;
  svc_createNews := createNews;
  svc_updateNews := updateNews;
  svc_deleteNews := deleteNews;
  getNewsById_law := getNewsById_abs;
  createNews_law := gateway_create_law;
  updateNews_law := updateNews_abs;
  deleteNews_law := deleteNews_abs;
  fault_law := gateway_fault_law;
  createNews_wf_law := createNews_wf;
  updateNews_wf_law := updateNews_wf;
  deleteNews_wf_law := deleteNews_wf;
|}.

(** ** Theorems *)

(** C20: through the contract, [newsService]'s writes read back as
    written on a healthy backend whose ids are unique: a created article
    carries the draft's fields and reading its new id returns it; reading
    an updated id returns the patched article; reading a deleted id fails
    with PGRST116; and an update or delete of one id leaves the read of
    every other id unchanged. *)
Theorem gateway_reads_back_writes (e : Env) (t : Table) (d : NewsDraft) (i j : string) (p : NewsPatch) :
  env_fault e = None -> table_wf t -> p_id p = None -> i <> j ->
  (exists n, fst (createNews e d t) = Ok (Some n) /\ draft_of n = d /\
     getNewsById e (id n) (snd (createNews e d t)) = Ok (Some n)) /\
  (forall n0, abs t !! i = Some n0 ->
     getNewsById e i (snd (updateNews e i p t)) = Ok (Some (apply_patch p n0))) /\
  getNewsById e i (snd (deleteNews e i t)) = Err PGRST116 /\
  getNewsById e j (snd (updateNews e i p t)) = getNewsById e j t /\
  getNewsById e j (snd (deleteNews e i t)) = getNewsById e j t.
Proof.
  intros He Hwf Hp Hij.
  destruct (@svc_write_other_ids Table gateway_service e i j p t He Hwf Hp Hij) as [Hu Hd].
  split; [exact (@svc_create_then_get Table gateway_service e d t He Hwf)|].
  split; [intros n0 Hi; exact (proj2 (@svc_update_then_get Table gateway_service e i p t n0 He Hwf Hp Hi))|].
  split; [exact (@svc_delete_then_get Table gateway_service e i t He Hwf)|].
  split; [exact Hu | exact Hd].
Qed.

(** ** Concrete runs *)

Lemma gateway_reads_back_writes_witness :
  (exists n, fst (createNews env_ok draft_goal sample_table) = Ok (Some n) /\ draft_of n = draft_goal /\
     getNewsById env_ok (id n) (snd (createNews env_ok draft_goal sample_table)) = Ok (Some n)) /\
  (forall n0, abs sample_table !! "a1" = Some n0 ->
     getNewsById env_ok "a1" (snd (updateNews env_ok "a1" retitle sample_table)) =
       Ok (Some (apply_patch retitle n0))) /\
  getNewsById env_ok "a1" (snd (deleteNews env_ok "a1" sample_table)) = Err PGRST116 /\
  getNewsById env_ok "a2" (snd (updateNews env_ok "a1" retitle sample_table)) =
    getNewsById env_ok "a2" sample_table /\
  getNewsById env_ok "a2" (snd (deleteNews env_ok "a1" sample_table)) = getNewsById env_ok "a2" sample_table.
Proof.
  apply gateway_reads_back_writes; [reflexivity | apply sample_table_wf | reflexivity | discriminate].
Defined.

End ServiceContract.
