(* ===== verification/Retry.v ===== *)
(** * Retry: the retry policy of the query client ([src/App.tsx])

    [new QueryClient({ defaultOptions: { queries: { retry: 3, retryDelay:
    attemptIndex => Math.min(1000 * 2 ** attemptIndex, 30000), ... }}})].
    react-query's retryer runs the query function; on a failure it retries
    while [failureCount < retry], sleeping [retryDelay(failureCount)]
    first, and counts the failure.  [retryer_run] is that loop as the
    library writes it, by well-founded recursion on [retry - failureCount];
    [retry_loop] is the same loop with the number of retries left as its
    structural argument, which the other files use; the two are proved
    equal.  [attempt i] is the outcome of the query function on its [i]-th
    call (from 0). *)

From Equations Require Import Equations.
From stdpp Require Import base list.
From Stdlib Require Import ZArith.
From S2P Require Import Prelude.

Module Retry.

(** [retry: 3] *)
Definition retry : nat := 3.

(** [attemptIndex => Math.min(1000 * 2 ** attemptIndex, 30000)] *)
Definition retryDelay (attemptIndex : nat) : Z :=
  Z.min (1000 * 2 ^ Z.of_nat attemptIndex) 30000.

Section Retryer.
Context {E A : Type}.

(** The outcome of the retried run and the delays slept before each
    retry, in order. *)
Fixpoint retry_loop (remaining failureCount : nat) (attempt : nat -> result E A)
  : result E A * list Z :=
  match attempt failureCount with
  | Ok a => (Ok a, [])
  | Err e =>
      match remaining with
      | 0 => (Err e, [])
      | S r =>
          let '(res, ds) := retry_loop r (S failureCount) attempt in
          (res, retryDelay failureCount :: ds)
      end
  end.

(** The retryer of react-query ([retryer.ts], [run]): call the function;
    on a failure, retry when [failureCount < retry], after sleeping
    [retryDelay(failureCount)], with [failureCount + 1]; otherwise reject. *)
Equations retryer_run (retry failureCount : nat) (attempt : nat -> result E A)
  : result E A * list Z by wf (retry - failureCount) lt :=
retryer_run retry failureCount attempt with attempt failureCount => {
  | Ok a => (Ok a, []);
  | Err e with lt_dec failureCount retry => {
    | left _ =>
        let '(res, ds) := retryer_run retry (S failureCount) attempt in
        (res, retryDelay failureCount :: ds);
    | right _ => (Err e, []) } }.
Next Obligation. lia. Qed.

Definition run_retryer (retries : nat) (attempt : nat -> result E A) : result E A * list Z :=
  retry_loop retries 0 attempt.

(** Calls of the query function a run makes: one more than the retries. *)
Definition attempts (r : result E A * list Z) : nat := S (length (snd r)).

Definition total_delay (r : result E A * list Z) : Z := fold_right Z.add 0%Z (snd r).
End Retryer.

Definition is_err {E A} (r : result E A) : Prop := is_ok r = false.

(** ** The loop *)

Section RetryerFacts.
Context {E A : Type} (attempt : nat -> result E A).

(** A run whose first success is [k] calls in, within the retry budget,
    returns it after sleeping the delays of the [k] failures. *)
Lemma retry_loop_first_ok (r fc k : nat) (a : A) :
  k <= r -> (forall i, fc <= i < fc + k -> is_err (attempt i)) -> attempt (fc + k) = Ok a ->
  retry_loop r fc attempt = (Ok a, retryDelay <$> seq fc k).
Proof.
  revert r fc. induction k as [|k IH]; intros r fc Hk Herr Hok.
  - rewrite Nat.add_0_r in Hok. destruct r; simpl; by rewrite Hok.
  - destruct r as [|r]; [lia|]. simpl.
    pose proof (Herr fc ltac:(lia)) as Hfc. unfold is_err in Hfc.
    destruct (attempt fc) as [a'|e]; [discriminate|].
    rewrite (IH r (S fc)); [done|lia| |by replace (S fc + k) with (fc + S k) by lia].
    intros i Hi. apply Herr. lia.
Qed.

(** A run that fails on every call sleeps before each of its [r] retries
    and surfaces the error of the last call. *)
Lemma retry_loop_all_err (r fc : nat) :
  (forall i, fc <= i <= fc + r -> is_err (attempt i)) ->
  retry_loop r fc attempt = (attempt (fc + r), retryDelay <$> seq fc r).
Proof.
  revert fc. induction r as [|r IH]; intros fc Herr.
  - pose proof (Herr fc ltac:(lia)) as Hfc. unfold is_err in Hfc. rewrite Nat.add_0_r.
    simpl. by destruct (attempt fc).
  - pose proof (Herr fc ltac:(lia)) as Hfc. unfold is_err in Hfc. simpl.
    destruct (attempt fc) as [a'|e]; [discriminate|].
    rewrite IH; [|intros i Hi; apply Herr; lia]. by replace (fc + S r) with (S fc + r) by lia.
Qed.

(** However the calls turn out, a run sleeps at most [r] times. *)
Lemma retry_loop_bounded (r fc : nat) : length (snd (retry_loop r fc attempt)) <= r.
Proof.
  revert fc. induction r as [|r IH]; intros fc; simpl;
    destruct (attempt fc); simpl; try lia.
  specialize (IH (S fc)). destruct (retry_loop r (S fc) attempt). simpl in *. lia.
Qed.
(** The library's loop and the structural one agree. *)
Lemma retryer_run_loop (r fc : nat) : retryer_run r fc attempt = retry_loop (r - fc) fc attempt.
Proof.
  funelim (retryer_run r fc attempt).
  - destruct (retry0 - failureCount); simpl; by rewrite Heq.
  - rewrite H. replace (retry0 - failureCount) with (S (retry0 - S failureCount)) by lia.
    simpl. by rewrite Heq0.
  - replace (retry0 - failureCount) with 0 by lia. simpl.
    match goal with Ha : attempt failureCount = Err _ |- _ => by rewrite Ha end.
Qed.

(** Whatever the calls return, the loop stops: after [k + 1] calls, where
    [k] is the index of the first success or the whole budget, it returns
    the outcome of call [k] after the delays of the [k] failures. *)
Lemma retry_loop_total (r fc : nat) :
  exists k, k <= r /\ (forall i, fc <= i < fc + k -> is_err (attempt i)) /\
    (k = r \/ is_ok (attempt (fc + k)) = true) /\
    retry_loop r fc attempt = (attempt (fc + k), retryDelay <$> seq fc k).
Proof.
  revert fc. induction r as [|r IH]; intros fc.
  - exists 0. rewrite Nat.add_0_r. split; [lia|]. split; [lia|]. split; [by left|].
    simpl. by destruct (attempt fc).
  - simpl. destruct (attempt fc) as [a|e] eqn:Ha.
    + exists 0. rewrite Nat.add_0_r, Ha. repeat split; [lia|lia|by right].
    + destruct (IH (S fc)) as (k & Hk & Herr & Hend & ->). exists (S k).
      replace (fc + S k) with (S fc + k) by lia. split; [lia|]. split; [|split; [destruct Hend; [left; lia|by right]|done]].
      intros i Hi. destruct (decide (i = fc)) as [->|Hne]; [unfold is_err; by rewrite Ha|].
      apply Herr. lia.
Qed.
End RetryerFacts.

(** ** The configured policy *)

Lemma pow2_mono (i j : nat) : (i <= j)%nat -> (2 ^ Z.of_nat i <= 2 ^ Z.of_nat j)%Z.
Proof. intros H. apply Z.pow_le_mono_r; lia. Qed.

(** C11: every retry waits between one and thirty seconds: exactly
    [1000 * 2^i] ms for the first five retries, the 30 s cap from the sixth
    on. *)
Theorem retryDelay_bounds (i : nat) :
  (1000 <= retryDelay i <= 30000)%Z /\
  ((i <= 4)%nat -> retryDelay i = (1000 * 2 ^ Z.of_nat i)%Z) /\
  ((5 <= i)%nat -> retryDelay i = 30000%Z).
Proof.
  unfold retryDelay. pose proof (pow2_mono 0 i ltac:(lia)) as H0. simpl in H0.
  split; [lia|]. split.
  - intros Hi. pose proof (pow2_mono i 4 Hi) as H4. simpl in H4. lia.
  - intros Hi. pose proof (pow2_mono 5 i Hi) as H5. simpl in H5. lia.
Qed.

(** C9: a query whose function fails on every call is called four times
    ([retry: 3] means three retries after the first call), waits
    1 s, 2 s and 4 s in between (7 s in all), and then surfaces the error of
    the fourth call. *)
Theorem retryer_exhausts {E A} (attempt : nat -> result E A) :
  (forall i, is_err (attempt i)) ->
  run_retryer retry attempt = (attempt 3, [1000%Z; 2000%Z; 4000%Z]) /\
  attempts (run_retryer retry attempt) = 4 /\
  total_delay (run_retryer retry attempt) = 7000%Z.
Proof.
  intros Herr. unfold run_retryer.
  rewrite (retry_loop_all_err attempt retry 0) by (intros i _; apply Herr).
  split; [|split]; reflexivity.
Qed.

(** A query whose function first succeeds on call [k + 1], with
    [k <= 3], resolves with that value after sleeping the [k] delays. *)
Theorem retryer_recovers {E A} (attempt : nat -> result E A) (k : nat) (a : A) :
  (k <= retry)%nat -> (forall i, (i < k)%nat -> is_err (attempt i)) -> attempt k = Ok a ->
  run_retryer retry attempt = (Ok a, retryDelay <$> seq 0 k) /\
  attempts (run_retryer retry attempt) = S k.
Proof.
  intros Hk Herr Hok. unfold run_retryer.
  rewrite (retry_loop_first_ok attempt retry 0 k a Hk) by (auto with lia).
  split; [done|]. unfold attempts. simpl. by rewrite length_fmap, length_seq.
Qed.

(** The structural loop the development reasons about computes the
    same run as react-query's retryer, [while (failureCount < retry)],
    for every retry budget and every sequence of outcomes. *)
Theorem retryer_equiv {E A} (r : nat) (attempt : nat -> result E A) :
  run_retryer r attempt = retryer_run r 0 attempt.
Proof. unfold run_retryer. by rewrite retryer_run_loop, Nat.sub_0_r. Qed.

(** C14: the retryer stops for every query function: after at most
    [retry + 1 = 4] calls it returns the outcome of call [k], where [k] is
    the first success or the last allowed call, having slept the [k]
    configured delays. *)
Theorem retryer_terminates {E A} (attempt : nat -> result E A) :
  exists k, (k <= retry)%nat /\ (forall i, (i < k)%nat -> is_err (attempt i)) /\
    (k = retry \/ is_ok (attempt k) = true) /\
    retryer_run retry 0 attempt = (attempt k, retryDelay <$> seq 0 k).
Proof.
  rewrite retryer_run_loop, Nat.sub_0_r.
  destruct (retry_loop_total attempt retry 0) as (k & Hk & Herr & Hend & Hrun).
  exists k. split; [done|]. split; [intros i Hi; apply Herr; lia|]. by split.
Qed.

(** ** Concrete runs *)

Definition fail_twice (i : nat) : result nat nat :=
  if (i <? 2)%nat then Err i else Ok 7.

Lemma retryDelay_bounds_witness :
  (1000 <= retryDelay 6 <= 30000)%Z /\
  ((6 <= 4)%nat -> retryDelay 6 = (1000 * 2 ^ Z.of_nat 6)%Z) /\
  ((5 <= 6)%nat -> retryDelay 6 = 30000%Z).
Proof. apply retryDelay_bounds. Defined.

Lemma retryer_exhausts_witness :
  (forall i, is_err (@Err nat nat i)) /\
  run_retryer retry (fun i => @Err nat nat i) = (Err 3, [1000%Z; 2000%Z; 4000%Z]) /\
  attempts (run_retryer retry (fun i => @Err nat nat i)) = 4 /\
  total_delay (run_retryer retry (fun i => @Err nat nat i)) = 7000%Z.
Proof.
  split; [intros i; reflexivity|].
  apply (retryer_exhausts (fun i => @Err nat nat i)). intros i. reflexivity.
Defined.

Lemma retryer_recovers_witness :
  run_retryer retry fail_twice = (Ok 7, retryDelay <$> seq 0 2) /\
  attempts (run_retryer retry fail_twice) = 3.
Proof.
  apply retryer_recovers; [unfold retry; lia| |reflexivity].
  intros i Hi. unfold is_err, fail_twice. destruct (Nat.ltb_spec i 2); [reflexivity|lia].
Defined.

End Retry.
