(* ===== verification/QueryCache.v ===== *)
(** * QueryCache: the react-query client the app creates in [src/App.tsx]

    react-query is a library the sources only configure and call; this file
    models the part of its behaviour the app relies on, from its documented
    semantics (the spec's Query Cache Core and Fetch Coordinator):
    - queries are stored by key ([QueryCache]); a key is an array, and a
      filter key matches every key it is a prefix of ([partialMatchKey]);
    - a query's state ([QueryState]) has [data], [dataUpdatedAt], [error],
      [status] and [fetchStatus], and the [isInvalidated] flag;
    - a query is stale when invalidated, without data, or [staleTime] ms
      after its last success ([isStaleByTime]);
    - mounting an observer ([useQuery]) fetches when the query is enabled
      and stale; a fetch while another is running joins it, unless it is a
      refetch of a query that has data ([cancelRefetch]), which replaces the
      running retryer, whose result is then dropped ([fetchSeq]);
    - [invalidateQueries] marks matching queries invalid and refetches the
      active ones; an unobserved idle query is removed [gcTime] ms after its
      last observer left.
    Times are milliseconds as [Z] ([Date.now()]). *)

From stdpp Require Import base list strings gmap.
From Stdlib Require Import ZArith.
From S2P Require Import Prelude Retry.

Module QueryCache.

(** ** Keys *)

Inductive KeyPart : Type :=
  | KStr (s : string)
  | KNum (n : nat).

#[export] Instance KeyPart_eq_dec : EqDecision KeyPart.
Proof. solve_decision. Defined.

#[export] Instance KeyPart_countable : Countable KeyPart.
Proof.
  apply (inj_countable'
    (fun p => match p with KStr s => inl s | KNum n => inr n end)
    (fun x => match x with inl s => KStr s | inr n => KNum n end)).
  by intros [].
Defined.

(** [partialMatchKey(queryKey, filters.queryKey)] on arrays of primitives:
    every position of the filter holds the same value in the key. *)
Fixpoint partialMatchKey (queryKey filterKey : list KeyPart) : bool :=
  match filterKey, queryKey with
  | [], _ => true
  | f :: fs, q :: qs => bool_decide (q = f) && partialMatchKey qs fs
  | _ :: _, [] => false
  end.

(** ** Query state *)

Inductive QueryStatus : Type := Pending | StatusError | Success.
Inductive FetchStatus : Type := Fetching | Idle.

#[export] Instance QueryStatus_eq_dec : EqDecision QueryStatus.
Proof. solve_decision. Defined.
#[export] Instance FetchStatus_eq_dec : EqDecision FetchStatus.
Proof. solve_decision. Defined.

(** The client's defaults: [staleTime: 5 * 60 * 1000], [gcTime: 10 * 60 * 1000]. *)
Definition defaultStaleTime : Z := 5 * 60 * 1000.
Definition defaultGcTime : Z := 10 * 60 * 1000.

(** The options of one [useQuery] call. *)
Record QueryOptions : Type := mkOptions {
  queryKey : list KeyPart;
  staleTime : Z;
  gcTime : Z;
  enabled : bool;
}.

Section Cache.
Context {E D : Type}.

Record QueryState : Type := mkQueryState {
  data : option D;
  dataUpdatedAt : Z;
  error : option E;
  status : QueryStatus;
  fetchStatus : FetchStatus;
  isInvalidated : bool;
}.

Record Query : Type := mkQuery {
  state : QueryState;
  observers : nat;          (** mounted observers *)
  q_enabled : bool;         (** [enabled] of its observers *)
  gcAt : option Z;          (** when the pending gc timeout fires *)
  fetchSeq : nat;           (** the current retryer; older results are dropped *)
}.

(** The client: its query cache, and the log of fetches started (key and
    retryer number, newest first), i.e. the calls of query functions. *)
Record Client : Type := mkClient {
  queries : gmap (list KeyPart) Query;
  calls : list (list KeyPart * nat);
}.

Definition initialState : QueryState := mkQueryState None 0 None Pending Idle false.

Definition isStaleByTime (s : QueryState) (stale now : Z) : bool :=
  isInvalidated s || negb (bool_decide (is_Some (data s)))
  || bool_decide (dataUpdatedAt s + stale <= now)%Z.

Definition is_fetching (q : Query) : bool :=
  bool_decide (fetchStatus (state q) = Fetching).

Definition with_state (q : Query) (s : QueryState) : Query :=
  mkQuery s (observers q) (q_enabled q) (gcAt q) (fetchSeq q).

(** The [fetch] action: fetching; a query without data goes back to
    pending and forgets its error. *)
Definition fetch_action (s : QueryState) : QueryState :=
  match data s with
  | Some _ => mkQueryState (data s) (dataUpdatedAt s) (error s) (status s) Fetching (isInvalidated s)
  | None => mkQueryState None (dataUpdatedAt s) None Pending Fetching (isInvalidated s)
  end.

Definition success_action (d : D) (now : Z) (s : QueryState) : QueryState :=
  mkQueryState (Some d) now None Success Idle false.

Definition error_action (e : E) (s : QueryState) : QueryState :=
  mkQueryState (data s) (dataUpdatedAt s) (Some e) StatusError Idle (isInvalidated s).

Definition invalidate_action (s : QueryState) : QueryState :=
  mkQueryState (data s) (dataUpdatedAt s) (error s) (status s) (fetchStatus s) true.

(** ** Client operations *)

(** [QueryCache.build]: the query of a key, created on first use with
    its gc timeout scheduled. *)
Definition newQuery (o : QueryOptions) (now : Z) : Query :=
  mkQuery initialState 0 (enabled o) (Some (now + gcTime o)%Z) 0.

Definition build (o : QueryOptions) (now : Z) (c : Client) : Client :=
  match queries c !! queryKey o with
  | Some _ => c
  | None => mkClient (<[queryKey o := newQuery o now]> (queries c)) (calls c)
  end.

(** [query.fetch(options, { cancelRefetch })] on an existing query: join
    the running retryer, or start a new one (cancelling the running one
    when [cancelRefetch] and the query has data). *)
Definition fetch (cancelRefetch : bool) (k : list KeyPart) (c : Client) : Client :=
  match queries c !! k with
  | None => c
  | Some q =>
      if is_fetching q && negb (cancelRefetch && bool_decide (is_Some (data (state q))))
      then c
      else
        let q' := mkQuery (fetch_action (state q)) (observers q) (q_enabled q) (gcAt q)
                    (S (fetchSeq q)) in
        mkClient (<[k := q']> (queries c)) ((k, S (fetchSeq q)) :: calls c)
  end.

(** [QueryObserver.onSubscribe]: add the observer (clearing the gc
    timeout) and fetch when enabled and stale ([shouldFetchOnMount]). *)
Definition subscribe (o : QueryOptions) (now : Z) (c : Client) : Client :=
  let c1 := build o now c in
  match queries c1 !! queryKey o with
  | None => c1
  | Some q =>
      let q' := mkQuery (state q) (S (observers q)) (enabled o) None (fetchSeq q) in
      let c2 := mkClient (<[queryKey o := q']> (queries c1)) (calls c1) in
      if enabled o && isStaleByTime (state q) (staleTime o) now
      then fetch false (queryKey o) c2 else c2
  end.

(** [query.removeObserver]: the last observer leaving schedules gc. *)
Definition unsubscribe (o : QueryOptions) (now : Z) (c : Client) : Client :=
  match queries c !! queryKey o with
  | None => c
  | Some q =>
      let n := pred (observers q) in
      let g := if bool_decide (n = 0) then Some (now + gcTime o)%Z else gcAt q in
      mkClient (<[queryKey o := mkQuery (state q) n (q_enabled q) g (fetchSeq q)]> (queries c))
        (calls c)
  end.

(** The retryer [seq] of key [k] settles with the outcome of its run.  The
    result of a retryer that is no longer the query's current one, or of a
    query no longer fetching, is dropped. *)
Definition settle (k : list KeyPart) (seq : nat) (r : result E D) (now gc : Z) (c : Client)
  : Client :=
  match queries c !! k with
  | None => c
  | Some q =>
      if bool_decide (seq = fetchSeq q) && is_fetching q then
        let s' := match r with
                  | Ok d => success_action d now (state q)
                  | Err e => error_action e (state q)
                  end in
        let g := if bool_decide (observers q = 0) then Some (now + gc)%Z else gcAt q in
        mkClient (<[k := mkQuery s' (observers q) (q_enabled q) g (fetchSeq q)]> (queries c))
          (calls c)
      else c
  end.

Definition invalidate_query (filterKey : list KeyPart) (k : list KeyPart) (q : Query) : Query :=
  if partialMatchKey k filterKey then with_state q (invalidate_action (state q)) else q.

(** The active queries a filter matches: observed by an enabled observer. *)
Definition active_matching (filterKey : list KeyPart) (m : gmap (list KeyPart) Query)
  : list (list KeyPart) :=
  (map_to_list m) ≫= (fun kq =>
     if partialMatchKey kq.1 filterKey && bool_decide (0 < observers kq.2) && q_enabled kq.2
     then [kq.1] else []).

(** [queryClient.invalidateQueries({ queryKey })]: mark, then refetch the
    active ones with [cancelRefetch: true]. *)
Definition invalidateQueries (filterKey : list KeyPart) (c : Client) : Client :=
  let m := map_imap (fun k q => Some (invalidate_query filterKey k q)) (queries c) in
  foldr (fetch true) (mkClient m (calls c)) (active_matching filterKey m).

(** [refetch()] returned by [useQuery]: a fetch with [cancelRefetch: true],
    regardless of staleness. *)
Definition refetch (k : list KeyPart) (c : Client) : Client := fetch true k c.

(** The gc timeout of a query fires: [optionalRemove]. *)
Definition removable (now : Z) (q : Query) : bool :=
  bool_decide (observers q = 0) && negb (is_fetching q)
  && match gcAt q with Some g => bool_decide (g <= now)%Z | None => false end.

Definition gc (now : Z) (c : Client) : Client :=
  mkClient (filter (fun kq => removable now kq.2 = false) (queries c)) (calls c).

(** ** Events and the step relation *)

Inductive Event : Type :=
  | EvSubscribe (o : QueryOptions) (now : Z)
  | EvUnsubscribe (o : QueryOptions) (now : Z)
  | EvSettle (k : list KeyPart) (seq : nat) (r : result E D) (now gc : Z)
  | EvInvalidate (filterKey : list KeyPart)
  | EvRefetch (k : list KeyPart)
  | EvGc (now : Z).

Definition handle (c : Client) (ev : Event) : Client :=
  match ev with
  | EvSubscribe o now => subscribe o now c
  | EvUnsubscribe o now => unsubscribe o now c
  | EvSettle k seq r now g => settle k seq r now g c
  | EvInvalidate f => invalidateQueries f c
  | EvRefetch k => refetch k c
  | EvGc now => gc now c
  end.

Definition emptyClient : Client := mkClient ∅ [].

Definition run (c : Client) (evs : list Event) : Client := foldl handle c evs.

(** Fetches started for a key. *)
Definition calls_for (k : list KeyPart) (c : Client) : nat :=
  length (filter (fun kn => kn.1 = k) (calls c)).
End Cache.
Arguments QueryState : clear implicits.
Arguments Query : clear implicits.
Arguments Client : clear implicits.
Arguments Event : clear implicits.

(** ** Lemmas: lookups after each operation *)

Section Facts.
Context {E D : Type}.
Implicit Types (c : Client E D) (q : Query E D) (o : QueryOptions).

Lemma fetch_other (b : bool) k k' c :
  k <> k' -> queries (fetch b k c) !! k' = queries c !! k'.
Proof.
  intros Hne. unfold fetch. destruct (queries c !! k); [|done].
  case_match; [done|]. simpl. by rewrite lookup_insert_ne.
Qed.

(** A fetch keeps a query's data, invalidation flag, observers and
    options; afterwards the query is fetching. *)
Lemma fetch_same (b : bool) k c q :
  queries c !! k = Some q ->
  exists q', queries (fetch b k c) !! k = Some q' /\
    data (state q') = data (state q) /\ isInvalidated (state q') = isInvalidated (state q) /\
    observers q' = observers q /\ q_enabled q' = q_enabled q /\
    fetchStatus (state q') = Fetching.
Proof.
  intros Hq. unfold fetch. rewrite Hq.
  destruct (is_fetching q && _) eqn:Hj.
  - exists q. rewrite Hq. apply andb_true_iff in Hj as [Hf _].
    unfold is_fetching in Hf. apply bool_decide_eq_true in Hf. by repeat split.
  - simpl. rewrite lookup_insert_eq. eexists. split; [done|]. simpl.
    unfold fetch_action. by destruct (data (state q)); repeat split.
Qed.

(** Whether a fetch calls the query function. *)
Lemma fetch_calls (b : bool) k c q :
  queries c !! k = Some q ->
  calls (fetch b k c) =
    if is_fetching q && negb (b && bool_decide (is_Some (data (state q)))) then calls c
    else (k, S (fetchSeq q)) :: calls c.
Proof. intros Hq. unfold fetch. rewrite Hq. by case_match. Qed.

Lemma foldr_fetch_other (b : bool) (ks : list (list KeyPart)) k c :
  k ∉ ks -> queries (foldr (fetch b) c ks) !! k = queries c !! k.
Proof.
  induction ks as [|k' ks IH]; intros Hk; [done|]. simpl.
  apply not_elem_of_cons in Hk as [Hne Hk]. rewrite fetch_other by done. by apply IH.
Qed.

(** Fetches of any keys keep what [fetch_same] keeps, and keep a fetching
    query fetching. *)
Lemma foldr_fetch_keeps (b : bool) (ks : list (list KeyPart)) k c q :
  queries c !! k = Some q ->
  exists q', queries (foldr (fetch b) c ks) !! k = Some q' /\
    data (state q') = data (state q) /\ isInvalidated (state q') = isInvalidated (state q) /\
    observers q' = observers q /\ q_enabled q' = q_enabled q /\
    (k ∈ ks \/ fetchStatus (state q) = Fetching -> fetchStatus (state q') = Fetching).
Proof.
  revert q. induction ks as [|k' ks IH]; intros q Hq; simpl.
  - exists q. repeat split; auto. intros [Hin|]; [by apply not_elem_of_nil in Hin|done].
  - destruct (IH q Hq) as (q1 & H1 & Hd1 & Hi1 & Ho1 & He1 & Hf1).
    destruct (decide (k' = k)) as [->|Hne].
    + destruct (fetch_same b k _ q1 H1) as (q2 & H2 & Hd2 & Hi2 & Ho2 & He2 & Hf2).
      exists q2. rewrite H2. repeat split; congruence.
    + rewrite fetch_other by done. exists q1. repeat split; auto.
      intros [Hin|Hf]; apply Hf1; [|auto].
      apply elem_of_cons in Hin as [->|Hin]; [congruence|auto].
Qed.

(** [refetch()] of a query with data always starts a new retryer, the
    running one being cancelled ([cancelRefetch: true]). *)
Lemma refetch_data (k : list KeyPart) (c : Client E D) (q : Query E D) :
  queries c !! k = Some q -> is_Some (data (state q)) ->
  queries (fetch true k c) !! k =
    Some (mkQuery (fetch_action (state q)) (observers q) (q_enabled q) (gcAt q) (S (fetchSeq q))).
Proof.
  intros Hq Hd. unfold fetch. rewrite Hq, bool_decide_eq_true_2 by done.
  rewrite andb_false_r. apply lookup_insert_eq.
Qed.

(** Refetches of any keys keep a query's data and never lower its
    retryer number; a refetch of its own key raises it. *)
Lemma foldr_refetch_seq (ks : list (list KeyPart)) (k : list KeyPart) (c : Client E D) (q : Query E D) :
  queries c !! k = Some q -> is_Some (data (state q)) ->
  exists q', queries (foldr (fetch true) c ks) !! k = Some q' /\ is_Some (data (state q')) /\
    fetchSeq q <= fetchSeq q' /\ (k ∈ ks -> fetchSeq q < fetchSeq q').
Proof.
  intros Hq Hd. induction ks as [|k' ks IH]; simpl.
  - exists q. do 3 (split; [done || lia|]). intros Hin. by apply not_elem_of_nil in Hin.
  - destruct IH as (q1 & H1 & Hd1 & Hle & Hlt).
    destruct (decide (k' = k)) as [->|Hne].
    + rewrite (refetch_data k _ q1 H1 Hd1). eexists. split; [done|]. simpl.
      split; [unfold fetch_action; by destruct (data (state q1))|]. split; [lia|]. intros _; lia.
    + rewrite fetch_other by done. exists q1. do 3 (split; [done|]).
      intros Hin. apply elem_of_cons in Hin as [->|Hin]; [congruence|auto].
Qed.

Lemma elem_of_active_matching (f : list KeyPart) (m : gmap (list KeyPart) (Query E D)) k q :
  m !! k = Some q -> partialMatchKey k f = true -> 0 < observers q -> q_enabled q = true ->
  k ∈ active_matching f m.
Proof.
  intros Hk Hf Ho He. unfold active_matching. apply list_elem_of_bind.
  exists (k, q). split; [|by apply elem_of_map_to_list].
  simpl. rewrite Hf, He, bool_decide_eq_true_2 by done. by left.
Qed.

Lemma active_matching_match (f : list KeyPart) (m : gmap (list KeyPart) (Query E D)) k :
  k ∈ active_matching f m -> partialMatchKey k f = true.
Proof.
  unfold active_matching. intros (kq & Hk & _)%list_elem_of_bind.
  destruct (partialMatchKey kq.1 f) eqn:Hm; simpl in Hk; [|by apply not_elem_of_nil in Hk].
  destruct (_ && _); [|by apply not_elem_of_nil in Hk].
  by apply list_elem_of_singleton in Hk as ->.
Qed.

Lemma calls_for_cons (k k' : list KeyPart) (n : nat) c (qs : gmap (list KeyPart) (Query E D)) :
  calls_for k (mkClient qs ((k', n) :: calls c)) =
    (if decide (k' = k) then 1 else 0) + calls_for k c.
Proof. unfold calls_for. simpl. rewrite filter_cons. simpl. by case_decide. Qed.

(** Subscribing to an existing query: the lookup after, and the calls. *)
Lemma subscribe_existing o now c q :
  queries c !! queryKey o = Some q ->
  subscribe o now c =
    let c2 := mkClient (<[queryKey o := mkQuery (state q) (S (observers q)) (enabled o) None
                (fetchSeq q)]> (queries c)) (calls c) in
    if enabled o && isStaleByTime (state q) (staleTime o) now
    then fetch false (queryKey o) c2 else c2.
Proof. intros Hq. unfold subscribe, build. by rewrite !Hq. Qed.

(** Mounting on an idle query: one call iff enabled and stale. *)
Lemma subscribe_idle_calls o now c q :
  queries c !! queryKey o = Some q -> fetchStatus (state q) = Idle ->
  calls_for (queryKey o) (subscribe o now c) =
    calls_for (queryKey o) c
    + (if enabled o && isStaleByTime (state q) (staleTime o) now then 1 else 0).
Proof.
  intros Hq Hidle. rewrite (subscribe_existing o now c q Hq). simpl.
  destruct (enabled o && _); [|unfold calls_for; simpl; lia].
  unfold fetch. simpl. rewrite lookup_insert_eq. unfold is_fetching. simpl.
  rewrite Hidle, bool_decide_eq_false_2 by discriminate. simpl.
  rewrite calls_for_cons, decide_True by done. simpl. lia.
Qed.

(** Mounting an observer on an idle query calls the query function
    exactly when the query is enabled and stale. *)
Theorem subscribe_fetches_iff_stale o now c q :
  queries c !! queryKey o = Some q -> fetchStatus (state q) = Idle ->
  calls_for (queryKey o) (subscribe o now c) =
    calls_for (queryKey o) c
    + (if enabled o && isStaleByTime (state q) (staleTime o) now then 1 else 0).
Proof. apply subscribe_idle_calls. Qed.

(** Mounting on a key the cache does not have: the query is created, is
    fetching, has one observer, and its function is called once. *)
Lemma subscribe_new o now c :
  queries c !! queryKey o = None -> enabled o = true ->
  queries (subscribe o now c) !! queryKey o =
    Some (mkQuery (fetch_action initialState) 1 true None 1) /\
  calls_for (queryKey o) (subscribe o now c) = S (calls_for (queryKey o) c).
Proof.
  intros Hnone Hen. unfold subscribe, build. rewrite Hnone. simpl.
  rewrite lookup_insert_eq. simpl. rewrite Hen. simpl.
  unfold fetch. simpl. rewrite lookup_insert_eq. simpl.
  split; [apply lookup_insert_eq|]. by rewrite calls_for_cons, decide_True.
Qed.

(** Mounting on a query that is fetching joins the running fetch. *)
Lemma subscribe_joins o now c q :
  queries c !! queryKey o = Some q -> is_fetching q = true ->
  calls_for (queryKey o) (subscribe o now c) = calls_for (queryKey o) c.
Proof.
  intros Hq Hf. rewrite (subscribe_existing o now c q Hq). simpl.
  destruct (enabled o && _); [|done].
  unfold calls_for. rewrite (fetch_calls false (queryKey o) _ _ (lookup_insert_eq _ _ _)).
  assert (Hf' : is_fetching (mkQuery (state q) (S (observers q)) (enabled o) None (fetchSeq q))
                = true) by exact Hf.
  by rewrite Hf'.
Qed.

(** Two observers mounting on a key the cache does not have yet
    share one call of the query function: the second joins the fetch
    the first started. *)
Theorem subscribe_dedup o c t1 t2 :
  queries c !! queryKey o = None -> enabled o = true ->
  calls_for (queryKey o) (subscribe o t2 (subscribe o t1 c)) = S (calls_for (queryKey o) c).
Proof.
  intros Hnone Hen. destruct (subscribe_new o t1 c Hnone Hen) as [Hq Hcalls].
  rewrite (subscribe_joins o t2 _ _ Hq); [done|reflexivity].
Qed.

(** The result of a retryer that is not the query's current one is
    dropped. *)
Lemma settle_superseded k (seq : nat) r now g c q :
  queries c !! k = Some q -> seq <> fetchSeq q -> settle k seq r now g c = c.
Proof. intros Hq Hne. unfold settle. rewrite Hq. by rewrite bool_decide_eq_false_2. Qed.

(** Out-of-order responses.  A manual [refetch()] while a query that
    has data is fetching replaces the running retryer; when the replaced
    one settles later, its result does not touch the cache. *)
Theorem refetch_supersedes k c q r now g :
  queries c !! k = Some q -> is_fetching q = true -> is_Some (data (state q)) ->
  settle k (fetchSeq q) r now g (refetch k c) = refetch k c.
Proof.
  intros Hq Hf Hd. unfold refetch.
  apply (settle_superseded _ _ _ _ _ _
    (mkQuery (fetch_action (state q)) (observers q) (q_enabled q) (gcAt q) (S (fetchSeq q)))).
  - unfold fetch. rewrite Hq, Hf, bool_decide_eq_true_2 by done. simpl. apply lookup_insert_eq.
  - simpl. lia.
Qed.

(** ** Garbage collection *)

Lemma lookup_gc now c k :
  queries (gc now c) !! k =
    match queries c !! k with
    | Some q => if removable now q then None else Some q
    | None => None
    end.
Proof.
  unfold gc. simpl. rewrite map_lookup_filter.
  destruct (queries c !! k) as [q|]; simpl; [|done].
  rewrite option_guard_bool_decide. by destruct (removable now q).
Qed.

(** A query with a mounted observer is never collected. *)
Theorem gc_keeps_observed now c k q :
  queries c !! k = Some q -> 0 < observers q -> queries (gc now c) !! k = Some q.
Proof.
  intros Hq Ho. rewrite lookup_gc, Hq. unfold removable.
  by rewrite bool_decide_eq_false_2 by lia.
Qed.

(** Retention and cold start.  When the only observer of an idle
    query unmounts at [t] and the gc timeout fires at [t' >= t + gcTime],
    the entry is gone, and mounting again at [t'] calls the query function
    anew instead of serving the old data. *)
Theorem evict_then_cold_start o c q t t' :
  queries c !! queryKey o = Some q -> observers q = 1 -> fetchStatus (state q) = Idle ->
  enabled o = true -> (t + gcTime o <= t')%Z ->
  queries (gc t' (unsubscribe o t c)) !! queryKey o = None /\
  calls_for (queryKey o) (subscribe o t' (gc t' (unsubscribe o t c))) =
    S (calls_for (queryKey o) c).
Proof.
  intros Hq Ho Hidle Hen Ht.
  assert (Hnone : queries (gc t' (unsubscribe o t c)) !! queryKey o = None).
  { rewrite lookup_gc. unfold unsubscribe. rewrite Hq. simpl. rewrite lookup_insert_eq.
    unfold removable, is_fetching. simpl. rewrite Ho, Hidle. simpl.
    by rewrite bool_decide_eq_true_2 by lia. }
  split; [done|]. destruct (subscribe_new o t' _ Hnone Hen) as [_ ->].
  unfold calls_for. simpl. unfold unsubscribe. by rewrite Hq.
Qed.

(** ** Invalidation *)

(** What [invalidateQueries] does to one cached query. *)
Lemma invalidateQueries_lookup (f : list KeyPart) c k q :
  queries c !! k = Some q ->
  exists q', queries (invalidateQueries f c) !! k = Some q' /\
    data (state q') = data (state q) /\ observers q' = observers q /\
    (partialMatchKey k f = true ->
       isInvalidated (state q') = true /\
       (0 < observers q -> q_enabled q = true -> fetchStatus (state q') = Fetching)) /\
    (partialMatchKey k f = false -> q' = q).
Proof.
  intros Hq. unfold invalidateQueries.
  set (m := map_imap (fun k q => Some (invalidate_query f k q)) (queries c)).
  assert (Hm : m !! k = Some (invalidate_query f k q)) by (unfold m; by rewrite map_lookup_imap, Hq).
  destruct (partialMatchKey k f) eqn:Hmatch.
  - destruct (foldr_fetch_keeps true (active_matching f m) k (mkClient m (calls c)) _ Hm)
      as (q' & H' & Hd & Hi & Ho & He & Hf).
    unfold invalidate_query in *. rewrite Hmatch in *. simpl in *.
    exists q'. split; [done|]. split; [done|]. split; [done|].
    split; [|discriminate]. intros _. split; [done|]. intros Hobs Hen. apply Hf. left.
    apply (elem_of_active_matching f m k _ Hm); by rewrite ?Hmatch.
  - exists q. split; [|split; [done|split; [done|split; [discriminate|done]]]].
    rewrite foldr_fetch_other; [simpl; rewrite Hm; unfold invalidate_query; by rewrite Hmatch|].
    intros Hin. apply active_matching_match in Hin. congruence.
Qed.

(** [invalidateQueries({ queryKey: f })] marks every query whose key
    starts with [f] invalid (so it is stale whatever its age) without
    dropping its data, sets every active one of them fetching, and leaves
    every other query as it was. *)
Theorem invalidateQueries_spec (f : list KeyPart) c k q :
  queries c !! k = Some q ->
  exists q', queries (invalidateQueries f c) !! k = Some q' /\
    data (state q') = data (state q) /\ observers q' = observers q /\
    (partialMatchKey k f = true ->
       isInvalidated (state q') = true /\
       (0 < observers q -> q_enabled q = true -> fetchStatus (state q') = Fetching)) /\
    (partialMatchKey k f = false -> q' = q).
Proof. apply invalidateQueries_lookup. Qed.

(** ** Settling *)

Lemma settle_current k c q r now g :
  queries c !! k = Some q -> is_fetching q = true ->
  calls (settle k (fetchSeq q) r now g c) = calls c /\
  queries (settle k (fetchSeq q) r now g c) !! k =
    Some (mkQuery (match r with Ok d => success_action d now (state q)
                              | Err e => error_action e (state q) end)
            (observers q) (q_enabled q)
            (if bool_decide (observers q = 0) then Some (now + g)%Z else gcAt q) (fetchSeq q)).
Proof.
  intros Hq Hf. unfold settle. rewrite Hq, Hf, bool_decide_eq_true_2 by done. simpl.
  split; [done|]. apply lookup_insert_eq.
Qed.

Lemma settle_other k k' (seq : nat) r now g c :
  k <> k' -> queries (settle k seq r now g c) !! k' = queries c !! k'.
Proof.
  intros Hne. unfold settle. destruct (queries c !! k); [|done].
  case_match; [|done]. simpl. by rewrite lookup_insert_ne.
Qed.

(** After a successful fetch at [t], mounting an observer calls the
    query function again exactly when [t + staleTime <= now]: the data is
    fresh for [staleTime] ms. *)
Theorem success_fresh_window o c q d t g now :
  queries c !! queryKey o = Some q -> is_fetching q = true -> enabled o = true ->
  calls_for (queryKey o) (subscribe o now (settle (queryKey o) (fetchSeq q) (Ok d) t g c)) =
    calls_for (queryKey o) c + (if bool_decide (t + staleTime o <= now)%Z then 1 else 0).
Proof.
  intros Hq Hf Hen. destruct (settle_current (queryKey o) c q (Ok d) t g Hq Hf) as [Hc Hl].
  rewrite (subscribe_idle_calls o now _ _ Hl) by reflexivity.
  rewrite Hen. unfold calls_for. rewrite Hc. reflexivity.
Qed.

(** A failed run keeps the last good data on display
    (stale-while-error) and records the error. *)
Theorem settle_error_keeps_data k c q e t g :
  queries c !! k = Some q -> is_fetching q = true ->
  exists q', queries (settle k (fetchSeq q) (Err e) t g c) !! k = Some q' /\
    data (state q') = data (state q) /\ error (state q') = Some e /\
    status (state q') = StatusError /\ fetchStatus (state q') = Idle.
Proof.
  intros Hq Hf. destruct (settle_current k c q (Err e) t g Hq Hf) as [_ Hl].
  eexists. split; [exact Hl|]. by repeat split.
Qed.
End Facts.

(** ** Concrete runs

    One key, the client's default times; data and errors are numbers. *)

Definition k_sports : list KeyPart := [KStr "news"; KStr "sports"; KNum 4].
Definition o_sports : QueryOptions := mkOptions k_sports defaultStaleTime defaultGcTime true.

(** Mounted at 0 (fetch 1 starts), fetch 1 succeeds at 1000. *)
Definition run_c1 : Client nat nat := subscribe o_sports 0 emptyClient.
Definition run_q1 : Query nat nat := mkQuery (fetch_action initialState) 1 true None 1.
Definition run_c2 : Client nat nat := settle k_sports 1 (Ok 42) 1000 defaultGcTime run_c1.
Definition run_q2 : Query nat nat :=
  mkQuery (success_action 42 1000 (fetch_action initialState)) 1 true None 1.
(** Mounted again once stale: fetch 2 runs with data on display. *)
Definition run_c3 : Client nat nat := subscribe o_sports 301000 run_c2.
Definition run_q3 : Query nat nat :=
  mkQuery (fetch_action (success_action 42 1000 (fetch_action initialState))) 2 true None 2.

Lemma run_c1_q1 : queries run_c1 !! k_sports = Some run_q1.
Proof. vm_compute. reflexivity. Qed.
Lemma run_c2_q2 : queries run_c2 !! k_sports = Some run_q2.
Proof. vm_compute. reflexivity. Qed.
Lemma run_c3_q3 : queries run_c3 !! k_sports = Some run_q3.
Proof. vm_compute. reflexivity. Qed.

Lemma subscribe_fetches_iff_stale_witness :
  calls_for k_sports (subscribe o_sports 301000 run_c2) = calls_for k_sports run_c2 + 1 /\
  calls_for k_sports (subscribe o_sports 300999 run_c2) = calls_for k_sports run_c2 + 0.
Proof.
  split; rewrite (subscribe_fetches_iff_stale o_sports _ run_c2 run_q2 run_c2_q2) by reflexivity;
    reflexivity.
Defined.

Lemma subscribe_dedup_witness :
  calls_for k_sports (subscribe o_sports 5 (subscribe o_sports 0 (@emptyClient nat nat))) = 1.
Proof. apply (subscribe_dedup o_sports emptyClient 0 5); reflexivity. Defined.

Lemma refetch_supersedes_witness :
  settle k_sports 2 (Ok 7) 302000 defaultGcTime (refetch k_sports run_c3) = refetch k_sports run_c3.
Proof. apply (refetch_supersedes k_sports run_c3 run_q3); [exact run_c3_q3|reflexivity|by eexists]. Defined.

Lemma gc_keeps_observed_witness : queries (gc 10000000 run_c2) !! k_sports = Some run_q2.
Proof. apply gc_keeps_observed; [exact run_c2_q2|vm_compute; lia]. Defined.

Lemma evict_then_cold_start_witness :
  queries (gc 602000 (unsubscribe o_sports 2000 run_c2)) !! k_sports = None /\
  calls_for k_sports (subscribe o_sports 602000 (gc 602000 (unsubscribe o_sports 2000 run_c2))) =
    S (calls_for k_sports run_c2).
Proof. apply (evict_then_cold_start o_sports run_c2 run_q2); try reflexivity; vm_compute; congruence. Defined.

Lemma invalidateQueries_spec_witness :
  exists q', queries (invalidateQueries [KStr "news"] run_c2) !! k_sports = Some q' /\
    data (state q') = data (state run_q2) /\ observers q' = observers run_q2 /\
    (partialMatchKey k_sports [KStr "news"] = true ->
       isInvalidated (state q') = true /\
       (0 < observers run_q2 -> q_enabled run_q2 = true -> fetchStatus (state q') = Fetching)) /\
    (partialMatchKey k_sports [KStr "news"] = false -> q' = run_q2).
Proof. apply invalidateQueries_spec. exact run_c2_q2. Defined.

Lemma success_fresh_window_witness :
  calls_for k_sports (subscribe o_sports 5000 (settle k_sports 1 (Ok 42) 1000 defaultGcTime run_c1)) =
    calls_for k_sports run_c1 + 0.
Proof. apply (success_fresh_window o_sports run_c1 run_q1 42 1000); [exact run_c1_q1|reflexivity..]. Defined.

Lemma settle_error_keeps_data_witness :
  exists q', queries (settle k_sports 1 (Err 5) 1000 defaultGcTime run_c1) !! k_sports = Some q' /\
    data (state q') = data (state run_q1) /\ error (state q') = Some 5 /\
    status (state q') = StatusError /\ fetchStatus (state q') = Idle.
Proof. apply (settle_error_keeps_data k_sports run_c1 run_q1); [exact run_c1_q1|reflexivity]. Defined.

End QueryCache.
