(* ===== verification/Hooks.v ===== *)
(** * Hooks: [src/src/hooks/useNews.ts] and the screens' own mutations

    Each [use...News] hook is a [useQuery] with a key, a query function
    (a call of the gateway), a [staleTime] and an [enabled] flag; each is
    an [AppQuery] here, with [hook_options] and [hook_queryFn].  The admin
    dashboard's own query ([['admin', 'allNews']]) is one more.  A mutation
    runs a gateway write and, on success only, invalidates a key prefix:
    [['news']] in the hooks of [useNews.ts], [['admin', 'allNews']] in
    [AddEditNewsScreen]. *)

From stdpp Require Import base list strings gmap.
From Stdlib Require Import ZArith.
From S2P Require Import Prelude Model Gateway QueryCache.

Open Scope string_scope.

Module Hooks.
Import Gateway QueryCache.

(** What a query caches: a list of articles or one article (or [null]). *)
Inductive QData : Type :=
  | DList (l : list NewsItem)
  | DItem (n : option NewsItem).

Definition AppClient : Type := Client PostgrestError QData.

(** The queries of the app. *)
Inductive AppQuery : Type :=
  | HAll                        (** [useAllNews()] *)
  | HCategory (c : string)      (** [useNewsByCategory(category)] *)
  | HLatest (limit : nat)       (** [useLatestNews(limit)] *)
  | HGlobal (limit : nat)       (** [useGlobalNews(limit)] *)
  | HSports (limit : nat)       (** [useSportsNews(limit)] *)
  | HTech (limit : nat)         (** [useTechNews(limit)] *)
  | HById (i : string)          (** [useNewsById(id)] *)
  | HAdminAll.                  (** [AdminDashboardScreen]'s [useQuery] *)

(** [staleTime: 5 * 60 * 1000] written in each hook. *)
Definition hookStaleTime : Z := 5 * 60 * 1000.

(** JavaScript truthiness of a string: [!!s]. *)
Definition truthy (s : string) : bool := negb (bool_decide (s = "")).

Definition hook_options (h : AppQuery) : QueryOptions :=
  match h with
  | HAll => mkOptions [KStr "news"; KStr "all"] hookStaleTime defaultGcTime true
  | HCategory c => mkOptions [KStr "news"; KStr "category"; KStr c] hookStaleTime defaultGcTime (truthy c)
  | HLatest n => mkOptions [KStr "news"; KStr "latest"; KNum n] hookStaleTime defaultGcTime true
  | HGlobal n => mkOptions [KStr "news"; KStr "global"; KNum n] hookStaleTime defaultGcTime true
  | HSports n => mkOptions [KStr "news"; KStr "sports"; KNum n] hookStaleTime defaultGcTime true
  | HTech n => mkOptions [KStr "news"; KStr "tech"; KNum n] hookStaleTime defaultGcTime true
  | HById i => mkOptions [KStr "news"; KStr "id"; KStr i] defaultStaleTime defaultGcTime (truthy i)
  | HAdminAll => mkOptions [KStr "admin"; KStr "allNews"] defaultStaleTime defaultGcTime true
  end.

Definition hook_queryFn (h : AppQuery) (e : Env) (t : Table) : result PostgrestError QData :=
  match h with
  | HAll => result_map DList (getAllNews e t)
  | HCategory c => result_map DList (getNewsByCategory e c t)
  | HLatest n => result_map DList (getLatestNews e n t)
  | HGlobal n => result_map DList (getGlobalNews e n t)
  | HSports n => result_map DList (getSportsNews e n t)
  | HTech n => result_map DList (getTechNews e n t)
  | HById i => result_map DItem (getNewsById e i t)
  | HAdminAll => result_map DList (getAllNews e t)
  end.

Definition news_queries (h : AppQuery) : bool :=
  match h with HAdminAll => false | _ => true end.

(** ** Mutations *)

(** [onSuccess: () => queryClient.invalidateQueries({ queryKey: ['news'] })] *)
Definition newsPrefix : list KeyPart := [KStr "news"].
(** [onSuccess] of [AddEditNewsScreen]'s mutations. *)
Definition adminAllNewsKey : list KeyPart := [KStr "admin"; KStr "allNews"].

(** A [useMutation]: the write, then on success the invalidation; a failure
    leaves the cache alone and hands the error to [onError]. *)
Definition mutate (invalidateKey : list KeyPart) (e : Env) (w : Write) (t : Table) (c : AppClient)
  : bool * Table * AppClient :=
  let r := match w with
           | WCreate d => is_ok (fst (createNews e d t))
           | WUpdate i p => is_ok (fst (updateNews e i p t))
           | WDelete i => is_ok (fst (deleteNews e i t))
           end in
  (r, run_write e w t, if r then invalidateQueries invalidateKey c else c).

Definition useCreateNews (e : Env) (d : NewsDraft) := mutate newsPrefix e (WCreate d).
Definition useUpdateNews (e : Env) (i : string) (p : NewsPatch) := mutate newsPrefix e (WUpdate i p).
Definition useDeleteNews (e : Env) (i : string) := mutate newsPrefix e (WDelete i).

(** [AddEditNewsScreen]'s [createMutation] and [updateMutation]. *)
Definition addEditCreate (e : Env) (d : NewsDraft) := mutate adminAllNewsKey e (WCreate d).
Definition addEditUpdate (e : Env) (i : string) (p : NewsPatch) := mutate adminAllNewsKey e (WUpdate i p).

Definition key (h : AppQuery) : list KeyPart := queryKey (hook_options h).

(** ** Keys *)

Lemma news_key_prefix (h : AppQuery) : partialMatchKey (key h) newsPrefix = news_queries h.
Proof. by destruct h. Qed.

Lemma admin_key_prefix (h : AppQuery) :
  partialMatchKey (key h) adminAllNewsKey = true -> h = HAdminAll.
Proof. destruct h; vm_compute; intros H; done || discriminate H. Qed.

(** Every query of [useNews.ts] sits under the [['news']] prefix the
    hooks' mutations invalidate; the dashboard's query is the only one
    under [['admin', 'allNews']], the prefix the admin screens invalidate. *)
Theorem hook_key_prefixes (h : AppQuery) :
  partialMatchKey (key h) newsPrefix = news_queries h /\
  (partialMatchKey (key h) adminAllNewsKey = true <-> h = HAdminAll).
Proof.
  split; [apply news_key_prefix|]. split; [apply admin_key_prefix|]. intros ->. reflexivity.
Qed.

(** Two different queries never share a cache entry. *)
Theorem hook_key_inj (h1 h2 : AppQuery) : key h1 = key h2 -> h1 = h2.
Proof. destruct h1, h2; simpl; intros H; simplify_eq; done. Qed.

(** ** Mutations *)

(** C12: a failed write leaves both the table and every cached query as
    they were (no partial invalidation), whichever prefix the mutation
    would have invalidated; the caller sees the failure. *)
Theorem mutation_failure_atomic (k : list KeyPart) (e : Env) (err : PostgrestError)
  (w : Write) (t : Table) (c : AppClient) :
  env_fault e = Some err -> mutate k e w t c = (false, t, c).
Proof.
  intros H. unfold mutate, run_write, createNews, updateNews, deleteNews.
  rewrite H. by destruct w.
Qed.

(** C13: on a healthy backend, saving an edit of an article that is no
    longer in the table (deleted meanwhile) fails with PGRST116 and, like
    a fault, leaves the table and every cached query as they were: neither
    the form's [updateMutation] nor [useUpdateNews] invalidates anything. *)
Theorem mutation_missing_row_atomic (e : Env) (i : string) (p : NewsPatch) (t : Table) (c : AppClient) :
  env_fault e = None -> p_id p = None -> table_wf t -> (forall x, x ∈ rows t -> id x <> i) ->
  fst (updateNews e i p t) = Err PGRST116 /\
  addEditUpdate e i p t c = (false, t, c) /\ useUpdateNews e i p t c = (false, t, c).
Proof.
  intros He Hp Hwf Hnone. unfold addEditUpdate, useUpdateNews, mutate, run_write.
  by rewrite updateNews_missing.
Qed.

Lemma mutate_create_ok (k : list KeyPart) (e : Env) (d : NewsDraft) (t : Table) (c : AppClient) :
  env_fault e = None ->
  mutate k e (WCreate d) t c = (true, snd (createNews e d t), invalidateQueries k c).
Proof. intros H. unfold mutate, run_write, createNews. rewrite H. reflexivity. Qed.

(** C4: after [useCreateNews] succeeds, every cached query of
    [useNews.ts] is invalidated (so stale, refetched on next mount or at
    once when mounted) and keeps its data until the new data arrives. *)
Theorem useCreateNews_invalidates (e : Env) (d : NewsDraft) (t : Table) (c : AppClient)
  (h : AppQuery) (q : Query PostgrestError QData) :
  env_fault e = None -> news_queries h = true -> queries c !! key h = Some q ->
  exists q', queries (useCreateNews e d t c).2 !! key h = Some q' /\
    isInvalidated (state q') = true /\ data (state q') = data (state q) /\
    (0 < observers q -> q_enabled q = true -> fetchStatus (state q') = Fetching).
Proof.
  intros He Hn Hq. unfold useCreateNews. rewrite mutate_create_ok by done. simpl.
  destruct (invalidateQueries_lookup newsPrefix c (key h) q Hq) as (q' & H' & Hd & _ & Hm & _).
  rewrite news_key_prefix, Hn in Hm. destruct (Hm eq_refl) as [Hi Hf]. eauto.
Qed.

(** C3: after the admin screen's [createMutation] succeeds, no query of
    [useNews.ts] is touched: a fresh cached list (fetched at [t0], now
    before [t0 + staleTime]) is served again on mount without a call, so
    the new article does not appear on the reader screens until the list
    goes stale. *)
Theorem addEditCreate_leaves_news_cached (e : Env) (d : NewsDraft) (t : Table) (c : AppClient)
  (h : AppQuery) (q : Query PostgrestError QData) (now : Z) :
  news_queries h = true -> queries c !! key h = Some q ->
  fetchStatus (state q) = Idle -> isInvalidated (state q) = false -> is_Some (data (state q)) ->
  (now < dataUpdatedAt (state q) + staleTime (hook_options h))%Z ->
  queries (addEditCreate e d t c).2 !! key h = Some q /\
  calls_for (key h) (subscribe (hook_options h) now (addEditCreate e d t c).2) =
    calls_for (key h) (addEditCreate e d t c).2.
Proof.
  intros Hn Hq Hidle Hinv Hd Hnow.
  assert (Hkeep : queries (addEditCreate e d t c).2 !! key h = Some q).
  { unfold addEditCreate, mutate. simpl. destruct (is_ok _); [|done].
    destruct (invalidateQueries_lookup adminAllNewsKey c (key h) q Hq) as (q' & H' & _ & _ & _ & Hq').
    rewrite H', Hq'; [done|]. destruct (partialMatchKey _ _) eqn:Hm; [|done].
    apply admin_key_prefix in Hm. subst h. discriminate. }
  split; [done|]. unfold key in Hkeep |- *. rewrite (subscribe_idle_calls _ now _ q Hkeep Hidle).
  unfold isStaleByTime. rewrite Hinv, bool_decide_eq_true_2 by done.
  rewrite bool_decide_eq_false_2 by lia. rewrite andb_false_r. lia.
Qed.

(** ** The cache under the hooks' options

    Every hook sets [staleTime: 5 * 60 * 1000] (or inherits the same
    default from [App.tsx]) and inherits [gcTime: 10 * 60 * 1000]. *)

Lemma hook_times (h : AppQuery) :
  staleTime (hook_options h) = 300000%Z /\ gcTime (hook_options h) = 600000%Z.
Proof. by destruct h. Qed.

(** C5: two screens mounting the same query on a cold cache (the home
    screen's four lists, or the same article opened twice) make one call
    of its query function: the second observer joins the fetch. *)
Theorem news_mount_dedup (h : AppQuery) (c : AppClient) (t1 t2 : Z) :
  queries c !! key h = None -> enabled (hook_options h) = true ->
  calls_for (key h) (subscribe (hook_options h) t2 (subscribe (hook_options h) t1 c)) =
    S (calls_for (key h) c).
Proof. apply subscribe_dedup. Qed.

(** C6: mounting a screen on a cached, idle query calls its function
    exactly when the hook is enabled and the entry is invalidated, has no
    data, or was fetched 300000 ms (5 minutes) or more ago. *)
Theorem news_mount_fetches_iff_stale (h : AppQuery) (c : AppClient)
  (q : Query PostgrestError QData) (now : Z) :
  queries c !! key h = Some q -> fetchStatus (state q) = Idle ->
  calls_for (key h) (subscribe (hook_options h) now c) =
    calls_for (key h) c +
    (if enabled (hook_options h) &&
        (isInvalidated (state q) || negb (bool_decide (is_Some (data (state q))))
         || bool_decide (dataUpdatedAt (state q) + 300000 <= now)%Z)
     then 1 else 0).
Proof.
  intros Hq Hidle. unfold key in *. rewrite (subscribe_fetches_iff_stale _ now c q Hq Hidle).
  unfold isStaleByTime. by rewrite (proj1 (hook_times h)).
Qed.

(** After a query's fetch succeeds at [t], mounting it again at [now]
    calls its function exactly when [t + 300000 <= now]: the five-minute
    window in which the cached list is served as is. *)
Theorem news_fresh_window (h : AppQuery) (c : AppClient) (q : Query PostgrestError QData)
  (d : QData) (t now : Z) :
  queries c !! key h = Some q -> is_fetching q = true -> enabled (hook_options h) = true ->
  calls_for (key h)
    (subscribe (hook_options h) now (settle (key h) (fetchSeq q) (Ok d) t defaultGcTime c)) =
    calls_for (key h) c + (if bool_decide (t + 300000 <= now)%Z then 1 else 0).
Proof.
  intros Hq Hf Hen. unfold key in *.
  rewrite (success_fresh_window _ c q d t defaultGcTime now Hq Hf Hen).
  by rewrite (proj1 (hook_times h)).
Qed.

(** C16: when the last screen showing an idle query unmounts at [t] and the
    gc timeout fires at [t' >= t + 600000] (ten minutes), the entry is
    gone, and mounting the query again calls its function anew. *)
Theorem news_evict_then_cold_start (h : AppQuery) (c : AppClient) (q : Query PostgrestError QData)
  (t t' : Z) :
  queries c !! key h = Some q -> observers q = 1 -> fetchStatus (state q) = Idle ->
  enabled (hook_options h) = true -> (t + 600000 <= t')%Z ->
  queries (gc t' (unsubscribe (hook_options h) t c)) !! key h = None /\
  calls_for (key h) (subscribe (hook_options h) t' (gc t' (unsubscribe (hook_options h) t c))) =
    S (calls_for (key h) c).
Proof.
  intros Hq Ho Hidle Hen Ht. unfold key in *.
  apply (evict_then_cold_start _ c q); try done. by rewrite (proj2 (hook_times h)).
Qed.

(** ** Concrete runs *)

(** The home screen's sports list, mounted at 0 and loaded at 1000. *)
Definition app_c1 : AppClient := subscribe (hook_options (HSports 4)) 0 emptyClient.
Definition app_c2 : AppClient :=
  settle (key (HSports 4)) 1 (Ok (DList [art_derby])) 1000 defaultGcTime app_c1.
Definition app_q2 : Query PostgrestError QData :=
  mkQuery (success_action (DList [art_derby]) 1000 (fetch_action initialState)) 1 true None 1.

Lemma app_c2_q2 : queries app_c2 !! key (HSports 4) = Some app_q2.
Proof. vm_compute. reflexivity. Qed.

Definition app_q1 : Query PostgrestError QData := mkQuery (fetch_action initialState) 1 true None 1.

Lemma app_c1_q1 : queries app_c1 !! key (HSports 4) = Some app_q1.
Proof. vm_compute. reflexivity. Qed.

Lemma news_mount_dedup_witness :
  calls_for (key (HSports 4))
    (subscribe (hook_options (HSports 4)) 10 (subscribe (hook_options (HSports 4)) 0 (emptyClient : AppClient))) =
    S (calls_for (key (HSports 4)) (emptyClient : AppClient)).
Proof. apply news_mount_dedup; reflexivity. Defined.

Lemma news_mount_fetches_iff_stale_witness :
  calls_for (key (HSports 4)) (subscribe (hook_options (HSports 4)) 400000 app_c2) =
    calls_for (key (HSports 4)) app_c2 +
    (if enabled (hook_options (HSports 4)) &&
        (isInvalidated (state app_q2) || negb (bool_decide (is_Some (data (state app_q2))))
         || bool_decide (dataUpdatedAt (state app_q2) + 300000 <= 400000)%Z)
     then 1 else 0).
Proof. apply news_mount_fetches_iff_stale; [exact app_c2_q2|reflexivity]. Defined.

Lemma news_fresh_window_witness :
  calls_for (key (HSports 4))
    (subscribe (hook_options (HSports 4)) 200000
       (settle (key (HSports 4)) (fetchSeq app_q1) (Ok (DList [art_derby])) 1000 defaultGcTime app_c1)) =
    calls_for (key (HSports 4)) app_c1 + (if bool_decide (1000 + 300000 <= 200000)%Z then 1 else 0).
Proof. apply news_fresh_window; [exact app_c1_q1|reflexivity|reflexivity]. Defined.

Lemma news_evict_then_cold_start_witness :
  queries (gc 602000 (unsubscribe (hook_options (HSports 4)) 2000 app_c2)) !! key (HSports 4) = None /\
  calls_for (key (HSports 4))
    (subscribe (hook_options (HSports 4)) 602000
       (gc 602000 (unsubscribe (hook_options (HSports 4)) 2000 app_c2))) =
    S (calls_for (key (HSports 4)) app_c2).
Proof. apply (news_evict_then_cold_start _ _ app_q2); [exact app_c2_q2|reflexivity..|lia]. Defined.

Lemma hook_key_inj_witness : key (HSports 4) = key (HSports 4) /\ HSports 4 = HSports 4.
Proof. split; [reflexivity|]. apply hook_key_inj. reflexivity. Defined.

Lemma mutation_failure_atomic_witness :
  mutate newsPrefix net_down (WCreate draft_goal) sample_table app_c2 = (false, sample_table, app_c2).
Proof. apply (mutation_failure_atomic _ _ NetworkError). reflexivity. Defined.

Lemma useCreateNews_invalidates_witness :
  exists q', queries (useCreateNews env_ok draft_goal sample_table app_c2).2 !! key (HSports 4)
      = Some q' /\
    isInvalidated (state q') = true /\ data (state q') = data (state app_q2) /\
    (0 < observers app_q2 -> q_enabled app_q2 = true -> fetchStatus (state q') = Fetching).
Proof. apply useCreateNews_invalidates; [reflexivity|reflexivity|exact app_c2_q2]. Defined.

Lemma addEditCreate_leaves_news_cached_witness :
  queries (addEditCreate env_ok draft_goal sample_table app_c2).2 !! key (HSports 4) = Some app_q2 /\
  calls_for (key (HSports 4))
    (subscribe (hook_options (HSports 4)) 5000 (addEditCreate env_ok draft_goal sample_table app_c2).2) =
    calls_for (key (HSports 4)) (addEditCreate env_ok draft_goal sample_table app_c2).2.
Proof.
  apply addEditCreate_leaves_news_cached; [reflexivity|exact app_c2_q2|reflexivity|reflexivity| |].
  - by eexists.
  - vm_compute. reflexivity.
Defined.

Lemma mutation_missing_row_atomic_witness :
  fst (updateNews env_ok "a9" retitle sample_table) = Err PGRST116 /\
  addEditUpdate env_ok "a9" retitle sample_table app_c2 = (false, sample_table, app_c2) /\
  useUpdateNews env_ok "a9" retitle sample_table app_c2 = (false, sample_table, app_c2).
Proof.
  apply mutation_missing_row_atomic; [reflexivity|reflexivity|apply sample_table_wf|].
  intros x Hx. simpl in Hx. decompose_list_elem_of; subst; discriminate.
Defined.

End Hooks.
