(* ===== verification/Screens.v ===== *)
(** * Screens: the reader screens' render decisions and refresh handlers

    [HomeScreen], [CategoryScreen] and [NewsDetailScreen] read the result of
    their [useQuery] hooks ([{ data, isLoading, error, refetch }]) and pick
    one of three renderings: the spinner, the [ErrorMessage] with a retry
    button, or the content.  [observe] is react-query's result of a query
    for its observer ([isLoading] is [isPending && isFetching]); the
    [...View] types are the renderings, with what each shows. *)

From stdpp Require Import base list strings gmap.
From Stdlib Require Import ZArith.
From S2P Require Import Prelude Model Gateway Retry QueryCache Hooks.

Open Scope string_scope.

Module Screens.
Import Gateway Retry QueryCache Hooks.

(** ** The observer's view of a query *)

Record QueryResult : Type := mkResult {
  r_data : option QData;
  r_isLoading : bool;
  r_error : option PostgrestError;
}.

Definition observe (q : option (Query PostgrestError QData)) : QueryResult :=
  match q with
  | None => mkResult None false None
  | Some q =>
      mkResult (data (state q))
        (bool_decide (status (state q) = Pending) && bool_decide (fetchStatus (state q) = Fetching))
        (error (state q))
  end.

(** The result an observer sees after the first run of a query settles:
    the [success] or [error] action on a query without data. *)
Definition settled_result (r : result PostgrestError QData) : QueryResult :=
  match r with
  | Ok d => mkResult (Some d) false None
  | Err e => mkResult None false (Some e)
  end.

Definition result_of (h : AppQuery) (c : AppClient) : QueryResult := observe (queries c !! key h).

(** [news || []] on a list query's data. *)
Definition list_or_empty (d : option QData) : list NewsItem :=
  match d with
  | Some (DList l) => l
  | _ => []
  end.

(** ** HomeScreen *)

Inductive HomeView : Type :=
  | HomeSpinner (message : string)
  | HomeError (message : string)
  | HomeContent (sections : list (string * Category * list NewsItem)).

Definition home_error_message : string :=
  "Failed to load news. Please check your internet connection and try again.".

Definition HomeScreen (latest global sports tech : QueryResult) : HomeView :=
  let isLoading := r_isLoading latest || r_isLoading global || r_isLoading sports
                   || r_isLoading tech in
  let hasError := bool_decide (is_Some (r_error latest)) || bool_decide (is_Some (r_error global))
                  || bool_decide (is_Some (r_error sports)) || bool_decide (is_Some (r_error tech)) in
  let noData := negb (bool_decide (is_Some (r_data latest))) && negb (bool_decide (is_Some (r_data global)))
                && negb (bool_decide (is_Some (r_data sports))) && negb (bool_decide (is_Some (r_data tech))) in
  if isLoading && noData then HomeSpinner "Loading news..."
  else if hasError then HomeError home_error_message
  else HomeContent
         [("Latest", Latest, list_or_empty (r_data latest));
          ("Global", Global, list_or_empty (r_data global));
          ("Sports", Sports, list_or_empty (r_data sports));
          ("Technology", Tech, list_or_empty (r_data tech))].

(** The four hooks the home screen mounts: [useLatestNews(4)] and the rest. *)
Definition home_queries : list AppQuery := [HLatest 4; HGlobal 4; HSports 4; HTech 4].

Definition home_view (c : AppClient) : HomeView :=
  HomeScreen (result_of (HLatest 4) c) (result_of (HGlobal 4) c)
    (result_of (HSports 4) c) (result_of (HTech 4) c).

(** [onRefresh]: [setRefreshing(true)], the four [refetch()] calls joined by
    [Promise.all], and [setRefreshing(false)] in [finally].  The refetch
    promises do not reject (react-query's default [throwOnError: false]),
    so the join is reached whatever the fetches return. *)
Record HomeState : Type := mkHomeState {
  refreshing : bool;
  home_client : AppClient;
}.

Definition home_onRefresh_start (s : HomeState) : HomeState :=
  mkHomeState true (foldr (fun h c => refetch (key h) c) (home_client s) home_queries).

Definition home_onRefresh_settled (s : HomeState) : HomeState :=
  mkHomeState false (home_client s).

(** ** CategoryScreen *)

Definition categoryDisplayName (category : string) : string :=
  if decide (category = "latest") then "Latest News"
  else if decide (category = "global") then "Global News"
  else if decide (category = "sports") then "Sports News"
  else if decide (category = "tech") then "Technology News"
  else "Category".

Inductive CategoryView : Type :=
  | CategorySpinner (message : string)
  | CategoryError (message : string)
  | CategoryList (title : string) (items : list NewsItem)
  | CategoryEmpty (title : string).

Definition CategoryScreen (category : string) (r : QueryResult) : CategoryView :=
  if r_isLoading r && negb (bool_decide (is_Some (r_data r))) then CategorySpinner "Loading news..."
  else if bool_decide (is_Some (r_error r)) then CategoryError home_error_message
  else match list_or_empty (r_data r) with
       | [] => CategoryEmpty (categoryDisplayName category)
       | l => CategoryList (categoryDisplayName category) l
       end.

(** [onRefresh] of [CategoryScreen]: [setRefreshing(true)], [await
    refetch()], [setRefreshing(false)] in [finally]. *)
Record CategoryScreenState : Type := mkCategoryScreenState {
  cat_refreshing : bool;
  cat_client : AppClient;
}.

Definition category_onRefresh_start (category : string) (s : CategoryScreenState)
  : CategoryScreenState :=
  mkCategoryScreenState true (refetch (key (HCategory category)) (cat_client s)).

Definition category_onRefresh_settled (s : CategoryScreenState) : CategoryScreenState :=
  mkCategoryScreenState false (cat_client s).

(** ** NewsDetailScreen *)

(** [news.image_url || 'https://picsum.photos/seed/news/400/300.jpg']: an
    empty string is falsy too. *)
Definition or_default (u : option string) (dflt : string) : string :=
  match u with
  | Some s => if decide (s = "") then dflt else s
  | None => dflt
  end.

Definition detail_default_image : string := "https://picsum.photos/seed/news/400/300.jpg".
Definition card_default_image : string := "https://picsum.photos/seed/default/400/300.jpg".

(** [getVideoUrl] *)
Definition getVideoUrl (videoUrl : string) : string :=
  if String.prefix "assets/" videoUrl then videoUrl
  else if String.prefix "http" videoUrl then videoUrl
  else "assets/videos/sample1.mp4".

Inductive DetailView : Type :=
  | DetailSpinner (message : string)
  | DetailError (message : string)
  | DetailContent (n : NewsItem) (image : string) (videoUri : string) (shouldAutoPlay : bool).

Definition NewsDetailScreen (r : QueryResult) : DetailView :=
  if r_isLoading r then DetailSpinner "Loading news details..."
  else if bool_decide (is_Some (r_error r)) then DetailError "Failed to load news details. Please try again later."
  else match r_data r with
       | Some (DItem (Some n)) =>
           DetailContent n (or_default (image_url n) detail_default_image) (getVideoUrl (video_url n)) true
       | _ => DetailError "Failed to load news details. Please try again later."
       end.

(** ** Lemmas *)

Lemma observe_error_settled (q : Query PostgrestError QData) (e : PostgrestError) :
  error (state q) = Some e -> fetchStatus (state q) = Idle ->
  r_error (observe (Some q)) = Some e /\ r_isLoading (observe (Some q)) = false.
Proof.
  intros He Hi. simpl. rewrite He, Hi. split; [done|].
  by rewrite (bool_decide_eq_false_2 (Idle = Fetching)), andb_false_r.
Qed.

Lemma home_keys_distinct : NoDup (key <$> home_queries).
Proof. apply (bool_decide_unpack _). vm_compute. exact I. Qed.

(** ** HomeScreen *)

(** Once nothing is loading, any error shows the error message. *)
Lemma HomeScreen_settled_error (latest global sports tech : QueryResult) :
  r_isLoading latest = false -> r_isLoading global = false -> r_isLoading sports = false ->
  r_isLoading tech = false ->
  is_Some (r_error latest) \/ is_Some (r_error global) \/ is_Some (r_error sports) \/
  is_Some (r_error tech) ->
  HomeScreen latest global sports tech = HomeError home_error_message.
Proof.
  intros Hl Hg Hs Ht Herr. unfold HomeScreen. rewrite Hl, Hg, Hs, Ht. cbn [orb andb].
  destruct Herr as [H|[H|[H|H]]]; rewrite (bool_decide_eq_true_2 _ H); by rewrite ?orb_true_r.
Qed.

(** C21: the home screen's aggregate is all-or-nothing on errors: once no
    list is loading, one failed category (here sports) replaces the whole
    screen by the error message, hiding the lists that did load. *)
Theorem home_sports_failure_hides_others (c : AppClient) (qs : Query PostgrestError QData)
  (e : PostgrestError) (t g : Z) :
  queries c !! key (HSports 4) = Some qs -> is_fetching qs = true ->
  r_isLoading (result_of (HLatest 4) c) = false -> r_isLoading (result_of (HGlobal 4) c) = false ->
  r_isLoading (result_of (HTech 4) c) = false ->
  home_view (settle (key (HSports 4)) (fetchSeq qs) (Err e) t g c) = HomeError home_error_message.
Proof.
  intros Hq Hf Hl Hg Ht. unfold home_view, result_of in *.
  rewrite (settle_other (key (HSports 4)) (key (HLatest 4))) by (vm_compute; congruence).
  rewrite (settle_other (key (HSports 4)) (key (HGlobal 4))) by (vm_compute; congruence).
  rewrite (settle_other (key (HSports 4)) (key (HTech 4))) by (vm_compute; congruence).
  rewrite (proj2 (settle_current _ c qs (Err e) t g Hq Hf)).
  destruct (observe_error_settled
    (mkQuery (error_action e (state qs)) (observers qs) (q_enabled qs)
       (if bool_decide (observers qs = 0) then Some (t + g)%Z else gcAt qs) (fetchSeq qs)) e)
    as [Herr Hload]; [done|done|].
  apply HomeScreen_settled_error; auto.
Qed.

(** Once any of the four lists has data, the home screen never
    falls back to the spinner, even while lists are refetching. *)
Theorem home_no_spinner_with_data (latest global sports tech : QueryResult) (m : string) :
  is_Some (r_data latest) \/ is_Some (r_data global) \/ is_Some (r_data sports) \/
  is_Some (r_data tech) ->
  HomeScreen latest global sports tech <> HomeSpinner m.
Proof.
  intros Hd. unfold HomeScreen.
  assert (Hnd : (negb (bool_decide (is_Some (r_data latest))) && negb (bool_decide (is_Some (r_data global)))
     && negb (bool_decide (is_Some (r_data sports))) && negb (bool_decide (is_Some (r_data tech)))) = false).
  { destruct Hd as [H|[H|[H|H]]]; rewrite (bool_decide_eq_true_2 _ H); simpl; by rewrite ?andb_false_r. }
  rewrite Hnd, andb_false_r. by case_match.
Qed.

(** With no error and past the spinner, the home screen shows the four
    sections in order, each with its own query's list (empty while that
    list has no data). *)
Theorem home_content_sections (latest global sports tech : QueryResult) :
  r_error latest = None -> r_error global = None -> r_error sports = None -> r_error tech = None ->
  (forall m, HomeScreen latest global sports tech <> HomeSpinner m) ->
  HomeScreen latest global sports tech =
    HomeContent [("Latest", Latest, list_or_empty (r_data latest));
                 ("Global", Global, list_or_empty (r_data global));
                 ("Sports", Sports, list_or_empty (r_data sports));
                 ("Technology", Tech, list_or_empty (r_data tech))].
Proof.
  intros H1 H2 H3 H4 Hns. revert Hns. unfold HomeScreen. rewrite H1, H2, H3, H4.
  case_match; [|done]. intros Hns. by destruct (Hns _ eq_refl).
Qed.

(** The four [refetch()] calls of [onRefresh] are [refetch]es of the four
    home keys. *)
Lemma home_refetch_fold (s : HomeState) :
  home_client (home_onRefresh_start s) = foldr (fetch true) (home_client s) (key <$> home_queries).
Proof. reflexivity. Qed.

(** Pull-to-refresh refetches every list of the home screen: each of
    the four cached queries is fetching afterwards, and the spinner flag is
    on until the join settles. *)
Theorem home_onRefresh_fetches_all (s : HomeState) (h : AppQuery) (q : Query PostgrestError QData) :
  h ∈ home_queries -> queries (home_client s) !! key h = Some q ->
  refreshing (home_onRefresh_start s) = true /\
  refreshing (home_onRefresh_settled (home_onRefresh_start s)) = false /\
  exists q', queries (home_client (home_onRefresh_start s)) !! key h = Some q' /\
    fetchStatus (state q') = Fetching /\ data (state q') = data (state q).
Proof.
  intros Hh Hq. split; [done|]. split; [done|]. rewrite home_refetch_fold.
  destruct (foldr_fetch_keeps true (key <$> home_queries) (key h) _ q Hq) as (q' & H' & Hd & _ & _ & _ & Hf).
  exists q'. split; [done|]. split; [|done]. apply Hf. left. by apply list_elem_of_fmap_2.
Qed.

(** C8: a pull-to-refresh supersedes the fetch each loaded home list may
    have under way: a response of the earlier retryer arriving after the
    refresh started leaves the cache unchanged, so a list never goes back
    to the older response. *)
Theorem home_refresh_supersedes (s : HomeState) (h : AppQuery) (q : Query PostgrestError QData)
  (r : result PostgrestError QData) (now g : Z) :
  h ∈ home_queries -> queries (home_client s) !! key h = Some q -> is_Some (data (state q)) ->
  settle (key h) (fetchSeq q) r now g (home_client (home_onRefresh_start s)) =
    home_client (home_onRefresh_start s).
Proof.
  intros Hh Hq Hd. rewrite home_refetch_fold.
  destruct (foldr_refetch_seq (key <$> home_queries) (key h) _ q Hq Hd) as (q' & H' & _ & _ & Hlt).
  apply (settle_superseded _ _ _ _ _ _ q' H').
  specialize (Hlt (list_elem_of_fmap_2 _ _ _ Hh)). lia.
Qed.

(** ** CategoryScreen and NewsDetailScreen *)

Definition detail_error_message : string := "Failed to load news details. Please try again later.".

(** A category screen whose query has loaded shows, under the
    category's display name, exactly the stored rows of that category, or
    the empty state when there are none. *)
Theorem category_screen_after_fetch (e : Env) (c : string) (t : Table) :
  env_fault e = None ->
  match CategoryScreen c (settled_result (hook_queryFn (HCategory c) e t)) with
  | CategoryList title l =>
      title = categoryDisplayName c /\
      (forall x, x ∈ l <-> x ∈ rows t /\ category_to_string (category x) = c)
  | CategoryEmpty title =>
      title = categoryDisplayName c /\
      (forall x, x ∈ rows t -> category_to_string (category x) <> c)
  | _ => False
  end.
Proof.
  intros He. simpl. rewrite getNewsByCategory_ok by done. unfold CategoryScreen. simpl.
  assert (Hmem : forall x, x ∈ order_published_desc (eq_category c (rows t)) <->
                           x ∈ rows t /\ category_to_string (category x) = c)
    by (intros x; by rewrite elem_of_order, elem_of_eq_category).
  destruct (order_published_desc _) as [|y l]; split; try done.
  intros x Hx Hc. apply (not_elem_of_nil x), Hmem. auto.
Qed.

(** C28: an id the table does not have is not treated as "not found": the
    query function fails with PGRST116 on each of the four calls the retry
    policy makes (1 s, 2 s and 4 s apart), and only then does the detail
    screen show its error message. *)
Theorem missing_article_retried (e : Env) (i : string) (t : Table) :
  env_fault e = None -> (forall x, x ∈ rows t -> id x <> i) ->
  run_retryer Retry.retry (fun _ => hook_queryFn (HById i) e t) =
    (Err PGRST116, [1000%Z; 2000%Z; 4000%Z]) /\
  NewsDetailScreen (settled_result (fst (run_retryer Retry.retry (fun _ => hook_queryFn (HById i) e t))))
    = DetailError detail_error_message.
Proof.
  intros He Hnone.
  assert (Hq : hook_queryFn (HById i) e t = Err PGRST116) by (simpl; by rewrite getNewsById_absent).
  unfold run_retryer. rewrite (retry_loop_all_err _ Retry.retry 0) by (intros n _; by rewrite Hq).
  rewrite Hq. split; reflexivity.
Qed.

(** An article that exists is shown with its own image (or the
    placeholder when [image_url] is absent or empty), the video URL
    [getVideoUrl] makes of it, and autoplay on. *)
Theorem detail_shows_article (e : Env) (t : Table) (x : NewsItem) :
  env_fault e = None -> table_wf t -> x ∈ rows t ->
  NewsDetailScreen (settled_result (hook_queryFn (HById (id x)) e t)) =
    DetailContent x (or_default (image_url x) detail_default_image) (getVideoUrl (video_url x)) true.
Proof. intros He Hwf Hx. simpl. by rewrite (getNewsById_found e (id x) t x). Qed.

(** ** Concrete runs *)

Definition app_qs1 : Query PostgrestError QData := mkQuery (fetch_action initialState) 1 true None 1.

Lemma app_c1_qs1 : queries app_c1 !! key (HSports 4) = Some app_qs1.
Proof. vm_compute. reflexivity. Qed.

Lemma home_sports_failure_hides_others_witness :
  home_view (settle (key (HSports 4)) 1 (Err NetworkError) 900 defaultGcTime app_c1)
    = HomeError home_error_message.
Proof. apply (home_sports_failure_hides_others app_c1 app_qs1); [exact app_c1_qs1|reflexivity..]. Defined.

Definition loaded (l : list NewsItem) : QueryResult := mkResult (Some (DList l)) false None.
Definition loading_empty : QueryResult := mkResult None true None.

Lemma home_no_spinner_with_data_witness :
  HomeScreen loading_empty loading_empty (loaded [art_derby]) loading_empty <> HomeSpinner "Loading news...".
Proof. apply home_no_spinner_with_data. right; right; left. by eexists. Defined.

Lemma home_content_sections_witness :
  HomeScreen (loaded []) (loaded []) (loaded [art_derby; art_final]) (loaded [art_chip]) =
    HomeContent [("Latest", Latest, []); ("Global", Global, []);
                 ("Sports", Sports, [art_derby; art_final]); ("Technology", Tech, [art_chip])].
Proof. apply home_content_sections; try reflexivity. intros m. discriminate. Defined.

Lemma home_onRefresh_fetches_all_witness :
  refreshing (home_onRefresh_start (mkHomeState false app_c2)) = true /\
  refreshing (home_onRefresh_settled (home_onRefresh_start (mkHomeState false app_c2))) = false /\
  exists q', queries (home_client (home_onRefresh_start (mkHomeState false app_c2))) !! key (HSports 4)
      = Some q' /\ fetchStatus (state q') = Fetching /\ data (state q') = data (state app_q2).
Proof. apply home_onRefresh_fetches_all; [simpl; set_solver|exact app_c2_q2]. Defined.

Lemma home_refresh_supersedes_witness :
  settle (key (HSports 4)) (fetchSeq app_q2) (Ok (DList [])) 3000 defaultGcTime
    (home_client (home_onRefresh_start (mkHomeState false app_c2))) =
    home_client (home_onRefresh_start (mkHomeState false app_c2)).
Proof. apply home_refresh_supersedes; [simpl; set_solver|exact app_c2_q2|by eexists]. Defined.

Lemma category_screen_after_fetch_witness :
  CategoryScreen "sports" (settled_result (hook_queryFn (HCategory "sports") env_ok sample_table))
    = CategoryList "Sports News" [art_derby; art_final] /\
  match CategoryScreen "sports" (settled_result (hook_queryFn (HCategory "sports") env_ok sample_table)) with
  | CategoryList title l =>
      title = categoryDisplayName "sports" /\
      (forall x, x ∈ l <-> x ∈ rows sample_table /\ category_to_string (category x) = "sports")
  | CategoryEmpty title =>
      title = categoryDisplayName "sports" /\
      (forall x, x ∈ rows sample_table -> category_to_string (category x) <> "sports")
  | _ => False
  end.
Proof. split; [vm_compute; reflexivity|]. apply category_screen_after_fetch. reflexivity. Defined.

Lemma missing_article_retried_witness :
  run_retryer Retry.retry (fun _ => hook_queryFn (HById "zz") env_ok sample_table) =
    (Err PGRST116, [1000%Z; 2000%Z; 4000%Z]) /\
  NewsDetailScreen (settled_result (fst (run_retryer Retry.retry
      (fun _ => hook_queryFn (HById "zz") env_ok sample_table)))) = DetailError detail_error_message.
Proof. apply missing_article_retried; [reflexivity|exact sample_no_zz]. Defined.

Lemma detail_shows_article_witness :
  NewsDetailScreen (settled_result (hook_queryFn (HById (id art_chip)) env_ok sample_table)) =
    DetailContent art_chip "https://cdn.example/i2.jpg" "https://cdn.example/v2.mp4" true.
Proof.
  rewrite (detail_shows_article env_ok sample_table art_chip); [reflexivity|reflexivity|
    apply sample_table_wf|simpl; set_solver].
Defined.

End Screens.
