(* ===== verification/AdminScreens.v ===== *)
(** * AdminScreens: [AdminDashboardScreen.tsx] and [AddEditNewsScreen.tsx]

    The dashboard lists every article ([['admin', 'allNews']]) with its
    per-category counts ([AdminDashboardScreen], [dashboard_stats]), and
    deletes one after confirmation by calling the service directly and then
    [refetch()]; a failed delete is only logged.  The form keeps
    [formData], changed field by field ([form_step]), validates it
    ([validateForm]) and submits a create or an update through its own
    mutations; [AddEditNewsScreen] is its spinner-or-form decision.  [new URL(url)] is the
    WHATWG URL parser of the runtime; it is the section variable
    [isValidUrl] here. *)

From stdpp Require Import base list strings gmap sorting.
From Stdlib Require Import ZArith.
From S2P Require Import Prelude Model Gateway QueryCache Hooks Screens.

Open Scope string_scope.

Module AdminScreens.
Import Gateway QueryCache Hooks Screens.

(** ** Dashboard *)

Record Stats : Type := mkStats {
  total : nat; s_latest : nat; s_global : nat; s_sports : nat; s_tech : nat;
}.

Definition count_category (c : Category) (l : list NewsItem) : nat :=
  length (filter (fun n => category n = c) l).

(** [const stats = { total: allNews?.length || 0, latest: ... }] *)
Definition dashboard_stats (allNews : option (list NewsItem)) : Stats :=
  let l := default [] allNews in
  mkStats (length l) (count_category Latest l) (count_category Global l)
    (count_category Sports l) (count_category Tech l).

(** The confirmed delete: [try { await newsService.deleteNews(id); refetch(); }
    catch (error) { console.error('Error deleting news:', error); }].  The
    result carries what reached the console. *)
Definition handleDeleteConfirmed (e : Env) (i : string) (t : Table) (c : AppClient)
  : Table * AppClient * option PostgrestError :=
  match deleteNews e i t with
  | (Ok _, t') => (t', refetch adminAllNewsKey c, None)
  | (Err err, t') => (t', c, Some err)
  end.

(** What the dashboard renders: [if (isLoading && !allNews)] the spinner,
    [if (error)] the error, else the stats and, when [allNews] is
    non-empty, one row per article (title, [category.toUpperCase()],
    author, the IMG placeholder when [image_url] is truthy, edit and
    delete buttons), or the empty state. *)
Record DashRow : Type := mkDashRow {
  row_id : string;
  row_title : string;
  row_category : string;
  row_author : string;
  row_hasImage : bool;
}.

Inductive DashboardView : Type :=
  | DashSpinner (message : string)
  | DashError (message : string)
  | DashContent (stats : Stats) (rows : list DashRow)
  | DashEmpty (stats : Stats).

Definition dashboard_list (d : option QData) : option (list NewsItem) :=
  match d with Some (DList l) => Some l | _ => None end.

Definition truthy_opt (o : option string) : bool :=
  match o with Some u => truthy u | None => false end.

Definition dash_row (item : NewsItem) : DashRow :=
  mkDashRow (id item) (title item) (toUpperCase (category_to_string (category item)))
    (author item) (truthy_opt (image_url item)).

Definition AdminDashboardScreen (r : QueryResult) : DashboardView :=
  let allNews := dashboard_list (r_data r) in
  let stats := dashboard_stats allNews in
  if r_isLoading r && negb (bool_decide (is_Some allNews)) then DashSpinner "Loading dashboard..."
  else if bool_decide (is_Some (r_error r)) then DashError "Failed to load dashboard"
  else match allNews with
       | Some ((_ :: _) as l) => DashContent stats (dash_row <$> l)
       | _ => DashEmpty stats
       end.

(** ** The form *)

Inductive Mode : Type := ModeAdd | ModeEdit.

Record FormData : Type := mkFormData {
  f_title : string;
  f_description : string;
  f_image_url : string;
  f_video_url : string;
  f_category : Category;
  f_author : string;
}.

(** [useState({ title: newsItem?.title || '', ..., category: newsItem?.category || 'latest' })] *)
Definition initialFormData (newsItem : option NewsItem) : FormData :=
  match newsItem with
  | Some n => mkFormData (title n) (description n) (default "" (image_url n)) (video_url n)
                (category n) (author n)
  | None => mkFormData "" "" "" "" Latest ""
  end.

(** The draft [createMutation.mutate(formData)] sends, and the patch of
    [updateMutation.mutate({ id, data: formData })]. *)
Definition form_draft (f : FormData) : NewsDraft :=
  mkNewsDraft (f_title f) (f_description f) (Some (f_image_url f)) (f_video_url f) (f_category f) (f_author f).

Definition form_patch (f : FormData) : NewsPatch :=
  mkNewsPatch None (Some (f_title f)) (Some (f_description f)) (Some (f_image_url f))
    (Some (f_video_url f)) (Some (f_category f)) (Some (f_author f)) None None None.

(** The form's inputs: each [onChangeText] (and the category chips'
    [onPress]) is [setFormData({ ...formData, field: value })]; the errors
    shown are left as they are until the next submission. *)
Inductive FormEvent : Type :=
  | EditTitle (text : string)
  | EditDescription (text : string)
  | SelectCategory (c : Category)
  | EditAuthor (text : string)
  | EditImageUrl (text : string)
  | EditVideoUrl (text : string).

Definition form_step (f : FormData) (ev : FormEvent) : FormData :=
  match ev with
  | EditTitle t => mkFormData t (f_description f) (f_image_url f) (f_video_url f) (f_category f) (f_author f)
  | EditDescription t => mkFormData (f_title f) t (f_image_url f) (f_video_url f) (f_category f) (f_author f)
  | SelectCategory c => mkFormData (f_title f) (f_description f) (f_image_url f) (f_video_url f) c (f_author f)
  | EditAuthor t => mkFormData (f_title f) (f_description f) (f_image_url f) (f_video_url f) (f_category f) t
  | EditImageUrl t => mkFormData (f_title f) (f_description f) t (f_video_url f) (f_category f) (f_author f)
  | EditVideoUrl t => mkFormData (f_title f) (f_description f) (f_image_url f) t (f_category f) (f_author f)
  end.

(** The chips of the category picker: [{ id, name }]. *)
Definition form_categories : list (string * string) :=
  [("latest", "Latest"); ("global", "Global"); ("sports", "Sports"); ("tech", "Technology")].

(** What the screen renders: the spinner while a mutation is pending, else
    the form with its mode's title and submit label. *)
Inductive AddEditView : Type :=
  | FormSpinner (message : string)
  | FormScreen (header : string) (submitLabel : string).

Definition AddEditNewsScreen (mode : Mode) (isSubmitting : bool) : AddEditView :=
  if isSubmitting then
    FormSpinner (match mode with ModeAdd => "Creating article..." | ModeEdit => "Updating article..." end)
  else match mode with
       | ModeAdd => FormScreen "Add New Article" "Create Article"
       | ModeEdit => FormScreen "Edit Article" "Update Article"
       end.

Inductive Submit : Type :=
  | SubmitNothing
  | SubmitCreate (d : NewsDraft)
  | SubmitUpdate (i : string) (p : NewsPatch).

Section Form.
Variable isValidUrl : string -> bool.

(** [validateForm]: the [newErrors] record, in the order its keys are set. *)
Definition validateForm (f : FormData) : list (string * string) :=
  (if bool_decide (trim (f_title f) = "") then [("title", "Title is required")] else []) ++
  (if bool_decide (trim (f_description f) = "") then [("description", "Description is required")] else []) ++
  (if bool_decide (trim (f_video_url f) = "") then [("video_url", "Video URL is required")]
   else if negb (isValidUrl (f_video_url f)) then [("video_url", "Please enter a valid URL")] else []) ++
  (if bool_decide (trim (f_author f) = "") then [("author", "Author is required")] else []) ++
  (if negb (bool_decide (f_image_url f = "")) && negb (isValidUrl (f_image_url f))
   then [("image_url", "Please enter a valid URL")] else []).

(** [handleSubmit]: the errors it sets and the mutation it fires. *)
Definition handleSubmit (mode : Mode) (newsItem : option NewsItem) (f : FormData)
  : list (string * string) * Submit :=
  let errs := validateForm f in
  match errs with
  | _ :: _ => (errs, SubmitNothing)
  | [] =>
      match mode, newsItem with
      | ModeAdd, _ => ([], SubmitCreate (form_draft f))
      | ModeEdit, Some n => ([], SubmitUpdate (id n) (form_patch f))
      | ModeEdit, None => ([], SubmitNothing)
      end
  end.

(** Running the fired mutation against the table and the cache. *)
Definition run_submit (s : Submit) (e : Env) (t : Table) (c : AppClient) : bool * Table * AppClient :=
  match s with
  | SubmitNothing => (false, t, c)
  | SubmitCreate d => addEditCreate e d t c
  | SubmitUpdate i p => addEditUpdate e i p t c
  end.
End Form.

(** ** Theorems *)

(** The dashboard's four category counts add up to its total: every
    article is in exactly one of the four categories of the union type. *)
Theorem dashboard_stats_partition (allNews : option (list NewsItem)) :
  let st := dashboard_stats allNews in
  total st = s_latest st + s_global st + s_sports st + s_tech st.
Proof.
  simpl. induction (default [] allNews) as [|n l IH]; [done|].
  unfold count_category in *. rewrite !filter_cons.
  destruct (category n); repeat case_decide; simpl in *; congruence || lia.
Qed.

(** C35: deleting from the dashboard removes the row and refetches only the
    dashboard's list: every query of the reader screens keeps its cached
    value, so a deleted article stays visible there (and on its detail
    screen) until that query goes stale. *)
Theorem dashboard_delete_leaves_reader_cache (e : Env) (i : string) (t : Table) (c : AppClient)
  (h : AppQuery) (q : Query PostgrestError QData) :
  env_fault e = None -> news_queries h = true -> queries c !! key h = Some q ->
  exists t', handleDeleteConfirmed e i t c = (t', refetch adminAllNewsKey c, None) /\
    (forall x, x ∈ rows t' <-> x ∈ rows t /\ id x <> i) /\
    queries (refetch adminAllNewsKey c) !! key h = Some q.
Proof.
  intros He Hn Hq. unfold handleDeleteConfirmed, deleteNews. rewrite He.
  eexists. split; [reflexivity|]. split.
  - intros x. simpl. rewrite list_elem_of_filter. tauto.
  - unfold refetch. rewrite fetch_other; [done|].
    intros Heq. assert (partialMatchKey (key h) adminAllNewsKey = true) as Hm
      by (rewrite <- Heq; reflexivity).
    apply admin_key_prefix in Hm. by subst h.
Qed.

(** A failed delete is swallowed: the table and the cache are as
    before, the error goes to [console.error] only, and nothing on screen
    reports it. *)
Theorem dashboard_delete_error_swallowed (e : Env) (err : PostgrestError) (i : string)
  (t : Table) (c : AppClient) :
  env_fault e = Some err -> handleDeleteConfirmed e i t c = (t, c, Some err).
Proof. intros He. unfold handleDeleteConfirmed, deleteNews. by rewrite He. Qed.

(** The dashboard once its query has loaded from a healthy backend: one
    row per article of the table, newest first, and counts that are the
    table's. *)
Theorem dashboard_shows_table (e : Env) (t : Table) :
  env_fault e = None ->
  exists l, l ≡ₚ rows t /\ StronglySorted newer_or_eq l /\
    AdminDashboardScreen (settled_result (hook_queryFn HAdminAll e t)) =
      match l with
      | [] => DashEmpty (dashboard_stats (Some l))
      | _ => DashContent (dashboard_stats (Some l)) (dash_row <$> l)
      end /\
    total (dashboard_stats (Some l)) = length (rows t) /\
    (forall c, count_category c l = count_category c (rows t)).
Proof.
  intros He. exists (order_published_desc (rows t)).
  pose proof (order_published_desc_perm (rows t)) as Hp.
  split; [done|]. split; [apply order_published_desc_sorted|].
  simpl. rewrite getAllNews_ok by done.
  generalize dependent (order_published_desc (rows t)). intros l Hp. split.
  - unfold AdminDashboardScreen. simpl. by destruct l.
  - split; [simpl; by rewrite Hp|]. intros c. unfold count_category. by rewrite Hp.
Qed.

Section FormTheorems.
Variable isValidUrl : string -> bool.

Lemma validateForm_nil (f : FormData) :
  validateForm isValidUrl f = [] <->
  blank (f_title f) = false /\ blank (f_description f) = false /\ blank (f_video_url f) = false /\
  isValidUrl (f_video_url f) = true /\ blank (f_author f) = false /\
  (f_image_url f = "" \/ isValidUrl (f_image_url f) = true).
Proof.
  unfold validateForm. rewrite !bool_decide_trim_empty.
  destruct (blank (f_title f)), (blank (f_description f)), (blank (f_video_url f)),
    (isValidUrl (f_video_url f)), (blank (f_author f)), (isValidUrl (f_image_url f));
    simpl; case_decide; simpl; naive_solver.
Qed.

(** The conditions [validateForm] checks. *)
Definition form_ok (f : FormData) : Prop :=
  blank (f_title f) = false /\ blank (f_description f) = false /\ blank (f_video_url f) = false /\
  isValidUrl (f_video_url f) = true /\ blank (f_author f) = false /\
  (f_image_url f = "" \/ isValidUrl (f_image_url f) = true).

(** C36: the form fires a write only when every required field is
    non-blank, the video URL parses and the image URL is empty or parses;
    in add mode it then creates exactly the form's fields (untrimmed, with
    an empty image URL sent as [""]); in edit mode without an article it
    silently does nothing. *)
Theorem handleSubmit_spec (mode : Mode) (newsItem : option NewsItem) (f : FormData) :
  (snd (handleSubmit isValidUrl mode newsItem f) <> SubmitNothing -> form_ok f) /\
  (form_ok f ->
     handleSubmit isValidUrl ModeAdd newsItem f = ([], SubmitCreate (form_draft f)) /\
     handleSubmit isValidUrl ModeEdit None f = ([], SubmitNothing)).
Proof.
  unfold form_ok. rewrite <- validateForm_nil. unfold handleSubmit. split.
  - destruct (validateForm isValidUrl f); [done|]. simpl. congruence.
  - intros ->. done.
Qed.

(** A valid form submitted in add mode, against a healthy backend,
    stores a row carrying the form's fields and [published_at] set to the
    client clock, and reading its id returns that row. *)
Theorem form_create_roundtrip (f : FormData) (e : Env) (t : Table) (c : AppClient) :
  form_ok f -> env_fault e = None -> table_wf t ->
  match handleSubmit isValidUrl ModeAdd None f with
  | (_, SubmitCreate d) =>
      exists n, d = form_draft f /\ (run_submit (SubmitCreate d) e t c).1.1 = true /\
        title n = f_title f /\ description n = f_description f /\ image_url n = Some (f_image_url f) /\
        video_url n = f_video_url f /\ category n = f_category f /\ author n = f_author f /\
        published_at n = env_client_now e /\
        (forall e', env_fault e' = None ->
           getNewsById e' (id n) (run_submit (SubmitCreate d) e t c).1.2 = Ok (Some n))
  | _ => False
  end.
Proof.
  intros Hv He Hwf. apply validateForm_nil in Hv. unfold handleSubmit. rewrite Hv.
  exists (row_of_draft e t (form_draft f)). split; [done|].
  unfold run_submit, addEditCreate, mutate, run_write. rewrite (createNews_ok e _ t He). simpl.
  repeat split; auto. intros e' He'. apply getNewsById_found; [done| |simpl; set_solver|done].
  pose proof (createNews_wf e (form_draft f) t Hwf) as Hw. by rewrite createNews_ok in Hw.
Qed.
(** Opening an article in edit mode and saving it unchanged fires an
    update of that article whose patch leaves it as it was, except that a
    missing [image_url] becomes [""] (the form holds [image_url || '']). *)
Theorem edit_unchanged_save (n : NewsItem) :
  form_ok (initialFormData (Some n)) ->
  handleSubmit isValidUrl ModeEdit (Some n) (initialFormData (Some n)) =
    ([], SubmitUpdate (id n) (form_patch (initialFormData (Some n)))) /\
  (is_Some (image_url n) -> apply_patch (form_patch (initialFormData (Some n))) n = n) /\
  (image_url n = None -> image_url (apply_patch (form_patch (initialFormData (Some n))) n) = Some "").
Proof.
  intros Hv. apply validateForm_nil in Hv. unfold handleSubmit. rewrite Hv.
  split; [done|]. destruct n as [i ti de [u|] v ca au p cr up]; simpl; split; try done.
Qed.

End FormTheorems.

(** ** Concrete runs *)

(** A stand-in for [new URL(url)] that accepts the absolute http(s) URLs
    the witnesses use. *)
Definition http_url (u : string) : bool := String.prefix "http" u.

Definition form_goal : FormData :=
  mkFormData "Goal" "Header" "" "https://cdn.example/v4.mp4" Sports "Di".

Lemma dashboard_delete_leaves_reader_cache_witness :
  exists t', handleDeleteConfirmed env_ok "a3" sample_table app_c2 =
      (t', refetch adminAllNewsKey app_c2, None) /\
    (forall x, x ∈ rows t' <-> x ∈ rows sample_table /\ id x <> "a3") /\
    queries (refetch adminAllNewsKey app_c2) !! key (HSports 4) = Some app_q2.
Proof. apply dashboard_delete_leaves_reader_cache; [reflexivity|reflexivity|exact app_c2_q2]. Defined.

Lemma dashboard_delete_error_swallowed_witness :
  handleDeleteConfirmed net_down "a3" sample_table app_c2 = (sample_table, app_c2, Some NetworkError).
Proof. apply dashboard_delete_error_swallowed. reflexivity. Defined.

Lemma handleSubmit_spec_witness :
  (snd (handleSubmit http_url ModeAdd None form_goal) <> SubmitNothing -> form_ok http_url form_goal) /\
  (form_ok http_url form_goal ->
     handleSubmit http_url ModeAdd None form_goal = ([], SubmitCreate (form_draft form_goal)) /\
     handleSubmit http_url ModeEdit None form_goal = ([], SubmitNothing)).
Proof. apply handleSubmit_spec. Defined.

Lemma form_goal_ok : form_ok http_url form_goal.
Proof. unfold form_ok. vm_compute. repeat split; auto. Qed.

Lemma form_create_roundtrip_witness :
  match handleSubmit http_url ModeAdd None form_goal with
  | (_, SubmitCreate d) =>
      exists n, d = form_draft form_goal /\
        (run_submit (SubmitCreate d) env_ok sample_table app_c2).1.1 = true /\
        title n = f_title form_goal /\ description n = f_description form_goal /\
        image_url n = Some (f_image_url form_goal) /\ video_url n = f_video_url form_goal /\
        category n = f_category form_goal /\ author n = f_author form_goal /\
        published_at n = env_client_now env_ok /\
        (forall e', env_fault e' = None ->
           getNewsById e' (id n) (run_submit (SubmitCreate d) env_ok sample_table app_c2).1.2 = Ok (Some n))
  | _ => False
  end.
Proof. apply form_create_roundtrip; [exact form_goal_ok|reflexivity|apply sample_table_wf]. Defined.

Lemma dashboard_shows_table_witness :
  exists l, l ≡ₚ rows sample_table /\ StronglySorted newer_or_eq l /\
    AdminDashboardScreen (settled_result (hook_queryFn HAdminAll env_ok sample_table)) =
      match l with
      | [] => DashEmpty (dashboard_stats (Some l))
      | _ => DashContent (dashboard_stats (Some l)) (dash_row <$> l)
      end /\
    total (dashboard_stats (Some l)) = length (rows sample_table) /\
    (forall c, count_category c l = count_category c (rows sample_table)).
Proof. apply dashboard_shows_table. reflexivity. Defined.

Lemma derby_form_ok : form_ok http_url (initialFormData (Some art_derby)).
Proof. unfold form_ok. vm_compute. repeat split; auto. Qed.

Lemma edit_unchanged_save_witness :
  handleSubmit http_url ModeEdit (Some art_derby) (initialFormData (Some art_derby)) =
    ([], SubmitUpdate (id art_derby) (form_patch (initialFormData (Some art_derby)))) /\
  (is_Some (image_url art_derby) ->
     apply_patch (form_patch (initialFormData (Some art_derby))) art_derby = art_derby) /\
  (image_url art_derby = None ->
     image_url (apply_patch (form_patch (initialFormData (Some art_derby))) art_derby) = Some "").
Proof. apply edit_unchanged_save. exact derby_form_ok. Defined.

End AdminScreens.
