(* ===== verification/AddEditForm.v ===== *)
(** * AddEditForm: the add/edit form as a screen

    [AddEditNewsScreen.tsx] keeps two pieces of state, [formData] and
    [errors] (a [Record<string, string>] keyed by field name).  Its inputs
    rewrite one field of [formData]; [handleSubmit] runs [validateForm],
    which replaces [errors] by the new record, and fires a mutation when it
    is empty.  The screen renders a header by mode, five text fields
    (Title, Description, Author, Image URL, Video URL), each with its value
    and, under it, [errors.<field>] when set, the four category chips
    between Description and Author with the selected one highlighted, and
    the submit button.  The form's data, [validateForm] and [handleSubmit]
    are those of [AdminScreens]; this file adds the screen's state, its
    events and its view. *)

From stdpp Require Import base list strings.
From S2P Require Import Prelude Model Gateway Hooks AdminScreens.

Open Scope string_scope.

Module AddEditForm.
Import AdminScreens.

(** ** State and events *)

Record FormState : Type := mkFormState {
  formData : FormData;
  errors : list (string * string);    (** [errors]: field name, message *)
}.

(** [useState({ ... })] and [useState<Record<string, string>>({})]. *)
Definition form_initial (newsItem : option NewsItem) : FormState :=
  mkFormState (initialFormData newsItem) [].

Inductive ScreenEvent : Type :=
  | SEdit (ev : FormEvent)       (** an input's [onChangeText] or a chip's [onPress] *)
  | SSubmit.                     (** the submit button's [onPress={handleSubmit}] *)

(** ** The view *)

(** A text field: its label, its [value], and the message of
    [{errors.<key> && <Text>{errors.<key>}</Text>}] (the same test gives
    the input its [inputError] style). *)
Record FieldView : Type := mkFieldView {
  fv_label : string;
  fv_value : string;
  fv_error : option string;
}.

Record ChipView : Type := mkChipView {
  chip_id : string;
  chip_name : string;
  chip_active : bool;            (** [formData.category === cat.id] *)
}.

Record FormView : Type := mkFormView {
  fv_header : string;
  fv_fields : list FieldView;    (** in screen order; the chips sit after the second *)
  fv_chips : list ChipView;
  fv_submit : string;
}.

Definition field_view (label key value : string) (errs : list (string * string)) : FieldView :=
  mkFieldView label value (assoc key errs).

Definition category_chips (c : Category) : list ChipView :=
  (fun '(cid, name) => mkChipView cid name (bool_decide (category_to_string c = cid))) <$> form_categories.

(** The field keys, in the order the screen shows the fields. *)
Definition field_keys : list string := ["title"; "description"; "author"; "image_url"; "video_url"].

Definition form_view (mode : Mode) (s : FormState) : FormView :=
  let f := formData s in
  let errs := errors s in
  mkFormView (match mode with ModeAdd => "Add New Article" | ModeEdit => "Edit Article" end)
    [field_view "Title *" "title" (f_title f) errs;
     field_view "Description *" "description" (f_description f) errs;
     field_view "Author *" "author" (f_author f) errs;
     field_view "Image URL (Optional)" "image_url" (f_image_url f) errs;
     field_view "Video URL *" "video_url" (f_video_url f) errs]
    (category_chips (f_category f))
    (match mode with ModeAdd => "Create Article" | ModeEdit => "Update Article" end).

(** ** The handlers *)

Section Screen.
Variable isValidUrl : string -> bool.
Variable mode : Mode.
Variable newsItem : option NewsItem.

(** One event: the new state and the mutation it fires. *)
Definition addEdit_step (s : FormState) (ev : ScreenEvent) : FormState * Submit :=
  match ev with
  | SEdit e => (mkFormState (form_step (formData s) e) (errors s), SubmitNothing)
  | SSubmit =>
      let '(errs, sub) := handleSubmit isValidUrl mode newsItem (formData s) in
      (mkFormState (formData s) errs, sub)
  end.

(** A sequence of events, with the mutations fired in order. *)
Fixpoint addEdit_run (s : FormState) (evs : list ScreenEvent) : FormState * list Submit :=
  match evs with
  | [] => (s, [])
  | ev :: rest =>
      let '(s1, sub) := addEdit_step s ev in
      let '(s2, subs) := addEdit_run s1 rest in
      (s2, sub :: subs)
  end.

End Screen.

(** ** Lemmas *)

Lemma handleSubmit_errors (isValidUrl : string -> bool) (mode : Mode) (newsItem : option NewsItem)
  (f : FormData) :
  fst (handleSubmit isValidUrl mode newsItem f) = validateForm isValidUrl f /\
  (snd (handleSubmit isValidUrl mode newsItem f) <> SubmitNothing -> validateForm isValidUrl f = []).
Proof.
  unfold handleSubmit. destruct (validateForm isValidUrl f) as [|e es] eqn:E; [|done].
  by destruct mode, newsItem.
Qed.

(** ** Theorems *)

(** C37: the category picker always has exactly one chip highlighted, the
    one whose id is the form's category: the category is one of the four
    values of the union, and the chips list all four. *)
Theorem one_chip_active (mode : Mode) (s : FormState) :
  length (filter chip_active (fv_chips (form_view mode s))) = 1%nat /\
  Forall (fun ch => chip_active ch = true -> chip_id ch = category_to_string (f_category (formData s)))
    (fv_chips (form_view mode s)).
Proof.
  simpl. destruct (f_category (formData s)); split; [reflexivity| |reflexivity|..];
    repeat constructor; simpl; congruence.
Qed.

(** C34: pressing submit keeps the form's data and shows, under each of
    the five fields, exactly the message [validateForm] sets for it (none
    when the field is valid); when a mutation is fired, no field shows an
    error. *)
Theorem submit_shows_errors (isValidUrl : string -> bool) (mode : Mode) (newsItem : option NewsItem)
  (s : FormState) :
  let r := addEdit_step isValidUrl mode newsItem s SSubmit in
  formData (fst r) = formData s /\
  fv_error <$> fv_fields (form_view mode (fst r)) =
    (fun k => assoc k (validateForm isValidUrl (formData s))) <$> field_keys /\
  (snd r <> SubmitNothing -> Forall (fun fv => fv_error fv = None) (fv_fields (form_view mode (fst r)))).
Proof.
  destruct (handleSubmit_errors isValidUrl mode newsItem (formData s)) as [He Hf].
  simpl. destruct (handleSubmit isValidUrl mode newsItem (formData s)) as [errs sub].
  simpl in *. subst errs. split; [done|split; [done|]].
  intros Hsub. rewrite (Hf Hsub). repeat constructor.
Qed.

(** ** Concrete runs *)

(** An empty form submitted shows four messages; the optional image URL
    has none. *)
Example empty_form_errors :
  fv_error <$> fv_fields (form_view ModeAdd (fst (addEdit_step http_url ModeAdd None (form_initial None) SSubmit))) =
    [Some "Title is required"; Some "Description is required"; Some "Author is required"; None;
     Some "Video URL is required"].
Proof. reflexivity. Qed.

(** Typing a title after a failed submission leaves "Title is required"
    under the field until the next submission. *)
Example stale_title_error :
  fv_error <$> head (fv_fields (form_view ModeAdd
    (fst (addEdit_run http_url ModeAdd None (form_initial None) [SSubmit; SEdit (EditTitle "Derby day")])))) =
  Some (Some "Title is required").
Proof. reflexivity. Qed.

End AddEditForm.
