(* ===== verification/Store.v ===== *)
(** * Store: the Redux store of [src/src/redux]

    [configureStore] combines three slices ([store.ts]): [settings]
    ([settingsSlice.ts]), [category] ([categorySlice.ts], in [Model]) and
    [admin] ([adminSlice.ts]).  Each slice is a state record and a reducer
    on its own actions; [combineReducers] hands every action to every
    slice and the others ignore it, so a root action is tagged with its
    slice here.  [SettingsScreen]'s two switches are the actions they
    dispatch. *)

From stdpp Require Import base list strings.
From S2P Require Import Prelude Model.

Open Scope string_scope.

Module Store.

(** ** adminSlice *)

Record AdminState : Type := mkAdminState {
  isAuthenticated : bool;
  isAdmin : bool;
  loginError : option string;
}.

Definition admin_initialState : AdminState := mkAdminState false false None.

Inductive AdminAction : Type :=
  | loginRequest
  | loginSuccess
  | loginFailure (payload : string)
  | logout
  | clearError.

Definition adminReducer (s : AdminState) (a : AdminAction) : AdminState :=
  match a with
  | loginRequest => mkAdminState (isAuthenticated s) (isAdmin s) None
  | loginSuccess => mkAdminState true true None
  | loginFailure msg => mkAdminState false false (Some msg)
  | logout => mkAdminState false false None
  | clearError => mkAdminState (isAuthenticated s) (isAdmin s) None
  end.

(** ** settingsSlice *)

Record SettingsState : Type := mkSettingsState {
  notifications : bool;
  autoPlay : bool;
}.

Definition settings_initialState : SettingsState := mkSettingsState true true.

(** [Partial<SettingsState>] *)
Record SettingsPatch : Type := mkSettingsPatch {
  sp_notifications : option bool;
  sp_autoPlay : option bool;
}.

(** [updateSettings]: [{ ...state, ...action.payload }]. *)
Definition updateSettings (s : SettingsState) (p : SettingsPatch) : SettingsState :=
  mkSettingsState (default (notifications s) (sp_notifications p)) (default (autoPlay s) (sp_autoPlay p)).

(** ** The root reducer *)

Record RootState : Type := mkRootState {
  settings : SettingsState;
  category : CategoryState;
  admin : AdminState;
}.

Definition root_initialState : RootState :=
  mkRootState settings_initialState category_initialState admin_initialState.

Inductive RootAction : Type :=
  | ASettings (p : SettingsPatch)
  | ACategory (a : CategoryAction)
  | AAdmin (a : AdminAction).

Definition rootReducer (s : RootState) (a : RootAction) : RootState :=
  match a with
  | ASettings p => mkRootState (updateSettings (settings s) p) (category s) (admin s)
  | ACategory ca => mkRootState (settings s) (categoryReducer (category s) ca) (admin s)
  | AAdmin aa => mkRootState (settings s) (category s) (adminReducer (admin s) aa)
  end.

(** [SettingsScreen]'s two switches dispatch a one-field payload. *)
Definition handleNotificationToggle (value : bool) : RootAction :=
  ASettings (mkSettingsPatch (Some value) None).

Definition handleAutoPlayToggle (value : bool) : RootAction :=
  ASettings (mkSettingsPatch None (Some value)).

Inductive root_step : RootState -> RootState -> Prop :=
  | root_step_dispatch s a : root_step s (rootReducer s a).

(** ** Invariants *)

(** The admin flags move together, and a signed-in admin has no error. *)
Definition admin_wf (s : AdminState) : Prop :=
  isAuthenticated s = isAdmin s /\ (isAuthenticated s = true -> loginError s = None).

Lemma adminReducer_wf (s : AdminState) (a : AdminAction) : admin_wf s -> admin_wf (adminReducer s a).
Proof. unfold admin_wf. destruct a; simpl; intuition congruence. Qed.

(** In every state the store can reach by dispatching actions, the
    [isAuthenticated] and [isAdmin] flags agree, and a signed-in admin has
    no login error shown. *)
Theorem store_admin_wf (s : RootState) :
  star root_step root_initialState s -> admin_wf (admin s).
Proof.
  intros Hr. apply (star_invariant root_step (fun s => admin_wf (admin s))) with (s := root_initialState).
  - intros s1 s2 H1 Hstep. destruct Hstep as [s1 a]. destruct a; simpl; auto using adminReducer_wf.
  - exact Hr.
  - split; [done|discriminate].
Qed.

(** [updateSettings] changes exactly the fields the payload names,
    and applying the same payload twice is applying it once. *)
Theorem updateSettings_spec (s : SettingsState) (p : SettingsPatch) :
  notifications (updateSettings s p) = default (notifications s) (sp_notifications p) /\
  autoPlay (updateSettings s p) = default (autoPlay s) (sp_autoPlay p) /\
  updateSettings (updateSettings s p) p = updateSettings s p.
Proof. destruct s as [n a], p as [[pn|] [pa|]]; repeat split. Qed.

Lemma store_admin_wf_witness :
  star root_step root_initialState (rootReducer root_initialState (AAdmin loginSuccess)) /\
  admin_wf (admin (rootReducer root_initialState (AAdmin loginSuccess))).
Proof.
  assert (H : star root_step root_initialState (rootReducer root_initialState (AAdmin loginSuccess)))
    by (apply star_one; constructor).
  split; [exact H|]. apply store_admin_wf. exact H.
Defined.

End Store.
