(* ===== verification/Settings.v ===== *)
(** * SettingsScreen: its sections, items and switches

    [src/src/screens/SettingsScreen.tsx] builds [settingsSections] from the
    [settings] slice on every render: an "Options" section with two switch
    items bound to [notifications] and [autoPlay], whose [onToggle]
    dispatches [updateSettings] with a one-field payload, and an "About"
    section with two info items.  [renderSection] draws a divider under
    every item but the last.  The theorems show that the switches always
    show the store and that toggling one changes exactly that one. *)

From stdpp Require Import base list strings.
From S2P Require Import Prelude Model Store.

Module Settings.
Import Store.

(** [item.type === 'switch'] items carry [value] and [onToggle]. *)
Inductive SettingKind : Type :=
  | KSwitch (value : bool) (onToggle : bool -> RootAction)
  | KInfo.

Record SettingItem : Type := mkSettingItem {
  si_id : string;
  si_title : string;
  si_subtitle : string;
  si_icon : string;
  si_kind : SettingKind;
}.

Record SettingsSection : Type := mkSection {
  sec_title : string;
  sec_items : list SettingItem;
}.

Definition settingsSections (settings : SettingsState) : list SettingsSection :=
  [mkSection "Options"
     [mkSettingItem "notifications" "Push Notifications" "Receive notifications for breaking news"
        "notifications-outline" (KSwitch (notifications settings) handleNotificationToggle);
      mkSettingItem "autoplay" "Auto-play Videos" "Automatically play videos in news"
        "play-circle-outline" (KSwitch (autoPlay settings) handleAutoPlayToggle)];
   mkSection "About"
     [mkSettingItem "version" "Version" "1.0.0" "information-circle-outline" KInfo;
      mkSettingItem "developer" "Developer" "NinjaTech AI" "code-outline" KInfo]].

(** [renderSettingItem] and the divider of [renderSection]. *)
Record ItemView : Type := mkItemView {
  iv_key : string;
  iv_title : string;
  iv_subtitle : string;
  iv_switch : option bool;          (** [<Switch value={item.value} />] *)
  iv_divider : bool;                (** [itemIndex < section.items.length - 1] *)
}.

Definition renderSettingItem (item : SettingItem) (divider : bool) : ItemView :=
  mkItemView (si_id item) (si_title item) (si_subtitle item)
    (match si_kind item with KSwitch v _ => Some v | KInfo => None end) divider.

Definition renderSection (section : SettingsSection) : string * list ItemView :=
  (sec_title section,
   imap (fun itemIndex item =>
           renderSettingItem item (bool_decide (itemIndex < length (sec_items section) - 1)))
        (sec_items section)).

(** [useSelector((state) => state.settings)], then the sections. *)
Definition SettingsScreen (st : RootState) : list (string * list ItemView) :=
  renderSection <$> settingsSections (settings st).

(** The switches of the screen, by key, with the value each shows. *)
Definition switch_values (scr : list (string * list ItemView)) : list (string * bool) :=
  omap (fun iv => (fun b => (iv_key iv, b)) <$> iv_switch iv) (concat (snd <$> scr)).

(** The switch items of the screen with their [onValueChange]. *)
Definition switches (st : RootState) : list (string * (bool -> RootAction)) :=
  omap (fun it => match si_kind it with KSwitch _ f => Some (si_id it, f) | KInfo => None end)
    (concat (sec_items <$> settingsSections (settings st))).

(** ** Theorems *)

(** C32: the settings screen shows the store: its switches are exactly
    Push Notifications and Auto-play Videos showing [notifications] and
    [autoPlay]; moving one switch to [v] dispatches an action after
    which that switch shows [v], the other keeps its value, and the rest
    of the store is unchanged. *)
Theorem settings_switch_toggle (st : RootState) (k : string) (f : bool -> RootAction) (v : bool) :
  (k, f) ∈ switches st ->
  switch_values (SettingsScreen (rootReducer st (f v))) =
    (fun '(k', b) => (k', if bool_decide (k' = k) then v else b)) <$> switch_values (SettingsScreen st) /\
  category (rootReducer st (f v)) = category st /\ admin (rootReducer st (f v)) = admin st.
Proof.
  intros Hin. cbn in Hin. decompose_list_elem_of; simplify_eq; simpl; by repeat case_bool_decide.
Qed.

(** ** Concrete runs *)

Definition settings_sample : RootState := rootReducer root_initialState (handleAutoPlayToggle false).

Lemma settings_switch_toggle_witness :
  ("notifications", handleNotificationToggle) ∈ switches settings_sample /\
  switch_values (SettingsScreen (rootReducer settings_sample (handleNotificationToggle false))) =
    [("notifications", false); ("autoplay", false)].
Proof.
  split; [cbn; apply list_elem_of_here|].
  destruct (settings_switch_toggle settings_sample "notifications" handleNotificationToggle false)
    as [-> _]; [cbn; apply list_elem_of_here|reflexivity].
Defined.

(** Only the last item of each section has no divider under it. *)
Example settings_dividers :
  map (fun '(t, ivs) => (t, map iv_divider ivs)) (SettingsScreen root_initialState) =
    [("Options", [true; false]); ("About", [true; false])]%string.
Proof. reflexivity. Qed.

End Settings.
