(* ===== verification/Login.v ===== *)
(** * Login: [src/src/screens/AdminLoginScreen.tsx]

    The screen's state ([password], [showPassword], [isSubmitting]) with
    the admin slice of the store and the navigation it triggers.
    [handleLogin] rejects a blank password at once; otherwise it sets
    [isSubmitting], dispatches [loginRequest] and schedules a 500 ms
    [setTimeout] whose closure holds the password typed at that moment.
    The timers still to fire are a queue, fired in order by [LTimer]
    (nothing clears them: the effect has no cleanup). *)

From stdpp Require Import base list strings.
From S2P Require Import Prelude Model Store.

Open Scope string_scope.

Module Login.
Import Store.

Inductive Route : Type := RAdminLogin | RAdminDashboard | RBack.

Record LoginState : Type := mkLoginState {
  password : string;
  showPassword : bool;
  isSubmitting : bool;
  timers : list string;        (** passwords captured by pending timeouts *)
  store : AdminState;
  route : Route;
  replaces : nat;              (** [navigation.replace('AdminDashboard')] calls *)
}.

Definition login_initial : LoginState :=
  mkLoginState "" false false [] admin_initialState RAdminLogin 0.

Inductive LoginEvent : Type :=
  | LType (s : string)          (** [onChangeText={setPassword}] *)
  | LToggleShow                 (** the eye icon *)
  | LHandleLogin                (** the button, or [onSubmitEditing] *)
  | LTimer                      (** the oldest pending timeout fires *)
  | LHandleBack.                (** [handleBack] *)

Definition with_store (s : LoginState) (a : AdminAction) : AdminState := adminReducer (store s) a.

Definition handleLogin (s : LoginState) : LoginState :=
  if decide (trim (password s) = "") then
    mkLoginState (password s) (showPassword s) (isSubmitting s) (timers s)
      (with_store s (loginFailure "Please enter password")) (route s) (replaces s)
  else
    mkLoginState (password s) (showPassword s) true (timers s ++ [password s])
      (with_store s loginRequest) (route s) (replaces s).

(** The timeout's body, for the password its closure captured. *)
Definition login_timeout (captured : string) (s : LoginState) : LoginState :=
  if decide (captured = "123") then
    mkLoginState (password s) (showPassword s) false (timers s)
      (with_store s loginSuccess) RAdminDashboard (S (replaces s))
  else
    mkLoginState (password s) (showPassword s) false (timers s)
      (with_store s (loginFailure "Invalid password")) (route s) (replaces s).

Definition login_step (s : LoginState) (ev : LoginEvent) : LoginState :=
  match ev with
  | LType p => mkLoginState p (showPassword s) (isSubmitting s) (timers s) (store s) (route s) (replaces s)
  | LToggleShow => mkLoginState (password s) (negb (showPassword s)) (isSubmitting s) (timers s)
                     (store s) (route s) (replaces s)
  | LHandleLogin => handleLogin s
  | LTimer =>
      match timers s with
      | [] => s
      | p :: rest =>
          login_timeout p (mkLoginState (password s) (showPassword s) (isSubmitting s) rest
                             (store s) (route s) (replaces s))
      end
  | LHandleBack => mkLoginState (password s) (showPassword s) (isSubmitting s) (timers s)
                     (with_store s clearError) RBack (replaces s)
  end.

Definition login_run (s : LoginState) (evs : list LoginEvent) : LoginState := foldl login_step s evs.

(** ** Theorems *)

(** A blank password (empty or only whitespace) is refused at once
    with "Please enter password": no request, no timer, not submitting. *)
Theorem handleLogin_blank (s : LoginState) :
  blank (password s) = true ->
  handleLogin s = mkLoginState (password s) (showPassword s) (isSubmitting s) (timers s)
    (mkAdminState false false (Some "Please enter password")) (route s) (replaces s).
Proof.
  intros Hb. unfold handleLogin. rewrite decide_True; [done|]. by apply trim_empty_iff.
Qed.

(** C33: typing a password, pressing login and letting the timeout fire
    signs the admin in and opens the dashboard exactly when the password is
    ["123"]; any other non-blank password gives "Invalid password".  The
    comparison is on the untrimmed text. *)
Theorem login_flow (p : string) :
  blank p = false ->
  let s := login_run login_initial [LType p; LHandleLogin; LTimer] in
  isSubmitting s = false /\ timers s = [] /\
  (p = "123" -> store s = mkAdminState true true None /\ route s = RAdminDashboard) /\
  (p <> "123" -> store s = mkAdminState false false (Some "Invalid password") /\ route s = RAdminLogin).
Proof.
  intros Hb. simpl. unfold handleLogin. simpl.
  rewrite decide_False by (rewrite trim_empty_iff; congruence). simpl.
  unfold login_timeout. case_decide; simpl; repeat split; done.
Qed.

(** The login button is disabled while submitting, but the password
    field's [onSubmitEditing] is not: submitting ["123"] twice within the
    500 ms schedules two timeouts, and both call
    [navigation.replace('AdminDashboard')]. *)
Theorem double_submit_navigates_twice :
  replaces (login_run login_initial [LType "123"; LHandleLogin; LHandleLogin; LTimer; LTimer]) = 2.
Proof. reflexivity. Qed.

Lemma handleLogin_blank_witness :
  handleLogin (login_run login_initial [LType "  "]) =
    mkLoginState "  " false false [] (mkAdminState false false (Some "Please enter password")) RAdminLogin 0.
Proof. apply handleLogin_blank. reflexivity. Defined.

Lemma login_flow_witness :
  let s := login_run login_initial [LType "123"; LHandleLogin; LTimer] in
  isSubmitting s = false /\ timers s = [] /\
  ("123" = "123" -> store s = mkAdminState true true None /\ route s = RAdminDashboard) /\
  ("123" <> "123" -> store s = mkAdminState false false (Some "Invalid password") /\ route s = RAdminLogin).
Proof. apply login_flow. reflexivity. Defined.

End Login.
