(* ===== verification/AdminFlow.v ===== *)
(** * AdminFlow: the admin section as one system

    The admin screens interact through three shared things: the
    [AdminStackNavigator]'s routes (React Navigation's stack router), the
    [admin] slice of the Redux store, and the JavaScript timer queue.
    [AdminLoginScreen.tsx]'s [handleLogin] schedules a 500 ms timeout that
    later dispatches [loginSuccess] and calls
    [navigation.replace('AdminDashboard')] (or dispatches [loginFailure]);
    [handleBack] dispatches [clearError] and goes back;
    [AdminDashboardScreen.tsx]'s [handleLogout] dispatches [logout] and
    replaces itself by [AdminLogin]; [handleAddNews]/[handleEditNews] push
    [AddEditNews]; [AddEditNewsScreen.tsx] goes back from its header arrow
    and from the OK button of its success alert.

    The stack router is modelled from React Navigation's documented
    behaviour: a route has a key; [replace] and [goBack] act on the route
    that issued them (their [source]) and are dropped when that route is no
    longer in the stack; [goBack] from the first route of the stack is not
    handled by the stack and goes to the drawer, whose back behaviour
    ([firstRoute]) focuses [MainApp].  The component state of the login
    screen ([password], [showPassword], [isSubmitting]) lives in its route,
    so a replaced login screen loses it and a new one starts blank. *)

From stdpp Require Import base list strings.
From S2P Require Import Prelude Model Store.

Open Scope string_scope.

Create HintDb adminflow.

Module AdminFlow.
Import Store.

(** ** State *)

(** The screens of [AdminStackNavigator] with the state each instance holds. *)
Inductive AdminRoute : Type :=
  | RLogin (password : string) (showPassword : bool) (isSubmitting : bool)
  | RDashboard
  | RAddEdit (mode : string) (newsItem : option NewsItem).

Record Route : Type := mkRoute { key : nat; screen : AdminRoute }.

(** The drawer's focused route ([DrawerNavigator]: [MainApp], [Admin]). *)
Inductive DrawerRoute : Type := DMainApp | DAdmin.

Record Flow : Type := mkFlow {
  drawer : DrawerRoute;
  stack : list Route;              (** bottom first; the last is shown *)
  nextKey : nat;                   (** the key the next new route gets *)
  admin : AdminState;              (** [store.getState().admin] *)
  timers : list (nat * string);    (** pending timeouts: the login route that
                                       scheduled it and the password its
                                       closure captured, oldest first *)
}.

(** The app starts on [MainApp]; the admin stack's initial route is
    [AdminLogin]. *)
Definition flow_initial : Flow :=
  mkFlow DMainApp [mkRoute 0 (RLogin "" false false)] 1 admin_initialState [].

Definition set_stack (l : list Route) (s : Flow) : Flow :=
  mkFlow (drawer s) l (nextKey s) (admin s) (timers s).
Definition set_drawer (d : DrawerRoute) (s : Flow) : Flow :=
  mkFlow d (stack s) (nextKey s) (admin s) (timers s).
Definition set_timers (t : list (nat * string)) (s : Flow) : Flow :=
  mkFlow (drawer s) (stack s) (nextKey s) (admin s) t.
Definition dispatch (a : AdminAction) (s : Flow) : Flow :=
  mkFlow (drawer s) (stack s) (nextKey s) (adminReducer (admin s) a) (timers s).

(** ** The stack router *)

(** [navigation.navigate] to a screen not in the stack: push it. *)
Definition push (sc : AdminRoute) (s : Flow) : Flow :=
  mkFlow (drawer s) (stack s ++ [mkRoute (nextKey s) sc]) (S (nextKey s)) (admin s) (timers s).

(** [navigation.replace] issued by route [k]: that route gives way to a
    new one; dropped when [k] has left the stack. *)
Definition replace (k : nat) (sc : AdminRoute) (s : Flow) : Flow :=
  if existsb (fun r => Nat.eqb (key r) k) (stack s)
  then mkFlow (drawer s) ((fun r => if Nat.eqb (key r) k then mkRoute (nextKey s) sc else r) <$> stack s)
         (S (nextKey s)) (admin s) (timers s)
  else s.

(** [navigation.goBack] issued by route [k]: the stack removes [k] when it
    is not its first route; otherwise the drawer goes to its first route. *)
Definition goBack (k : nat) (s : Flow) : Flow :=
  match list_find (fun r => key r = k) (stack s) with
  | Some (i, _) => if decide (0 < i)%nat then set_stack (delete i (stack s)) s
                   else set_drawer DMainApp s
  | None => s
  end.

(** A component's [setState] on the route [k]; nothing once it is gone. *)
Definition set_route (k : nat) (f : AdminRoute -> AdminRoute) (s : Flow) : Flow :=
  set_stack ((fun r => if Nat.eqb (key r) k then mkRoute k (f (screen r)) else r) <$> stack s) s.

(** ** The screens' handlers *)

Definition setIsSubmitting (b : bool) (sc : AdminRoute) : AdminRoute :=
  match sc with RLogin p sh _ => RLogin p sh b | _ => sc end.

(** [AdminLoginScreen]'s [handleLogin], run by the login route [k]. *)
Definition handleLogin (k : nat) (password : string) (s : Flow) : Flow :=
  if decide (trim password = "") then dispatch (loginFailure "Please enter password") s
  else set_timers (timers s ++ [(k, password)])
         (dispatch loginRequest (set_route k (setIsSubmitting true) s)).

(** The timeout's body, for the route and password its closure holds. *)
Definition login_timeout (k : nat) (captured : string) (s : Flow) : Flow :=
  if decide (captured = "123")
  then set_route k (setIsSubmitting false) (replace k RDashboard (dispatch loginSuccess s))
  else set_route k (setIsSubmitting false) (dispatch (loginFailure "Invalid password") s).

(** [handleBack]. *)
Definition handleBack (k : nat) (s : Flow) : Flow := goBack k (dispatch clearError s).

(** [AdminDashboardScreen]'s [handleLogout]. *)
Definition handleLogout (k : nat) (s : Flow) : Flow :=
  replace k (RLogin "" false false) (dispatch logout s).

(** ** Events *)

Inductive FlowEvent : Type :=
  | FType (p : string)            (** password field's [onChangeText] *)
  | FToggleShow                   (** the eye icon *)
  | FLoginButton                  (** the login button, [disabled={isSubmitting}] *)
  | FSubmitEditing                (** the password field's [onSubmitEditing] *)
  | FLoginBack                    (** the login header's back arrow *)
  | FLogout                       (** the dashboard's logout button *)
  | FAddNews                      (** [handleAddNews] *)
  | FEditNews (n : NewsItem)      (** [handleEditNews] *)
  | FFormBack                     (** the form's back arrow, or OK after a save *)
  | FDrawer (d : DrawerRoute)     (** a drawer menu item *)
  | FTimer.                       (** the oldest pending timeout fires *)

(** A user event reaches the route shown: the last of the stack, while
    the drawer shows [Admin]; the timer fires whatever is shown. *)
Definition shown (s : Flow) : option Route :=
  match drawer s with DAdmin => last (stack s) | DMainApp => None end.

Definition flow_step (s : Flow) (ev : FlowEvent) : Flow :=
  match ev, shown s with
  | FTimer, _ =>
      match timers s with
      | [] => s
      | (k, p) :: rest => login_timeout k p (set_timers rest s)
      end
  | FDrawer d, _ => set_drawer d s
  | FType p', Some (mkRoute k (RLogin _ sh sub)) => set_route k (fun _ => RLogin p' sh sub) s
  | FToggleShow, Some (mkRoute k (RLogin p sh sub)) => set_route k (fun _ => RLogin p (negb sh) sub) s
  | FLoginButton, Some (mkRoute k (RLogin p _ sub)) => if sub then s else handleLogin k p s
  | FSubmitEditing, Some (mkRoute k (RLogin p _ _)) => handleLogin k p s
  | FLoginBack, Some (mkRoute k (RLogin _ _ _)) => handleBack k s
  | FLogout, Some (mkRoute k RDashboard) => handleLogout k s
  | FAddNews, Some (mkRoute _ RDashboard) => push (RAddEdit "add" None) s
  | FEditNews n, Some (mkRoute _ RDashboard) => push (RAddEdit "edit" (Some n)) s
  | FFormBack, Some (mkRoute k (RAddEdit _ _)) => goBack k s
  | _, _ => s
  end.

Definition flow_run (s : Flow) (evs : list FlowEvent) : Flow := foldl flow_step s evs.

(** The screens of the stack, without their keys and state. *)
Definition screens (s : Flow) : list AdminRoute := screen <$> stack s.

(** ** The login screen's view *)

Record LoginView : Type := mkLoginView {
  lv_password : string;          (** the field's [value] *)
  lv_secure : bool;              (** [secureTextEntry={!showPassword}] *)
  lv_eye : string;               (** [showPassword ? 'eye-off' : 'eye'] *)
  lv_error : option string;      (** [{loginError && <Text>{loginError}</Text>}] *)
  lv_button : string;            (** [isSubmitting ? 'Logging in...' : 'Login'] *)
  lv_disabled : bool;            (** [disabled={isSubmitting}] *)
}.

Definition login_view (sc : AdminRoute) (a : AdminState) : option LoginView :=
  match sc with
  | RLogin p sh sub =>
      Some (mkLoginView p (negb sh) (if sh then "eye-off" else "eye")
              (match loginError a with Some e => if bool_decide (e = "") then None else Some e | None => None end)
              (if sub then "Logging in..." else "Login") sub)
  | _ => None
  end.

(** The admin screens, those past the login. *)
Definition admin_screen (sc : AdminRoute) : bool :=
  match sc with RLogin _ _ _ => false | RDashboard | RAddEdit _ _ => true end.

(** ** The invariant of runs that submit with the button

    The stack is one of three shapes: a login screen, submitting exactly
    when one timeout is pending, scheduled by it; the dashboard;
    or the form above the dashboard, both with a signed-in admin and no
    pending timeout.  Every key is below [nextKey]. *)
Inductive flow_inv : Flow -> Prop :=
  | inv_login d k p sh nk a :
      (k < nk)%nat -> flow_inv (mkFlow d [mkRoute k (RLogin p sh false)] nk a [])
  | inv_login_pending d k p sh nk a p' :
      (k < nk)%nat -> flow_inv (mkFlow d [mkRoute k (RLogin p sh true)] nk a [(k, p')])
  | inv_dashboard d k nk a :
      (k < nk)%nat -> isAuthenticated a = true -> flow_inv (mkFlow d [mkRoute k RDashboard] nk a [])
  | inv_form d k k' m n nk a :
      (k < k')%nat -> (k' < nk)%nat -> isAuthenticated a = true ->
      flow_inv (mkFlow d [mkRoute k RDashboard; mkRoute k' (RAddEdit m n)] nk a []).

#[local] Hint Constructors flow_inv : adminflow.

(** ** Lemmas *)

Ltac flow_simpl :=
  unfold set_route, set_stack, set_timers, set_drawer, dispatch, replace, push in *;
  repeat first
    [ progress (simpl; rewrite ?Nat.eqb_refl)
    | case_decide; try done; try lia
    | match goal with
      | |- context [if ?b then _ else _] => is_var b; destruct b
      | |- context [Nat.eqb ?a ?b] => destruct (Nat.eqb_spec a b); try lia
      end ].

Lemma flow_step_inv (s : Flow) (ev : FlowEvent) :
  flow_inv s -> ev <> FSubmitEditing -> flow_inv (flow_step s ev).
Proof.
  intros Hs Hev. destruct Hs; destruct d, ev; try done; simpl;
    unfold handleLogin, login_timeout, handleBack, handleLogout, goBack; try done;
    flow_simpl; eauto with adminflow lia.
Qed.

Lemma flow_run_inv (s : Flow) (evs : list FlowEvent) :
  flow_inv s -> Forall (fun ev => ev <> FSubmitEditing) evs -> flow_inv (flow_run s evs).
Proof.
  intros Hs Hevs. revert s Hs. induction Hevs as [|ev evs Hev _ IH]; intros s Hs; [done|].
  apply IH, flow_step_inv; done.
Qed.

Lemma flow_inv_admin (s : Flow) :
  flow_inv s -> stack s <> [] /\
  (forall r, r ∈ stack s -> admin_screen (screen r) = true -> isAuthenticated (admin s) = true).
Proof.
  intros []; split; try done; intros r Hr Ha; simpl in Hr;
    repeat (rewrite list_elem_of_cons in Hr; destruct Hr as [->|Hr]); rewrite ?list_elem_of_singleton in Hr;
    subst; simpl in *; try congruence; by apply not_elem_of_nil in Hr.
Qed.

Lemma flow_inv_initial : flow_inv flow_initial.
Proof. constructor. lia. Qed.

Lemma flow_inv_dashboard_shown (s : Flow) (k : nat) :
  flow_inv s -> shown s = Some (mkRoute k RDashboard) ->
  drawer s = DAdmin /\ stack s = [mkRoute k RDashboard] /\ (k < nextKey s)%nat.
Proof. intros []; destruct d; unfold shown; simpl; intros Hk; simplify_eq; repeat split; (done || lia). Qed.

(** The timeout of the correct password replaces the login route by the
    dashboard; that of a wrong one only dispatches [loginFailure]. *)
Lemma login_timeout_correct (d : DrawerRoute) (k nk : nat) (sc : AdminRoute) (a : AdminState)
  (tm : list (nat * string)) :
  (k < nk)%nat ->
  login_timeout k "123" (mkFlow d [mkRoute k sc] nk a tm) =
    mkFlow d [mkRoute nk RDashboard] (S nk) (adminReducer a loginSuccess) tm.
Proof.
  intros Hk. unfold login_timeout. rewrite decide_True by done.
  unfold replace, set_route, set_stack, dispatch. cbn. rewrite Nat.eqb_refl. cbn.
  destruct (Nat.eqb_spec nk k); [lia|done].
Qed.

Lemma login_timeout_wrong (d : DrawerRoute) (k k' nk : nat) (p : string) (a : AdminState)
  (tm : list (nat * string)) :
  p <> "123" -> k' <> k ->
  login_timeout k p (mkFlow d [mkRoute k' RDashboard] nk a tm) =
    mkFlow d [mkRoute k' RDashboard] nk (adminReducer a (loginFailure "Invalid password")) tm.
Proof.
  intros Hp Hk. unfold login_timeout. rewrite decide_False by done.
  unfold set_route, set_stack, dispatch. cbn. by destruct (Nat.eqb_spec k' k).
Qed.

(** From a login screen waiting for the correct password's timeout, a
    keyboard submission of another password, then both timeouts. *)
Lemma keyboard_submit_run (k nk : nat) (p0 p : string) (sh : bool) (a : AdminState) :
  (k < nk)%nat -> trim p <> "" -> p <> "123" ->
  let s' := flow_run (mkFlow DAdmin [mkRoute k (RLogin p0 sh true)] nk a [(k, "123")])
              [FType p; FSubmitEditing; FTimer; FTimer] in
  shown s' = Some (mkRoute nk RDashboard) /\ timers s' = [] /\
  isAuthenticated (admin s') = false /\ loginError (admin s') = Some "Invalid password".
Proof.
  intros Hk Hp H123 s'. subst s'.
  unfold flow_run. cbn [foldl flow_step shown last drawer stack].
  unfold set_route, set_stack. cbn [fmap list_fmap key screen stack]. rewrite Nat.eqb_refl.
  cbn [drawer stack nextKey admin timers flow_step shown last].
  unfold handleLogin. rewrite decide_False by done.
  unfold set_timers, dispatch, set_route, set_stack.
  cbn [timers stack drawer nextKey admin app fmap list_fmap key screen setIsSubmitting].
  rewrite Nat.eqb_refl. cbn [timers stack drawer nextKey admin app fmap list_fmap key screen setIsSubmitting].
  rewrite login_timeout_correct by done. cbn [timers drawer stack nextKey admin].
  rewrite login_timeout_wrong by (done || lia).
  cbn. repeat split.
Qed.

(** ** Theorems *)

(** C10: as long as the admin submits with the login button (disabled while
    submitting), the admin screens are shown only to a signed-in admin:
    after any sequence of taps, drawer changes and timeouts, the admin
    stack is not empty and, when the dashboard or the form is in it, the
    store's [isAuthenticated] is true. *)
Theorem admin_screens_require_login (evs : list FlowEvent) :
  Forall (fun ev => ev <> FSubmitEditing) evs ->
  let s := flow_run flow_initial evs in
  stack s <> [] /\
  (forall r, r ∈ stack s -> admin_screen (screen r) = true -> isAuthenticated (admin s) = true).
Proof. intros Hevs. apply flow_inv_admin, flow_run_inv; [apply flow_inv_initial|done]. Qed.

(** C17: the password field's [onSubmitEditing] is not disabled while
    submitting.  Whatever the button-driven run that led there, when the
    login screen shown is waiting for the timeout of a correct password,
    typing any other non-blank password and submitting it with the
    keyboard schedules a second timeout: the first opens the dashboard,
    the second dispatches [loginFailure], and the dashboard stays open
    while the store says nobody is signed in, with "Invalid password" as
    its login error. *)
Theorem keyboard_submit_signs_out_dashboard (evs : list FlowEvent) (k : nat) (sc : AdminRoute) (p : string) :
  Forall (fun ev => ev <> FSubmitEditing) evs ->
  let s := flow_run flow_initial evs in
  shown s = Some (mkRoute k sc) -> timers s = [(k, "123")] ->
  trim p <> "" -> p <> "123" ->
  let s' := flow_run s [FType p; FSubmitEditing; FTimer; FTimer] in
  shown s' = Some (mkRoute (nextKey s) RDashboard) /\ timers s' = [] /\
  isAuthenticated (admin s') = false /\ loginError (admin s') = Some "Invalid password".
Proof.
  intros Hevs. pose proof (flow_run_inv _ _ flow_inv_initial Hevs) as Hinv.
  destruct Hinv; destruct d; unfold shown; simpl; intros Hk Ht Hp H123; simplify_eq.
  by apply keyboard_submit_run.
Qed.

(** C27: opening the form from the dashboard (to add or to edit) and going
    back, by the arrow or the OK of the success alert, returns to the same
    dashboard route, with its state, the store and the timers unchanged;
    only the key counter has moved. *)
Theorem form_back_restores_dashboard (evs : list FlowEvent) (k : nat) :
  Forall (fun ev => ev <> FSubmitEditing) evs ->
  shown (flow_run flow_initial evs) = Some (mkRoute k RDashboard) ->
  let s := flow_run flow_initial evs in
  let back := mkFlow (drawer s) (stack s) (S (nextKey s)) (admin s) (timers s) in
  flow_run s [FAddNews; FFormBack] = back /\ (forall n, flow_run s [FEditNews n; FFormBack] = back).
Proof.
  intros Hevs Hk. pose proof (flow_run_inv _ _ flow_inv_initial Hevs) as Hinv.
  destruct (flow_inv_dashboard_shown _ _ Hinv Hk) as (Hd & Hst & Hlt).
  destruct (flow_run flow_initial evs) as [d st nk a tm]; simpl in *; subst.
  split; [|intros n]; simpl; unfold goBack; flow_simpl.
Qed.

(** C31: on runs that submit with the button, the login screen shown
    reads "Logging in..." and has its button disabled exactly while a
    timeout is pending, and reads "Login" otherwise. *)
Theorem login_button_tracks_timeout (evs : list FlowEvent) (k : nat) (sc : AdminRoute) :
  Forall (fun ev => ev <> FSubmitEditing) evs ->
  let s := flow_run flow_initial evs in
  shown s = Some (mkRoute k sc) ->
  forall v, login_view sc (admin s) = Some v ->
  (lv_disabled v = true <-> timers s <> []) /\
  lv_button v = (if bool_decide (timers s = []) then "Login" else "Logging in...").
Proof.
  intros Hevs. pose proof (flow_run_inv _ _ flow_inv_initial Hevs) as Hinv.
  destruct Hinv; destruct d; unfold shown; simpl; intros Hk v Hv; simplify_eq; simpl; repeat case_bool_decide; naive_solver.
Qed.

(** ** Concrete runs *)

Lemma admin_screens_require_login_witness :
  Forall (fun ev => ev <> FSubmitEditing) [FDrawer DAdmin; FType "123"; FLoginButton; FTimer; FAddNews] /\
  let s := flow_run flow_initial [FDrawer DAdmin; FType "123"; FLoginButton; FTimer; FAddNews] in
  stack s <> [] /\
  (forall r, r ∈ stack s -> admin_screen (screen r) = true -> isAuthenticated (admin s) = true).
Proof.
  assert (Forall (fun ev => ev <> FSubmitEditing) [FDrawer DAdmin; FType "123"; FLoginButton; FTimer; FAddNews])
    as H by (repeat constructor; discriminate).
  split; [exact H|]. apply admin_screens_require_login. exact H.
Defined.

Lemma form_back_restores_dashboard_witness :
  let evs := [FDrawer DAdmin; FType "123"; FLoginButton; FTimer] in
  let s := flow_run flow_initial evs in
  let back := mkFlow (drawer s) (stack s) (S (nextKey s)) (admin s) (timers s) in
  flow_run s [FAddNews; FFormBack] = back /\ (forall n, flow_run s [FEditNews n; FFormBack] = back).
Proof.
  apply (form_back_restores_dashboard _ 1); [repeat constructor; discriminate | reflexivity].
Defined.

Lemma login_button_tracks_timeout_witness :
  let evs := [FDrawer DAdmin; FType "12"; FLoginButton] in
  let s := flow_run flow_initial evs in
  (lv_disabled (mkLoginView "12" true "eye" None "Logging in..." true) = true <-> timers s <> []) /\
  lv_button (mkLoginView "12" true "eye" None "Logging in..." true) =
    (if bool_decide (timers s = []) then "Login" else "Logging in...").
Proof.
  apply (login_button_tracks_timeout _ 0 (RLogin "12" false true));
    [repeat constructor; discriminate | reflexivity | reflexivity].
Defined.

Lemma keyboard_submit_signs_out_dashboard_witness :
  let evs := [FDrawer DAdmin; FType "123"; FLoginButton] in
  let s := flow_run flow_initial evs in
  let s' := flow_run s [FType "1234"; FSubmitEditing; FTimer; FTimer] in
  shown s' = Some (mkRoute (nextKey s) RDashboard) /\ timers s' = [] /\
  isAuthenticated (admin s') = false /\ loginError (admin s') = Some "Invalid password".
Proof.
  apply (keyboard_submit_signs_out_dashboard _ 0 (RLogin "123" false true));
    [repeat constructor; discriminate | reflexivity | reflexivity | discriminate | discriminate].
Defined.

(** Submitting "123" twice schedules two timeouts; the first replaces the
    login screen by the dashboard, and the second's [replace] is dropped,
    its source route being gone: one dashboard, one new key. *)
Example double_submit_one_dashboard :
  let s := flow_run flow_initial [FDrawer DAdmin; FType "123"; FLoginButton; FSubmitEditing; FTimer; FTimer] in
  stack s = [mkRoute 1 RDashboard] /\ nextKey s = 2%nat /\ isAuthenticated (admin s) = true.
Proof. split; [|split]; reflexivity. Qed.

End AdminFlow.
