(* ===== verification/Navigation.v ===== *)
(** * Navigation: the navigator tree and the screens' navigation calls

    [AppNavigator.tsx] nests four navigators: a drawer ([DrawerNavigator],
    routes [MainApp] and [Admin]) whose [MainApp] route is a stack
    ([StackNavigator]: [Main], [NewsDetail], [Category]) whose [Main]
    route is the bottom tabs ([TabNavigator]: [Home], [Categories],
    [Settings]); the [Admin] route is a second stack
    ([AdminStackNavigator]: [AdminLogin], [AdminDashboard], [AddEditNews]).
    [routes] is that tree, route by route, in the source's order.

    The screens navigate with [navigation.navigate(name, params)] and
    [navigation.replace(name)]: [handleMenuPress] of
    [CustomDrawerContent.tsx], [handleCategoryPress] of
    [CategoriesScreen.tsx], [handleNewsPress]/[handleSeeMore] of
    [HorizontalNewsCarousel.tsx] and [CategoryScreen.tsx], and the
    dashboard's [handleAddNews], [handleEditNews] and [handleLogout].
    React Navigation hands an action to the navigator of the calling
    screen and, when that navigator has no route of that name, to its
    parent ([dispatch]); [replace] is a stack action, handled only by a
    stack.  [resolve] follows the nested [{ screen, params }] form into the
    child navigator.  A navigation to a navigator route without a nested
    screen focuses that route and keeps the child's own state
    ([TNavigator]); which screen that state shows is not modelled. *)

From stdpp Require Import base list strings sets.
From S2P Require Import Prelude Model Hooks Store.

Open Scope string_scope.

Module Navigation.

Import Store Hooks.

(** ** The navigator tree ([AppNavigator.tsx]) *)

Inductive Screen : Type :=
  | SplashScreen | HomeScreen | CategoriesScreen | SettingsScreen
  | NewsDetailScreen | CategoryScreen
  | AdminLoginScreen | AdminDashboardScreen | AddEditNewsScreen.

#[export] Instance Screen_eq_dec : EqDecision Screen.
Proof. solve_decision. Defined.

Inductive Navigator : Type :=
  | DrawerNavigator | StackNavigator | TabNavigator | AdminStackNavigator.

#[export] Instance Navigator_eq_dec : EqDecision Navigator.
Proof. solve_decision. Defined.

(** What a [<X.Screen component={...}>] renders. *)
Inductive Component : Type :=
  | CScreen (s : Screen)
  | CNavigator (n : Navigator).

(** The [params] object of a navigation call. *)
Inductive Params : Type :=
  | NoParams
  | PCategory (category : string)                      (** [{ category }] *)
  | PNewsId (newsId : string)                          (** [{ newsId }] *)
  | PAddEdit (mode : string) (newsItem : option NewsItem)  (** [{ mode, newsItem }] *)
  | PNested (screen : string) (params : Params).       (** [{ screen, params }] *)

Definition routes (n : Navigator) : list (string * Component) :=
  match n with
  | TabNavigator =>
      [("Home", CScreen HomeScreen); ("Categories", CScreen CategoriesScreen);
       ("Settings", CScreen SettingsScreen)]
  | StackNavigator =>
      [("Main", CNavigator TabNavigator); ("NewsDetail", CScreen NewsDetailScreen);
       ("Category", CScreen CategoryScreen)]
  | AdminStackNavigator =>
      [("AdminLogin", CScreen AdminLoginScreen);
       ("AdminDashboard", CScreen AdminDashboardScreen);
       ("AddEditNews", CScreen AddEditNewsScreen)]
  | DrawerNavigator =>
      [("MainApp", CNavigator StackNavigator); ("Admin", CNavigator AdminStackNavigator)]
  end.

Definition is_stack (n : Navigator) : bool :=
  match n with
  | StackNavigator | AdminStackNavigator => true
  | _ => false
  end.

(** The navigator itself, then the navigators it is nested in, innermost
    first. *)
Definition ancestors (n : Navigator) : list Navigator :=
  match n with
  | TabNavigator => [TabNavigator; StackNavigator; DrawerNavigator]
  | StackNavigator => [StackNavigator; DrawerNavigator]
  | AdminStackNavigator => [AdminStackNavigator; DrawerNavigator]
  | DrawerNavigator => [DrawerNavigator]
  end.

(** The navigator whose route renders a screen: the [navigation] prop a
    screen receives belongs to it.  The splash screen is rendered outside
    the [NavigationContainer]'s navigators. *)
Definition host (s : Screen) : option Navigator :=
  match s with
  | SplashScreen => None
  | HomeScreen | CategoriesScreen | SettingsScreen => Some TabNavigator
  | NewsDetailScreen | CategoryScreen => Some StackNavigator
  | AdminLoginScreen | AdminDashboardScreen | AddEditNewsScreen => Some AdminStackNavigator
  end.

(** ** Actions and their dispatch (React Navigation) *)

Inductive NavAction : Type :=
  | Navigate (name : string) (params : Params)   (** [navigation.navigate(name, params)] *)
  | Replace (name : string).                     (** [navigation.replace(name)] *)

Definition action_name (a : NavAction) : string :=
  match a with Navigate name _ => name | Replace name => name end.

Definition action_params (a : NavAction) : Params :=
  match a with Navigate _ p => p | Replace _ => NoParams end.

Definition handles (n : Navigator) (a : NavAction) : bool :=
  bool_decide (action_name a ∈ fst <$> routes n) &&
  match a with Replace _ => is_stack n | Navigate _ _ => true end.

(** The navigator that handles an action issued from a navigator: the
    first one, going outwards, with a route of that name. *)
Definition dispatch (from : Navigator) (a : NavAction) : option Navigator :=
  snd <$> list_find (fun n => handles n a = true) (ancestors from).

(** What the handling navigator shows: a screen with its params, or a
    child navigator focused with its own state kept. *)
Inductive Target : Type :=
  | TScreen (s : Screen) (params : Params)
  | TNavigator (n : Navigator).

Fixpoint resolve (n : Navigator) (name : string) (p : Params) : option Target :=
  match assoc name (routes n) with
  | Some (CScreen s) => Some (TScreen s p)
  | Some (CNavigator m) =>
      match p with
      | PNested scr p' => resolve m scr p'
      | _ => Some (TNavigator m)
      end
  | None => None
  end.

Definition navigate_from (from : Navigator) (a : NavAction) : option Target :=
  n ← dispatch from a; resolve n (action_name a) (action_params a).

(** ** The navigation calls of the screens *)

(** [CustomDrawerContent]'s [menuItems] and [handleMenuPress]. *)
Record MenuItem : Type := mkMenuItem {
  item_id : string;
  title : string;
  icon : string;
  screen : string
}.

Definition menuItems : list MenuItem :=
  [mkMenuItem "home" "Home" "home-outline" "MainApp";
   mkMenuItem "latest" "Latest" "information-circle-outline" "Category";
   mkMenuItem "sports" "Sports" "football-outline" "Category";
   mkMenuItem "global" "Global" "globe-outline" "Category";
   mkMenuItem "tech" "Technology" "laptop-outline" "Category";
   mkMenuItem "admin" "Admin Panel" "lock-closed-outline" "Admin"].

Definition handleMenuPress (item : MenuItem) : NavAction :=
  if decide (screen item = "Category") then
    Navigate "MainApp" (PNested "Category" (PCategory (item_id item)))
  else if decide (screen item = "Admin") then Navigate "Admin" NoParams
  else Navigate "MainApp" NoParams.

(** [CategoriesScreen]'s [categories] and [handleCategoryPress]. *)
Record CategoryCard : Type := mkCategoryCard {
  card_id : string;
  name : string;
  displayName : string;
  description : string;
  card_icon : string;
  color : string;
  image : string
}.

Definition categories : list CategoryCard :=
  [mkCategoryCard "latest" "latest" "Latest News" "Breaking news and latest updates"
     "time-outline" "#ff3b30" "https://picsum.photos/seed/latest/400/200.jpg";
   mkCategoryCard "global" "global" "Global" "News from around the world"
     "globe-outline" "#007AFF" "https://picsum.photos/seed/global/400/200.jpg";
   mkCategoryCard "sports" "sports" "Sports" "Latest sports news and updates"
     "football-outline" "#34c759" "https://picsum.photos/seed/sports/400/200.jpg";
   mkCategoryCard "tech" "tech" "Technology" "Tech news and innovations"
     "laptop-outline" "#5856d6" "https://picsum.photos/seed/tech/400/200.jpg"].

Definition handleCategoryPress (category : CategoryCard) : NavAction :=
  Navigate "Category" (PCategory (card_id category)).

(** [HorizontalNewsCarousel]: a card press opens the article; the SEE MORE
    button, rendered only when [category] is truthy, opens the category. *)
Definition handleNewsPress (newsItem : NewsItem) : NavAction :=
  Navigate "NewsDetail" (PNewsId (id newsItem)).

Definition handleSeeMore (category : option string) : option NavAction :=
  match category with
  | Some c => if truthy c then Some (Navigate "Category" (PCategory c)) else None
  | None => None
  end.

(** The four carousels of [HomeScreen]: [title] and [category] props. *)
Definition home_carousels : list (string * string) :=
  [("Latest", "latest"); ("Global", "global"); ("Sports", "sports"); ("Technology", "tech")].

(** [AdminDashboardScreen]'s handlers; [handleLogout] also dispatches
    [logout()]. *)
Definition handleLogout : AdminAction * NavAction := (logout, Replace "AdminLogin").

Definition handleAddNews : NavAction := Navigate "AddEditNews" (PAddEdit "add" None).

Definition handleEditNews (newsItem : NewsItem) : NavAction :=
  Navigate "AddEditNews" (PAddEdit "edit" (Some newsItem)).

(** [AdminLoginScreen]'s timeout after a correct password. *)
Definition login_replace : NavAction := Replace "AdminDashboard".

(** The [tabBarIcon] of [TabNavigator]'s [screenOptions]. *)
Definition tabBarIcon (routeName : string) (focused : bool) : string :=
  if decide (routeName = "Home") then (if focused then "home" else "home-outline")
  else if decide (routeName = "Categories") then (if focused then "grid" else "grid-outline")
  else if decide (routeName = "Settings") then (if focused then "settings" else "settings-outline")
  else "help-outline".

(** [AppNavigator]: the splash screen until its 5000 ms timer fires,
    then the drawer; unmounting clears the timer. *)
Record AppNavigatorState : Type := mkAppNavigatorState {
  showSplash : bool;
  splash_timer : bool;           (** the [setTimeout] is pending *)
}.

Inductive AppNavigatorEvent : Type := NavMount | NavSplashTimer | NavUnmount.

Definition appNavigator_step (s : AppNavigatorState) (ev : AppNavigatorEvent) : AppNavigatorState :=
  match ev with
  | NavMount => mkAppNavigatorState true true
  | NavSplashTimer => if splash_timer s then mkAppNavigatorState false false else s
  | NavUnmount => mkAppNavigatorState (showSplash s) false
  end.

Definition AppNavigator (s : AppNavigatorState) : Component :=
  if showSplash s then CScreen SplashScreen else CNavigator DrawerNavigator.

(** Where a navigation call comes from: the drawer's content (it gets the
    drawer's [navigation]) or a screen (it gets its host's). *)
Inductive Origin : Type :=
  | ODrawer
  | OScreen (s : Screen).

Definition origin_navigator (o : Origin) : option Navigator :=
  match o with ODrawer => Some DrawerNavigator | OScreen s => host s end.

(** Every navigation call of the source, with its origin. *)
Inductive issues : Origin -> NavAction -> Prop :=
  | issues_menu item :
      item ∈ menuItems -> issues ODrawer (handleMenuPress item)
  | issues_category_card c :
      c ∈ categories -> issues (OScreen CategoriesScreen) (handleCategoryPress c)
  | issues_home_news n :
      issues (OScreen HomeScreen) (handleNewsPress n)
  | issues_home_see_more t c a :
      (t, c) ∈ home_carousels -> handleSeeMore (Some c) = Some a -> issues (OScreen HomeScreen) a
  | issues_category_news n :
      issues (OScreen CategoryScreen) (handleNewsPress n)
  | issues_login :
      issues (OScreen AdminLoginScreen) login_replace
  | issues_logout :
      issues (OScreen AdminDashboardScreen) handleLogout.2
  | issues_add :
      issues (OScreen AdminDashboardScreen) handleAddNews
  | issues_edit n :
      issues (OScreen AdminDashboardScreen) (handleEditNews n).

(** What each screen destructures from [route.params]:
    [CategoryScreen] a [category] (CategoryScreen.tsx:17),
    [NewsDetailScreen] a [newsId] (NewsDetailScreen.tsx:18),
    [AddEditNewsScreen] a [mode] of ['add' | 'edit'] and a [newsItem]
    (AddEditNewsScreen.tsx:31); the others read no params. *)
Definition params_ok (s : Screen) (p : Params) : bool :=
  match s, p with
  | CategoryScreen, PCategory c => bool_decide (is_Some (category_of_string c))
  | CategoryScreen, _ => false
  | NewsDetailScreen, PNewsId _ => true
  | NewsDetailScreen, _ => false
  | AddEditNewsScreen, PAddEdit m _ => bool_decide (m = "add" \/ m = "edit")
  | AddEditNewsScreen, _ => false
  | _, _ => true
  end.

Definition target_ok (t : Target) : bool :=
  match t with TScreen s p => params_ok s p | TNavigator _ => true end.

(** The query a screen opened with these params runs: [useNewsByCategory
    (category)] and [useNewsById(newsId)]. *)
Definition screen_query (s : Screen) (p : Params) : option AppQuery :=
  match s, p with
  | CategoryScreen, PCategory c => Some (HCategory c)
  | NewsDetailScreen, PNewsId i => Some (HById i)
  | _, _ => None
  end.

(** ** Properties *)


(** The drawer's item, the categories tab's card and the home
    screen's SEE MORE button of a category all open [CategoryScreen] with
    that category, so the three entry points run the same query
    [useNewsByCategory(category)] and share its cache entry. *)
Theorem category_entry_points (c : Category) :
  let t := TScreen CategoryScreen (PCategory (category_to_string c)) in
  screen_query CategoryScreen (PCategory (category_to_string c)) =
    Some (HCategory (category_to_string c)) /\
  (exists item, item ∈ menuItems /\ navigate_from DrawerNavigator (handleMenuPress item) = Some t) /\
  (exists card, card ∈ categories /\ navigate_from TabNavigator (handleCategoryPress card) = Some t) /\
  (exists title a, (title, category_to_string c) ∈ home_carousels /\
     handleSeeMore (Some (category_to_string c)) = Some a /\ navigate_from TabNavigator a = Some t).
Proof.
  destruct c; simpl; unfold menuItems, categories, home_carousels; (split; [reflexivity|]);
    (split; [pick_exists|]); (split; [pick_exists|]);
    (eexists _, _; split; [pick_elem|split; reflexivity]).
Qed.

(** ** Examples *)

Definition sports_item : MenuItem := mkMenuItem "sports" "Sports" "football-outline" "Category".


End Navigation.
