(* ===== verification/Menus.v ===== *)
(** * Menus: the drawer's content and the categories tab as rendered

    [CustomDrawerContent.tsx] renders a header (logo, app name, tagline),
    a "Menu" section with one button per [menuItems] entry, whose
    [onPress] is [handleMenuPress(item)], and a footer.
    [CategoriesScreen.tsx] renders a header and one card per
    [categories] entry (image, coloured icon, display name, description),
    whose [onPress] is [handleCategoryPress(item)].  The buttons carry
    the navigation action they issue; composed with the navigator tree of
    [Navigation] they show where each one leads. *)

From stdpp Require Import base list strings.
From S2P Require Import Prelude Model Hooks Store Navigation.

Open Scope string_scope.

Module Menus.
Import Navigation.

(** ** CustomDrawerContent *)

Record MenuButton : Type := mkMenuButton {
  mb_title : string;
  mb_icon : string;
  mb_onPress : NavAction;
}.

Record DrawerView : Type := mkDrawerView {
  dv_logo : string;
  dv_appName : string;
  dv_tagline : string;
  dv_section : string;
  dv_items : list MenuButton;
  dv_footer : list string;
}.

Definition CustomDrawerContent : DrawerView :=
  mkDrawerView "https://picsum.photos/seed/newslogo/100/100.jpg" "NEWS APP" "Your Daily News Source"
    "Menu" ((fun item => mkMenuButton (title item) (icon item) (handleMenuPress item)) <$> menuItems)
    ["Version 1.0.0"; "© 2024 News App"].

(** ** CategoriesScreen *)

Record CategoryButton : Type := mkCategoryButton {
  cb_image : string;
  cb_color : string;
  cb_icon : string;
  cb_title : string;             (** [item.displayName] *)
  cb_description : string;
  cb_onPress : NavAction;
}.

Record CategoriesView : Type := mkCategoriesView {
  cv_title : string;
  cv_subtitle : string;
  cv_cards : list CategoryButton;
}.

Definition CategoriesScreenView : CategoriesView :=
  mkCategoriesView "Categories" "Browse news by category"
    ((fun c => mkCategoryButton (image c) (color c) (card_icon c) (displayName c) (description c)
                 (handleCategoryPress c)) <$> categories).

(** ** Where the buttons lead *)

(** The drawer's buttons are dispatched from the drawer navigator; the
    categories tab's from the tab navigator it is a screen of. *)
Definition drawer_targets : list (string * option Target) :=
  (fun b => (mb_title b, navigate_from DrawerNavigator (mb_onPress b))) <$> dv_items CustomDrawerContent.

Definition category_targets : list (string * option Target) :=
  (fun b => (cb_title b, navigate_from TabNavigator (cb_onPress b))) <$> cv_cards CategoriesScreenView.

(** Home focuses the main stack, each category item opens [CategoryScreen]
    of its id inside the main stack, and Admin Panel focuses the admin
    stack. *)
Example drawer_targets_computed :
  drawer_targets =
    [("Home", Some (TNavigator StackNavigator));
     ("Latest", Some (TScreen CategoryScreen (PCategory "latest")));
     ("Sports", Some (TScreen CategoryScreen (PCategory "sports")));
     ("Global", Some (TScreen CategoryScreen (PCategory "global")));
     ("Technology", Some (TScreen CategoryScreen (PCategory "tech")));
     ("Admin Panel", Some (TNavigator AdminStackNavigator))].
Proof. reflexivity. Qed.

Example category_targets_computed :
  category_targets =
    [("Latest News", Some (TScreen CategoryScreen (PCategory "latest")));
     ("Global", Some (TScreen CategoryScreen (PCategory "global")));
     ("Sports", Some (TScreen CategoryScreen (PCategory "sports")));
     ("Technology", Some (TScreen CategoryScreen (PCategory "tech")))].
Proof. reflexivity. Qed.

End Menus.
