(* ===== verification/Components.v ===== *)
(** * Components: [NewsCard], [HorizontalNewsCarousel], [HorizontalTextTicker]

    [NewsCard.tsx] renders one article: its image (a default picture when
    [image_url] is falsy), [category.toUpperCase()], the title, the
    description, ["By " + author] and [formatDate(published_at)]
    ([DateFormat]); pressing it calls [onPress(news)].
    [HorizontalNewsCarousel.tsx] renders a titled row of cards, a SEE MORE
    button when its [category] prop is truthy, and the empty state ["No news
    available"] when [news] is empty.  [HomeScreen] passes each section's
    list with the section's category ([home_carousels_view]).  The device's
    time zone is the parameter [tzOffset] (minutes from UTC).
    [HorizontalTextTicker.tsx] measures its text and container and runs one
    looping animation of its [translateX] for the widths measured. *)

From stdpp Require Import base list strings.
From Stdlib Require Import ZArith QArith.
From S2P Require Import Prelude Model Gateway Hooks Screens DateFormat.

Open Scope string_scope.

Module Components.
Import Gateway Hooks Screens DateFormat.

(** ** NewsCard *)

Record CardView : Type := mkCardView {
  card_image : string;
  card_category : string;
  card_title : string;
  card_description : string;
  card_author_line : string;
  card_date : string;
}.

Definition NewsCard (tzOffset : Z) (news : NewsItem) : CardView :=
  mkCardView (or_default (image_url news) card_default_image)
    (toUpperCase (category_to_string (category news))) (title news) (description news)
    (String.append "By " (author news)) (formatDate tzOffset (published_at news)).

(** ** HorizontalNewsCarousel *)

Inductive CarouselBody : Type :=
  | CarouselCards (cards : list CardView)
  | CarouselEmpty (text subtext : string).

Record CarouselView : Type := mkCarouselView {
  carousel_title : string;
  seeMore : bool;                       (** [{category && <TouchableOpacity ...>}] *)
  body : CarouselBody;
}.

Definition HorizontalNewsCarousel (tzOffset : Z) (title : string) (news : list NewsItem)
  (category : option string) : CarouselView :=
  mkCarouselView title
    (match category with Some c => truthy c | None => false end)
    (match news with
     | [] => CarouselEmpty "No news available" "Check back later for updates"
     | _ => CarouselCards (NewsCard tzOffset <$> news)
     end).

(** [HomeScreen]'s four [<HorizontalNewsCarousel title=... news={... || []}
    category=... />]. *)
Definition home_carousels_view (tzOffset : Z) (v : HomeView) : list CarouselView :=
  match v with
  | HomeContent sections =>
      (fun '(t, c, l) => HorizontalNewsCarousel tzOffset t l (Some (category_to_string c))) <$> sections
  | _ => []
  end.

(** ** HorizontalTextTicker

    Its state is the two measured widths and the animation running on its
    [translateX] value.  Its effect, re-run by React whenever [textWidth]
    or [containerWidth] changes (the other dependencies, [speed] and the
    [translateX] ref, do not change), starts, once [textWidth > 0], an
    [Animated.loop] of an [Animated.timing] of [translateX] to
    [-textWidth - containerWidth] over [(textWidth + containerWidth) /
    speed * 1000] ms.  Starting an animation on an [Animated.Value] stops
    the one running on it ([AnimatedValue.animate]), so a new loop
    replaces the previous one.  The component is imported by
    [HomeScreen] but not rendered. *)
Record Timing : Type := mkTiming {
  toValue : Z;                   (** [toValue: -textWidth - containerWidth] *)
  duration : Q;                  (** [duration], in ms *)
}.

Record TickerState : Type := mkTickerState {
  textWidth : Z;
  containerWidth : Z;
  animation : option Timing;     (** the loop running on [translateX] *)
}.

(** [useState(0)], [useState(screenWidth)], nothing animating. *)
Definition ticker_mount (screenWidth : Z) : TickerState := mkTickerState 0 screenWidth None.

Definition ticker_timing (speed : Q) (tw cw : Z) : Timing :=
  mkTiming (- tw - cw) (Qmult (Qdiv (inject_Z (tw + cw)) speed) (inject_Z 1000)).

Definition ticker_effect (speed : Q) (s : TickerState) : TickerState :=
  if (0 <? textWidth s)%Z
  then mkTickerState (textWidth s) (containerWidth s) (Some (ticker_timing speed (textWidth s) (containerWidth s)))
  else s.

Inductive TickerEvent : Type :=
  | TextLayout (width : Z)          (** [handleTextLayout] *)
  | ContainerLayout (width : Z).    (** [handleContainerLayout] *)

(** A layout event sets its width; React re-runs the effect only when the
    width changed. *)
Definition ticker_step (speed : Q) (s : TickerState) (ev : TickerEvent) : TickerState :=
  match ev with
  | TextLayout w =>
      if bool_decide (w = textWidth s) then s
      else ticker_effect speed (mkTickerState w (containerWidth s) (animation s))
  | ContainerLayout w =>
      if bool_decide (w = containerWidth s) then s
      else ticker_effect speed (mkTickerState (textWidth s) w (animation s))
  end.

Definition ticker_run (speed : Q) (s : TickerState) (evs : list TickerEvent) : TickerState :=
  foldl (ticker_step speed) s evs.

(** The animation the current widths call for. *)
Definition ticker_current (speed : Q) (s : TickerState) : option Timing :=
  if (0 <? textWidth s)%Z then Some (ticker_timing speed (textWidth s) (containerWidth s)) else None.

(** A rendered text has a positive width. *)
Definition text_measured (ev : TickerEvent) : Prop :=
  match ev with TextLayout w => (0 < w)%Z | ContainerLayout _ => True end.

(** ** Theorems *)

(** The four newest rows of a category, as the limited readers give them. *)
Definition top4 (c : Category) (t : Table) : list NewsItem :=
  limit 4 (order_published_desc (eq_category (category_to_string c) (rows t))).

Definition home_sections : list (string * Category) :=
  [("Latest", Latest); ("Global", Global); ("Sports", Sports); ("Technology", Tech)].

(** C23: once the home screen's four lists have loaded from a healthy
    backend, it shows the carousels Latest, Global, Sports and Technology,
    in that order, each with its SEE MORE button and the cards of the four
    newest articles of its category, newest first (the empty state when
    the category has none). *)
Theorem home_carousels_after_load (e : Env) (t : Table) (tz : Z) :
  env_fault e = None ->
  home_carousels_view tz
    (HomeScreen (settled_result (hook_queryFn (HLatest 4) e t))
       (settled_result (hook_queryFn (HGlobal 4) e t))
       (settled_result (hook_queryFn (HSports 4) e t))
       (settled_result (hook_queryFn (HTech 4) e t))) =
  (fun '(title, c) => HorizontalNewsCarousel tz title (top4 c t) (Some (category_to_string c)))
    <$> home_sections /\
  Forall (fun v => seeMore v = true)
    (home_carousels_view tz
       (HomeScreen (settled_result (hook_queryFn (HLatest 4) e t))
          (settled_result (hook_queryFn (HGlobal 4) e t))
          (settled_result (hook_queryFn (HSports 4) e t))
          (settled_result (hook_queryFn (HTech 4) e t)))).
Proof.
  intros He. cbn [hook_queryFn]. unfold getLatestNews, getGlobalNews, getSportsNews, getTechNews.
  rewrite !getCategoryNewsLimited_ok by done. split; [reflexivity|].
  repeat constructor.
Qed.

Lemma ticker_step_current (speed : Q) (s : TickerState) (ev : TickerEvent) :
  animation s = ticker_current speed s -> text_measured ev ->
  animation (ticker_step speed s ev) = ticker_current speed (ticker_step speed s ev).
Proof.
  intros Hs Hev. destruct ev as [w|w]; cbn [ticker_step text_measured] in *;
    (destruct (bool_decide _); [done|]); unfold ticker_effect, ticker_current in *; simpl in *;
    repeat (case_match; simpl in *); rewrite ?Hs; rewrite ?Z.ltb_lt, ?Z.ltb_ge in *; (done || lia || congruence).
Qed.

Lemma ticker_run_current (speed : Q) (s : TickerState) (evs : list TickerEvent) :
  animation s = ticker_current speed s -> Forall text_measured evs ->
  animation (ticker_run speed s evs) = ticker_current speed (ticker_run speed s evs).
Proof.
  intros Hs Hevs. revert s Hs. induction Hevs as [|ev evs Hev _ IH]; intros s Hs; [done|].
  apply IH, ticker_step_current; done.
Qed.

(** C25: the ticker runs exactly the loop its current widths call for:
    after any sequence of layout events in which the text is measured with
    a positive width, nothing animates while the text has no width, and
    otherwise one loop runs, to [-textWidth - containerWidth] over
    [(textWidth + containerWidth) / speed * 1000] ms for the widths last
    measured; the loops of earlier widths have been stopped. *)
Theorem ticker_runs_current_loop (speed : Q) (screenWidth : Z) (evs : list TickerEvent) :
  Forall text_measured evs ->
  animation (ticker_run speed (ticker_mount screenWidth) evs) =
    ticker_current speed (ticker_run speed (ticker_mount screenWidth) evs).
Proof. intros Hevs. apply ticker_run_current; [reflexivity|done]. Qed.

(** ** Concrete runs *)

Lemma home_carousels_after_load_witness :
  home_carousels_view 0
    (HomeScreen (settled_result (hook_queryFn (HLatest 4) env_ok sample_table))
       (settled_result (hook_queryFn (HGlobal 4) env_ok sample_table))
       (settled_result (hook_queryFn (HSports 4) env_ok sample_table))
       (settled_result (hook_queryFn (HTech 4) env_ok sample_table))) =
  (fun '(title, c) => HorizontalNewsCarousel 0 title (top4 c sample_table) (Some (category_to_string c)))
    <$> home_sections /\
  Forall (fun v => seeMore v = true)
    (home_carousels_view 0
       (HomeScreen (settled_result (hook_queryFn (HLatest 4) env_ok sample_table))
          (settled_result (hook_queryFn (HGlobal 4) env_ok sample_table))
          (settled_result (hook_queryFn (HSports 4) env_ok sample_table))
          (settled_result (hook_queryFn (HTech 4) env_ok sample_table)))).
Proof. apply home_carousels_after_load. reflexivity. Defined.

(** The sports carousel of the sample table: two cards, newest first. *)
Example sample_sports_cards :
  body (HorizontalNewsCarousel 0 "Sports" (top4 Sports sample_table) (Some "sports")) =
  CarouselCards [NewsCard 0 art_derby; NewsCard 0 art_final].
Proof. vm_compute. reflexivity. Qed.

(** The layout pass measures the text (300 px) and then a rotation
    changes the container from 390 px to 844 px: the loop of the first
    widths is stopped and one loop of the new widths runs, 1144 px in
    22.88 s at the default speed of 50 px/s. *)
Example ticker_rotation :
  animation (ticker_run 50 (ticker_mount 390) [TextLayout 300; ContainerLayout 844]) =
    Some (mkTiming (-1144) (Qmult (Qdiv 1144 50) 1000)).
Proof. reflexivity. Qed.

(** When the text is later measured 0 px wide (the [text] prop became
    empty), the effect's guard skips it and the loop of the old widths
    keeps scrolling the empty text. *)
Example ticker_empty_text_keeps_loop :
  animation (ticker_run 50 (ticker_mount 390) [TextLayout 300; TextLayout 0]) =
    Some (ticker_timing 50 300 390).
Proof. reflexivity. Qed.

Lemma ticker_runs_current_loop_witness :
  Forall text_measured [TextLayout 300; ContainerLayout 844] /\
  animation (ticker_run 50 (ticker_mount 390) [TextLayout 300; ContainerLayout 844]) =
    ticker_current 50 (ticker_run 50 (ticker_mount 390) [TextLayout 300; ContainerLayout 844]).
Proof.
  assert (H : Forall text_measured [TextLayout 300; ContainerLayout 844])
    by (repeat constructor; simpl; lia).
  split; [exact H|]. apply ticker_runs_current_loop. exact H.
Defined.

End Components.
