(* ===== verification/Journeys.v ===== *)
(** * Journeys: what a reader sees across screens

    A news card is rendered by [HorizontalNewsCarousel] on the home tab
    (a screen of [TabNavigator]) and by [CategoryScreen] (a screen of the
    main [StackNavigator]); its [onPress] is [handleNewsPress], which
    navigates to [NewsDetail] with the card's id.  The detail screen runs
    [useNewsById(newsId)], whose query function is [getNewsById], and
    renders the article with a [VideoPlayer] that plays
    [getVideoUrl(news.video_url)] with autoplay on.  This file composes
    the navigator tree ([Navigation]), the hook ([Hooks]), the gateway
    ([Gateway]), the detail screen ([Screens]) and the player ([Video])
    along that path, and states [App]: the store ([Store]), the empty
    query cache ([QueryCache]) and the navigator ([Navigation]) that
    [App.tsx] composes. *)

From stdpp Require Import base list strings sets.
From S2P Require Import Prelude Model Gateway QueryCache Hooks Screens Video Store Navigation.

Open Scope string_scope.

Module Journeys.
Import Gateway QueryCache Hooks Screens Video Store Navigation.

(** The navigators a news card is pressed in: the home tab's and the
    category screen's. *)
Definition card_hosts : list Navigator := [TabNavigator; StackNavigator].

(** The detail screen a target shows, once its query has settled. *)
Definition detail_after_load (e : Env) (t : Table) (tg : option Target) : option DetailView :=
  match tg with
  | Some (TScreen s p) =>
      h ← screen_query s p;
      Some (Screens.Screens.NewsDetailScreen (settled_result (hook_queryFn h e t)))
  | _ => None
  end.

(** ** The app as it starts

    [App.tsx] wraps [AppNavigator] in the Redux [Provider] of [store] and
    the [QueryClientProvider] of [queryClient], a [new QueryClient] whose
    cache starts empty. *)
Record AppState : Type := mkAppState {
  app_store : RootState;
  app_client : AppClient;
  app_navigator : AppNavigatorState;
}.

Definition App : AppState :=
  mkAppState root_initialState (emptyClient : AppClient)
    (appNavigator_step (mkAppNavigatorState true false) NavMount).

(** ** Theorems *)

(** C18: pressing the card of any stored article, on the home tab or on a
    category screen, opens [NewsDetailScreen] with that article's id; on a
    healthy backend whose ids are unique, the screen then shows that very
    article, its image or the placeholder, and a player that starts
    playing [getVideoUrl] of its video URL. *)
Theorem card_opens_its_article (e : Env) (t : Table) (o : Navigator) (n : NewsItem) :
  env_fault e = None -> table_wf t -> n ∈ rows t -> o ∈ card_hosts ->
  navigate_from o (handleNewsPress n) = Some (TScreen Navigation.Navigation.NewsDetailScreen (PNewsId (id n))) /\
  detail_after_load e t (navigate_from o (handleNewsPress n)) =
    Some (DetailContent n (or_default (image_url n) detail_default_image) (getVideoUrl (video_url n)) true) /\
  render (mount (getVideoUrl (video_url n)) true) =
    PlayerView (videoSource (getVideoUrl (video_url n))) "pause-circle" "Playing...".
Proof.
  intros He Hwf Hn Ho.
  assert (navigate_from o (handleNewsPress n) = Some (TScreen Navigation.Navigation.NewsDetailScreen (PNewsId (id n)))) as Hnav
    by (unfold card_hosts in Ho; decompose_list_elem_of; subst; reflexivity).
  rewrite Hnav. split; [done|split; [|done]].
  simpl. by rewrite (getNewsById_found e (id n) t n).
Qed.

(** ** Concrete runs *)

Lemma card_opens_its_article_witness :
  navigate_from TabNavigator (handleNewsPress art_chip) = Some (TScreen Navigation.Navigation.NewsDetailScreen (PNewsId (id art_chip))) /\
  detail_after_load env_ok sample_table (navigate_from TabNavigator (handleNewsPress art_chip)) =
    Some (DetailContent art_chip (or_default (image_url art_chip) detail_default_image)
            (getVideoUrl (video_url art_chip)) true) /\
  render (mount (getVideoUrl (video_url art_chip)) true) =
    PlayerView (videoSource (getVideoUrl (video_url art_chip))) "pause-circle" "Playing...".
Proof.
  apply card_opens_its_article;
    [reflexivity | apply sample_table_wf | simpl; set_solver | unfold card_hosts; pick_elem].
Defined.

(** The app opens on the splash screen with nothing cached and nobody
    signed in; its timer then shows the drawer. *)
Example App_starts :
  AppNavigator (app_navigator App) = CScreen SplashScreen /\
  AppNavigator (appNavigator_step (app_navigator App) NavSplashTimer) = CNavigator DrawerNavigator /\
  queries (app_client App) = ∅ /\ isAuthenticated (admin (app_store App)) = false.
Proof. repeat split. Qed.

End Journeys.
